(** * doj-jbook: extraction and fusion pipeline

    A shallow embedding of the ETL core of the repository
    ([etl/r2_parser.py], [etl/fusion.py], [etl/schema.py],
    [etl/xml_r3_parser.py]) together with the properties its
    specification states about it.

    Conventions of the embedding.
    - A Python [str] is a [string]; characters are read as ASCII code
      points, and the character predicates below are the restriction of
      Python's to that range.
    - [Optional[T]] is [option T]; a dict read only through [.get] with a
      fixed set of keys is a record of options; the identifier-to-bundle
      lookup is a [gmap string _].
    - A call wrapped in [try/except] returns an [option]: [None] stands for
      the handled exception. A call that is under no handler returns an
      [outcome]: [Raises] stands for the exception that leaves it.
    - A float is a binary64 number, carried as its exact value; the
      conversions round as [float] does. *)

From Stdlib Require Import ZArith QArith Ascii String List Bool Lia.
From stdpp Require Import base option list gmap strings.

Local Open Scope string_scope.

(** ** Python string primitives used by the parsers *)

Module Py.

(** [str.isspace] / the regex class [\s] on the ASCII range. *)
Definition is_space (c : ascii) : bool :=
  let n := N_of_ascii c in
  ((9 <=? n) && (n <=? 13) || (28 <=? n) && (n <=? 32))%N.

Definition is_upper (c : ascii) : bool :=
  let n := N_of_ascii c in ((65 <=? n) && (n <=? 90))%N.

Definition is_lower (c : ascii) : bool :=
  let n := N_of_ascii c in ((97 <=? n) && (n <=? 122))%N.

Definition is_digit (c : ascii) : bool :=
  let n := N_of_ascii c in ((48 <=? n) && (n <=? 57))%N.

(** The regex class [\w] on the ASCII range. *)
Definition is_word (c : ascii) : bool :=
  is_upper c || is_lower c || is_digit c || Ascii.eqb c "_".

Definition lower_char (c : ascii) : ascii :=
  if is_upper c then ascii_of_N (N_of_ascii c + 32) else c.

Definition upper_char (c : ascii) : ascii :=
  if is_lower c then ascii_of_N (N_of_ascii c - 32) else c.

(** [s.lower()] and [s.upper()]. *)
Fixpoint lower (s : string) : string :=
  match s with
  | "" => ""
  | String c s' => String (lower_char c) (lower s')
  end.

Fixpoint upper (s : string) : string :=
  match s with
  | "" => ""
  | String c s' => String (upper_char c) (upper s')
  end.

Fixpoint lstrip (s : string) : string :=
  match s with
  | "" => ""
  | String c s' => if is_space c then lstrip s' else s
  end.

Fixpoint rstrip (s : string) : string :=
  match s with
  | "" => ""
  | String c s' =>
      match rstrip s' with
      | "" => if is_space c then "" else String c ""
      | r => String c r
      end
  end.

(** [s.strip()]. *)
Definition strip (s : string) : string := rstrip (lstrip s).

(** Truth value of a string: [bool(s)]. *)
Definition truthy (s : string) : bool :=
  match s with "" => false | _ => true end.

(** [s.startswith(p)]. *)
Fixpoint startswith (p s : string) : bool :=
  match p, s with
  | "", _ => true
  | String a p', String b s' => Ascii.eqb a b && startswith p' s'
  | String _ _, "" => false
  end.

(** [sub in s]. *)
Fixpoint contains (sub s : string) : bool :=
  startswith sub s ||
  match s with
  | "" => false
  | String _ s' => contains sub s'
  end.

(** [s.endswith(p)]. *)
Definition endswith (p s : string) : bool :=
  startswith (String.rev p) (String.rev s).

(** [s.replace(",", "")]. *)
Fixpoint remove_commas (s : string) : string :=
  match s with
  | "" => ""
  | String c s' =>
      if Ascii.eqb c "," then remove_commas s' else String c (remove_commas s')
  end.

(** [sep.join(l)]. *)
Fixpoint join (sep : string) (l : list string) : string :=
  match l with
  | [] => ""
  | [x] => x
  | x :: l' => x +:+ sep +:+ join sep l'
  end.

(** Slices [s[n:]] and [s[:n]]. *)
Fixpoint drop (n : nat) (s : string) : string :=
  match n, s with
  | O, _ => s
  | S n', String _ s' => drop n' s'
  | S _, "" => ""
  end.

Fixpoint take (n : nat) (s : string) : string :=
  match n, s with
  | O, _ => ""
  | S n', String c s' => String c (take n' s')
  | S _, "" => ""
  end.

(** [a or b] on optional strings: the first operand unless it is [None] or
    empty. *)
Definition or_else (a b : option string) : option string :=
  match a with
  | Some s => if truthy s then a else b
  | None => b
  end.

(** [a or ""] and the like, where the right operand is a string. *)
Definition or_str (a : option string) (b : string) : string :=
  match a with
  | Some s => if truthy s then s else b
  | None => b
  end.

End Py.

(** ** The fragment of [re] the parsers use

    A pattern is a sequence of atoms, matched by backtracking with Python's
    priorities (greedy repetition first, alternatives left to right), always
    under [re.IGNORECASE] and without [re.MULTILINE]. *)

Module Re.

Inductive atom :=
| ALit (c : ascii)                (* a literal character *)
| ASet (p : ascii -> bool)        (* a character class: [\s], [[A-Z]] *)
| AStar (p : ascii -> bool)       (* greedy [p*] *)
| AOpt (p : ascii -> bool)        (* greedy [p?] *)
| ABol                            (* [^]: the start of the subject only *)
| AWordB                          (* [\b] *)
| AGroup (alts : list string).    (* [(a|b)]: captured literal alternatives *)

Definition pattern := list atom.

Fixpoint lit (s : string) : pattern :=
  match s with
  | "" => []
  | String c s' => ALit c :: lit s'
  end.

(** Literal comparison under IGNORECASE. *)
Definition ci_eq (c x : ascii) : bool :=
  Ascii.eqb (Py.lower_char c) (Py.lower_char x).

(** Class membership under IGNORECASE: some case variant is in the class. *)
Definition in_class (p : ascii -> bool) (x : ascii) : bool :=
  p x || p (Py.lower_char x) || p (Py.upper_char x).

Definition is_word_opt (c : option ascii) : bool :=
  match c with Some x => Py.is_word x | None => false end.

Definition next_char (s : string) : option ascii :=
  match s with "" => None | String x _ => Some x end.

(** [strip_prefix_ci a s]: if [s] starts with the literal [a] up to case,
    the text matched, the last character consumed and the rest. *)
Fixpoint strip_prefix_ci (a s : string) (prev : option ascii)
  : option (string * option ascii * string) :=
  match a with
  | "" => Some ("", prev, s)
  | String c a' =>
      match s with
      | "" => None
      | String x s' =>
          if ci_eq c x then
            match strip_prefix_ci a' s' (Some x) with
            | Some (m, last, rest) => Some (String x m, last, rest)
            | None => None
            end
          else None
      end
  end.

(** A match result: its end offset and the text of the capture group. *)
Definition result := (nat * option string)%type.

(** [match_here pat pos prev s]: match [pat] against the subject at offset
    [pos], where [s] is the subject from [pos] on and [prev] the character
    before [pos]. *)
Fixpoint match_here (pat : pattern) (pos : nat) (prev : option ascii)
    (s : string) {struct pat} : option result :=
  match pat with
  | [] => Some (pos, None)
  | ALit c :: pat' =>
      match s with
      | String x s' =>
          if ci_eq c x then match_here pat' (S pos) (Some x) s' else None
      | "" => None
      end
  | ASet p :: pat' =>
      match s with
      | String x s' =>
          if in_class p x then match_here pat' (S pos) (Some x) s' else None
      | "" => None
      end
  | AStar p :: pat' =>
      (fix star (pos : nat) (prev : option ascii) (s : string) {struct s}
         : option result :=
         match s with
         | String x s' =>
             if in_class p x then
               match star (S pos) (Some x) s' with
               | Some r => Some r
               | None => match_here pat' pos prev s
               end
             else match_here pat' pos prev s
         | "" => match_here pat' pos prev s
         end) pos prev s
  | AOpt p :: pat' =>
      match s with
      | String x s' =>
          if in_class p x then
            match match_here pat' (S pos) (Some x) s' with
            | Some r => Some r
            | None => match_here pat' pos prev s
            end
          else match_here pat' pos prev s
      | "" => match_here pat' pos prev s
      end
  | ABol :: pat' =>
      match pos with
      | O => match_here pat' pos prev s
      | S _ => None
      end
  | AWordB :: pat' =>
      if xorb (is_word_opt prev) (is_word_opt (next_char s))
      then match_here pat' pos prev s else None
  | AGroup alts :: pat' =>
      (fix try (alts : list string) : option result :=
         match alts with
         | [] => None
         | a :: alts' =>
             match strip_prefix_ci a s prev with
             | Some (m, last, rest) =>
                 match match_here pat' (pos + String.length m) last rest with
                 | Some (e, _) => Some (e, Some m)
                 | None => try alts'
                 end
             | None => try alts'
             end
         end) alts
  end.

(** A match object: [m.start()], [m.end()], [m.group(1)]. *)
Record rmatch := { m_start : nat; m_end : nat; m_group : option string }.

Fixpoint search_from (pat : pattern) (pos : nat) (prev : option ascii)
    (s : string) {struct s} : option rmatch :=
  match match_here pat pos prev s with
  | Some (e, g) => Some {| m_start := pos; m_end := e; m_group := g |}
  | None =>
      match s with
      | String x s' => search_from pat (S pos) (Some x) s'
      | "" => None
      end
  end.

(** [re.search(pat, s, re.IGNORECASE)]: the leftmost match. *)
Definition search (pat : pattern) (s : string) : option rmatch :=
  search_from pat 0 None s.

(** [re.finditer(pat, s, re.IGNORECASE)]: the non-overlapping matches from
    left to right. [skip] counts the characters still covered by the last
    match. No pattern of the module matches the empty string; after an
    empty match the scan moves on by one character. *)
Fixpoint finditer_from (pat : pattern) (pos : nat) (prev : option ascii)
    (s : string) (skip : nat) {struct s} : list rmatch :=
  match skip with
  | S k =>
      match s with
      | String x s' => finditer_from pat (S pos) (Some x) s' k
      | "" => []
      end
  | O =>
      match match_here pat pos prev s with
      | Some (e, g) =>
          {| m_start := pos; m_end := e; m_group := g |} ::
          match s with
          | String x s' => finditer_from pat (S pos) (Some x) s' (e - pos - 1)
          | "" => []
          end
      | None =>
          match s with
          | String x s' => finditer_from pat (S pos) (Some x) s' 0
          | "" => []
          end
      end
  end.

Definition finditer (pat : pattern) (s : string) : list rmatch :=
  finditer_from pat 0 None s 0.

(** [min(ms, key=lambda m: m.start())]: the first match of least start. *)
Fixpoint min_by_start (ms : list rmatch) : option rmatch :=
  match ms with
  | [] => None
  | m :: ms' =>
      match min_by_start ms' with
      | Some m' => if (m_start m' <? m_start m)%nat then Some m' else Some m
      | None => Some m
      end
  end.

(** [re.sub(r"\s+", " ", t)]: [in_run] tells that the previous character
    was whitespace already replaced. *)
Fixpoint sub_ws (in_run : bool) (t : string) : string :=
  match t with
  | "" => ""
  | String c t' =>
      if Py.is_space c
      then (if in_run then sub_ws true t' else String " " (sub_ws true t'))
      else String c (sub_ws false t')
  end.

End Re.

(** ** [etl/r2_parser.py] *)

Module R2Parser.
Import Re.

(** [SECTION_PATTERNS]. *)
Definition pat_mission : pattern :=
  ([ALit "A"; ALit "."; AStar Py.is_space] ++
   lit "Mission Description and Budget Item Justification" ++ [AWordB])%list.

Definition pat_accomplishments : pattern :=
  ([ALit "C"; ALit "."; AStar Py.is_space] ++
   lit "Accomplishments/Planned Programs" ++ [AWordB])%list.

Definition pat_acquisition : pattern :=
  ([ALit "D"; ALit "."; AStar Py.is_space] ++
   lit "Acquisition Strategy" ++ [AWordB])%list.

(** The generic boundary [^\s*[A-Z]\.\s] of [extract_r2_sections_for_pe]. *)
Definition pat_generic : pattern :=
  [ABol; AStar Py.is_space; ASet Py.is_upper; ALit "."; ASet Py.is_space].

(** [New\s*Start\s*[:\-]?\s*(Yes|No)\b]. *)
Definition is_sep (c : ascii) : bool := Ascii.eqb c ":" || Ascii.eqb c "-".

Definition pat_new_start : pattern :=
  (lit "New" ++ [AStar Py.is_space] ++ lit "Start" ++
   [AStar Py.is_space; AOpt is_sep; AStar Py.is_space;
    AGroup ["Yes"; "No"]; AWordB])%list.

Definition _normalize_text (t : string) : string :=
  Py.strip (sub_ws false t).

Definition _extract_section (text : string) (start_regex : pattern)
    (end_regexes : list pattern) : option string :=
  match search start_regex text with
  | None => None
  | Some start =>
      let start_idx := m_end start in
      let rest := Py.drop start_idx text in
      let end_matches := flat_map (fun r => finditer r rest) end_regexes in
      match min_by_start end_matches with
      | None => Some (_normalize_text rest)
      | Some first_end =>
          Some (_normalize_text (Py.take (m_start first_end) rest))
      end
  end.

Definition _detect_new_start_flag (text : string) : option bool :=
  match search pat_new_start text with
  | Some m =>
      match m_group m with
      | Some g => Some (String.eqb (Py.lower g) "yes")
      | None => None
      end
  | None => None
  end.

(** The dict returned by [extract_r2_sections_for_pe]; [is_new_start] is the
    stringified flag. *)
Record bundle := {
  mission : option string;
  accomplishments : option string;
  acquisition : option string;
  is_new_start : option string;
}.

(** [str(bool(b))]. *)
Definition str_of_bool (b : bool) : string := if b then "True" else "False".

Definition newline : string := String (ascii_of_nat 10) "".

(** [extract_r2_sections_for_pe], from the point where the texts of the
    selected pages have been collected. *)
Definition extract_r2_sections_for_pe (collected_text : list string) : bundle :=
  let text := Py.join newline collected_text in
  {| mission :=
       _extract_section text pat_mission
         [pat_accomplishments; pat_acquisition; pat_generic];
     accomplishments :=
       _extract_section text pat_accomplishments [pat_acquisition; pat_generic];
     acquisition := _extract_section text pat_acquisition [pat_generic];
     is_new_start := str_of_bool <$> _detect_new_start_flag text |}.

End R2Parser.

(** ** Python's [float]

    A float is a binary64 number. A finite one is carried as its exact
    value, a fraction in lowest terms, the zero [FFin 0] being the
    positive zero; [FNegZero] is the negative zero. The conversions of a
    literal and of an int round to the nearest binary64 number, ties to
    even, as [float] does. *)

Module PyFloat.

Inductive pyfloat :=
| FFin (q : Q)
| FNegZero
| FInf (neg : bool)
| FNan.

(** [n / d < 2 ^ k], for [d > 0]. *)
Definition below_pow2 (n d k : Z) : bool :=
  if (0 <=? k)%Z then (n <? d * 2 ^ k)%Z else (n * 2 ^ (- k) <? d)%Z.

(** The binade of [n / d], for [n > 0] and [d > 0]: the [e] with
    [2 ^ e <= n / d < 2 ^ (e + 1)]. *)
Definition binade (n d : Z) : Z :=
  let e := (Z.log2 n - Z.log2 d)%Z in
  if below_pow2 n d e then (e - 1)%Z else e.

(** The integer nearest to [n / d], the even one when two are as near,
    for [n >= 0] and [d > 0]. *)
Definition round_half_even (n d : Z) : Z :=
  let q := (n / d)%Z in
  match (2 * (n mod d) ?= d)%Z with
  | Lt => q
  | Gt => (q + 1)%Z
  | Eq => if Z.even q then q else (q + 1)%Z
  end.

Definition signed_zero (neg : bool) : pyfloat :=
  if neg then FNegZero else FFin 0.

(** [(-1)^neg * m * 2 ^ p], as a fraction in lowest terms. *)
Definition scaled (neg : bool) (m p : Z) : Q :=
  let s := (if neg then (- m)%Z else m) in
  Qred (if (0 <=? p)%Z then Qmake (s * 2 ^ p) 1
        else Qmake s (Z.to_pos (2 ^ (- p)))).

(** The binary64 number nearest to [(-1)^neg * n / d], for [n >= 0] and
    [d > 0]: 53 significant bits, no exponent below -1074 (smaller
    magnitudes lose bits and at last round to zero), and infinity when the
    rounded magnitude reaches [2 ^ 1024]. *)
Definition nearest_binary64 (neg : bool) (n d : Z) : pyfloat :=
  if (n =? 0)%Z then signed_zero neg
  else
    let p := Z.max (binade n d - 52) (-1074) in
    let m :=
      if (0 <=? p)%Z then round_half_even n (d * 2 ^ p)
      else round_half_even (n * 2 ^ (- p)) d in
    if (m =? 0)%Z then signed_zero neg
    else if (0 <=? p)%Z && (2 ^ 1024 <=? m * 2 ^ p)%Z then FInf neg
    else FFin (scaled neg m p).

(** The fraction [m * 10 ^ e]: numerator and denominator. *)
Definition dec_fraction (m : N) (e : Z) : Z * Z :=
  if (0 <=? e)%Z then (Z.of_N m * 10 ^ e, 1)%Z
  else (Z.of_N m, 10 ^ (- e))%Z.

Definition digit_val (c : ascii) : N := (N_of_ascii c - 48)%N.

(** Underscores are allowed only between two digits; they are checked and
    removed before the literal is parsed. [prev] is the previous character. *)
Fixpoint remove_underscores (prev : ascii) (s : string) : option string :=
  match s with
  | "" => if Ascii.eqb prev "_" then None else Some ""
  | String c s' =>
      if Ascii.eqb c "_" then
        if Py.is_digit prev then remove_underscores c s' else None
      else if Ascii.eqb prev "_" && negb (Py.is_digit c) then None
      else String c <$> remove_underscores c s'
  end.

(** An optional sign: whether it is [-], and the rest. *)
Definition read_sign (s : string) : bool * string :=
  match s with
  | String "-" s' => (true, s')
  | String "+" s' => (false, s')
  | _ => (false, s)
  end.

(** A run of digits: its value on top of [acc], its length, the rest. *)
Fixpoint read_digits (acc : N) (cnt : nat) (s : string) : N * nat * string :=
  match s with
  | String c s' =>
      if Py.is_digit c then read_digits (acc * 10 + digit_val c) (S cnt) s'
      else (acc, cnt, s)
  | "" => (acc, cnt, s)
  end.

(** The exponent part: empty, or [e]/[E], an optional sign and at least one
    digit, up to the end of the literal. *)
Definition read_exponent (s : string) : option Z :=
  match s with
  | "" => Some 0%Z
  | String c s' =>
      if Ascii.eqb c "e" || Ascii.eqb c "E" then
        let '(neg, s1) := read_sign s' in
        match read_digits 0 0 s1 with
        | (_, O, _) => None
        | (v, S _, "") => Some (if neg then - Z.of_N v else Z.of_N v)%Z
        | (_, S _, String _ _) => None
        end
      else None
  end.

(** [digits [. [digits]] | . digits], then the exponent: mantissa and
    decimal exponent. *)
Definition read_number (s : string) : option (N * Z) :=
  let '(ip, n1, r1) := read_digits 0 0 s in
  let '(m, n2, r2) :=
    match r1 with
    | String c r1' =>
        if Ascii.eqb c "." then read_digits ip 0 r1' else (ip, O, r1)
    | "" => (ip, O, r1)
    end in
  match (n1 + n2)%nat with
  | O => None
  | S _ =>
      match read_exponent r2 with
      | Some e => Some (m, (e - Z.of_nat n2)%Z)
      | None => None
      end
  end.

(** [float(s)] for a string: [None] stands for [ValueError]. A literal
    beyond the range of a float gives an infinity, not an exception. *)
Definition float_of_string (s : string) : option pyfloat :=
  match remove_underscores "000" (Py.strip s) with
  | None => None
  | Some t =>
      let '(neg, body) := read_sign t in
      let l := Py.lower body in
      if String.eqb l "inf" || String.eqb l "infinity" then Some (FInf neg)
      else if String.eqb l "nan" then Some FNan
      else
        match read_number body with
        | Some (m, e) =>
            let '(n, d) := dec_fraction m e in
            Some (nearest_binary64 neg n d)
        | None => None
        end
  end.

(** [float(n)] for an int: the nearest float, and [None], which stands for
    [OverflowError], when [n] rounds beyond the largest binary64 number. *)
Definition float_of_int (z : Z) : option pyfloat :=
  if (Z.abs z <? 2 ^ 1024 - 2 ^ 970)%Z
  then Some (nearest_binary64 (z <? 0)%Z (Z.abs z) 1)
  else None.


End PyFloat.

(** ** [etl/schema.py] and the row dicts *)

Module Schema.
Import PyFloat.

(** A cost-line row, the dict built by the tabular parsers.
    [R1D_Description] is [None] when the key is absent. *)
Record CostLineRecord := {
  PENumber : string;
  PEName : string;
  ProjectNumber : string;
  ProjectName : string;
  CostCategory : string;
  FY2023_Cost : option pyfloat;
  FY2024_Cost : option pyfloat;
  FY2025_Base_Cost : option pyfloat;
  R1D_Description : option string;
}.

Record EnrichedRecord := {
  SourceFile : string;
  E_PENumber : string;
  E_PEName : string;
  E_ProjectNumber : string;
  E_ProjectName : string;
  E_CostCategory : string;
  E_FY2023_Cost : option pyfloat;
  E_FY2024_Cost : option pyfloat;
  E_FY2025_Base_Cost : option pyfloat;
  AccomplishmentsText : option string;
  AcquisitionStrategyText : option string;
  IsNewStart : option bool;
  MissionDescriptionText : option string;
}.

End Schema.

(** ** [etl/fusion.py] *)

Module Fusion.
Import Schema R2Parser.

(** [r2_lookup.get(pe, {})]: the default is the empty dict, whose [.get]
    is [None] at every key. *)
Definition empty_bundle : bundle :=
  {| mission := None; accomplishments := None; acquisition := None;
     is_new_start := None |}.

Definition in_list (s : string) (l : list string) : bool :=
  existsb (String.eqb s) l.

(** The decoding of [is_new_start_val]. *)
Definition decode_new_start (v : option string) : option bool :=
  match v with
  | Some s =>
      if in_list (Py.lower s) ["true"; "yes"; "1"] then Some true
      else if in_list (Py.lower s) ["false"; "no"; "0"] then Some false
      else None
  | None => None
  end.

(** [not text]: the text is [None] or empty. *)
Definition is_missing (t : option string) : bool :=
  match t with Some s => negb (Py.truthy s) | None => true end.

(** [if not text and r1d_desc: text = r1d_desc]. *)
Definition fallback (t : option string) (r1d_desc : string) : option string :=
  if is_missing t && Py.truthy r1d_desc then Some r1d_desc else t.

(** The body of the loop of [fuse_r3_with_r2]. *)
Definition fuse_row (source_file : string) (r2_lookup : gmap string bundle)
    (use_r1d_description : bool) (row : CostLineRecord) : EnrichedRecord :=
  let pe := Py.strip (PENumber row) in
  let pe_texts := default empty_bundle (r2_lookup !! pe) in
  let is_new_start := decode_new_start (is_new_start pe_texts) in
  let r1d_desc := Py.strip (Py.or_str (R1D_Description row) "") in
  let accomplishments_text := accomplishments pe_texts in
  let mission_text := mission pe_texts in
  let acquisition_text := acquisition pe_texts in
  let accomplishments_text :=
    if use_r1d_description then fallback accomplishments_text r1d_desc
    else accomplishments_text in
  let mission_text :=
    if use_r1d_description then fallback mission_text r1d_desc
    else mission_text in
  {| SourceFile := source_file;
     E_PENumber := PENumber row;
     E_PEName := PEName row;
     E_ProjectNumber := ProjectNumber row;
     E_ProjectName := ProjectName row;
     E_CostCategory := CostCategory row;
     E_FY2023_Cost := FY2023_Cost row;
     E_FY2024_Cost := FY2024_Cost row;
     E_FY2025_Base_Cost := FY2025_Base_Cost row;
     AccomplishmentsText := accomplishments_text;
     AcquisitionStrategyText := acquisition_text;
     IsNewStart := is_new_start;
     MissionDescriptionText := mission_text |}.

(** [fuse_r3_with_r2]: the loop appends one record per row. *)
Definition fuse_r3_with_r2 (source_file : string) (r3_rows : list CostLineRecord)
    (r2_lookup : gmap string bundle) (use_r1d_description : bool)
  : list EnrichedRecord :=
  fold_left
    (fun enriched row =>
       (enriched ++ [fuse_row source_file r2_lookup use_r1d_description row])%list)
    r3_rows [].

End Fusion.

(** ** Calls that may raise

    The outcome of a call that has no handler of its own: the value it
    returns, or an exception that propagates to the caller. *)

Module Outcome.

Inductive outcome (A : Type) :=
| Returns (a : A)
| Raises.

Arguments Returns {A} a.
Arguments Raises {A}.

#[export] Instance outcome_ret : MRet outcome := fun A a => Returns a.

#[export] Instance outcome_bind : MBind outcome :=
  fun A B f x => match x with Returns a => f a | Raises => Raises end.

#[export] Instance outcome_fmap : FMap outcome :=
  fun A B f x => match x with Returns a => Returns (f a) | Raises => Raises end.

(** A loop that extends a list with what each call returns. *)
Definition extend_all {A B : Type} (f : A -> outcome (list B)) (l : list A)
  : outcome (list B) :=
  fold_left
    (fun results x =>
       acc ← results; rows ← f x; Returns (acc ++ rows)%list)
    l (Returns []).

End Outcome.

(** ** [etl/xml_r3_parser.py] *)

Module XmlR3Parser.
Import PyFloat Schema Outcome.

(** A Python object as [_parse_float_safe_any] tells them apart: [None], an
    int (a bool is an int: [True] is [PInt 1]), a float, a string, or any
    other object, carried as the text [str] gives for it. *)
Inductive pyobj :=
| PNone
| PInt (z : Z)
| PFloat (f : pyfloat)
| PStr (s : string)
| POther (text : string).

Definition _parse_float_safe (v : option string) : option pyfloat :=
  match v with
  | None => None
  | Some s => float_of_string (Py.strip (Py.remove_commas s))
  end.

Definition _norm (s : option string) : string :=
  Py.strip (Py.or_str s "").

Definition _parse_float_safe_any (v : pyobj) : option pyfloat :=
  match v with
  | PNone => None
  | PInt z => float_of_int z
  | PFloat f => Some f
  | PStr s | POther s =>
      if negb (Py.truthy (Py.strip s)) then None
      else float_of_string (Py.strip (Py.remove_commas s))
  end.

(** *** The XML path *)

(** An element of the parsed tree: tag, attributes, text and children. *)
#[warnings="-register-all"]
Inductive elem :=
| Elem (tag : string) (attrs : list (string * string)) (text : string)
       (children : list elem).

Definition tag_of (e : elem) : string := match e with Elem t _ _ _ => t end.
Definition attrs_of (e : elem) := match e with Elem _ a _ _ => a end.
Definition text_of (e : elem) : string := match e with Elem _ _ x _ => x end.
Definition children_of (e : elem) : list elem :=
  match e with Elem _ _ _ c => c end.

(** [e.get(name)]. *)
Fixpoint assoc (name : string) (l : list (string * string)) : option string :=
  match l with
  | [] => None
  | (k, v) :: l' => if String.eqb k name then Some v else assoc name l'
  end.

Definition get (e : elem) (name : string) : option string :=
  assoc name (attrs_of e).

(** [e.findtext(tag)]: the text of the first child with that tag. *)
Definition findtext (e : elem) (tag : string) : option string :=
  text_of <$> List.find (fun c => String.eqb (tag_of c) tag) (children_of e).

(** The element and its descendants, in document order. *)
Fixpoint descendants_or_self (e : elem) : list elem :=
  match e with
  | Elem _ _ _ cs =>
      e :: (fix go (l : list elem) : list elem :=
              match l with
              | [] => []
              | c :: l' => (descendants_or_self c ++ go l')%list
              end) cs
  end.

Definition has_tag (tags : list string) (e : elem) : bool :=
  existsb (String.eqb (tag_of e)) tags.

(** [root.xpath("//A | //B")]: every element of the document with one of
    the tags. *)
Definition xpath_all (root : elem) (tags : list string) : list elem :=
  List.filter (has_tag tags) (descendants_or_self root).

(** [e.xpath(".//A | .//B")]: the proper descendants of [e] with one of the
    tags. *)
Definition xpath_desc (e : elem) (tags : list string) : list elem :=
  List.filter (has_tag tags) (List.tl (descendants_or_self e)).

(** A chain [a or b or ... or z]: the first operand that is neither [None]
    nor empty, else the last one. *)
Fixpoint first_of (l : list (option string)) : option string :=
  match l with
  | [] => None
  | [a] => a
  | a :: l' => Py.or_else a (first_of l')
  end.

Definition is_truthy (v : option string) : bool :=
  match v with Some s => Py.truthy s | None => false end.

(** [_parse_xml_file] once [etree.parse] has returned the tree. *)
Definition parse_xml_root (root : elem) : list CostLineRecord :=
  flat_map
    (fun pe =>
       let pe_number :=
         first_of [get pe "number"; findtext pe "Number";
                   findtext pe "PROGRAM_ELEMENT_NUMBER"; findtext pe "PeNumber"] in
       let pe_name :=
         first_of [get pe "name"; findtext pe "Name";
                   findtext pe "PROGRAM_ELEMENT_TITLE"; findtext pe "PeName"] in
       if negb (is_truthy pe_number) then []
       else
         flat_map
           (fun proj =>
              let project_number :=
                first_of [get proj "number"; findtext proj "Number";
                          findtext proj "PROJECT_NUMBER"] in
              let project_name :=
                first_of [get proj "name"; findtext proj "Name";
                          findtext proj "PROJECT_TITLE"] in
              List.map
                (fun cc =>
                   let cc_name :=
                     first_of [get cc "name"; findtext cc "Name";
                               findtext cc "COST_CATEGORY"; findtext cc "LINE_NAME"] in
                   let fy23 :=
                     _parse_float_safe
                       (first_of [get cc "FY2023"; findtext cc "FY2023"]) in
                   let fy24 :=
                     _parse_float_safe
                       (first_of [get cc "FY2024"; findtext cc "FY2024"]) in
                   let fy25_base :=
                     _parse_float_safe
                       (first_of [get cc "FY2025Base"; findtext cc "FY2025Base";
                                  findtext cc "FY2025_Base"; findtext cc "FY2025"]) in
                   {| PENumber := _norm pe_number;
                      PEName := _norm pe_name;
                      ProjectNumber := _norm project_number;
                      ProjectName := _norm project_name;
                      CostCategory := _norm cc_name;
                      FY2023_Cost := fy23;
                      FY2024_Cost := fy24;
                      FY2025_Base_Cost := fy25_base;
                      R1D_Description := None |})
                (xpath_desc proj
                   ["CostCategory"; "COST_CATEGORY"; "Line"; "COST_LINE"; "CostItem"]))
           (xpath_desc pe ["Project"; "PROJECT"; "Proj"]))
    (xpath_all root ["ProgramElement"; "PROGRAM_ELEMENT"; "Pe"; "PE"]).

(** [_parse_xml_file]: [None] is the exception of [etree.parse]. *)
Definition _parse_xml_file (tree : option elem) : list CostLineRecord :=
  match tree with
  | None => []
  | Some root => parse_xml_root root
  end.

(** *** The spreadsheet path *)

(** A cell of a row of a read-only worksheet. [CEmpty] is the [EmptyCell]
    that fills the positions the file has no cell for: its value is [None]
    and it has no [row] attribute. The others are cells of the file, which
    know their row: one whose value is [None], a string, or another object
    (number, bool, date) carried as the text [str] gives for it. *)
Inductive cell :=
| CEmpty
| CNone
| CStr (s : string)
| CObj (text : string).

Definition row := list cell.
Definition sheet := list row.

(** [str(v)] for a value that is not [None]. *)
Definition cell_text (c : cell) : string :=
  match c with
  | CEmpty | CNone => "None"
  | CStr s => s
  | CObj t => t
  end.

(** [str(c.value).strip().lower() if c.value is not None else ""]. *)
Definition header_value (c : cell) : string :=
  match c with
  | CEmpty | CNone => ""
  | _ => Py.lower (Py.strip (cell_text c))
  end.

Definition is_header (r : row) : bool :=
  let values := List.map header_value r in
  let joined := Py.join " " values in
  forallb (fun k => Py.contains k joined) ["project"; "program"; "element"]
  || existsb (Py.contains "program element") values
     && existsb (Py.contains "project") values
  || existsb (String.eqb "type") values
     && existsb (Py.contains "pe#") values
     && existsb (Py.contains "project#") values.

(** [row[0].row if row else current_row + 1]: the [row] attribute of the
    first cell of a row is the number of the row, which is also what the
    counter gives for an empty row, as the rows are iterated from row 1
    on; an [EmptyCell] has no such attribute and the access raises
    [AttributeError]. *)
Definition first_cell_has_no_row (r : row) : bool :=
  match r with
  | CEmpty :: _ => true
  | _ => false
  end.

(** The loop of [_find_header_row]; [current_row] is the number of the
    row at the head of [rows]. *)
Fixpoint find_header_from (current_row : nat) (rows : list row)
  : outcome (option nat) :=
  match rows with
  | [] => Returns None
  | r :: rows' =>
      if first_cell_has_no_row r then Raises
      else if is_header r then Returns (Some current_row)
      else find_header_from (S current_row) rows'
  end.

(** [sheet.iter_rows(min_row=1, max_row=max_search_rows)]: a bound of 0 is
    no bound, the rows are iterated to the end of the sheet. *)
Definition searched_rows (sh : sheet) (max_search_rows : nat) : list row :=
  if (max_search_rows =? 0)%nat then sh else List.firstn max_search_rows sh.

Definition _find_header_row (sh : sheet) (max_search_rows : nat)
  : outcome (option nat) :=
  find_header_from 1 (searched_rows sh max_search_rows).

(** [mapping.setdefault(k, idx)]. *)
Definition setdefault (k : string) (idx : nat) (m : gmap string nat)
  : gmap string nat :=
  match m !! k with
  | Some _ => m
  | None => <[k := idx]> m
  end.

Definition set_if (b : bool) (k : string) (idx : nat) (m : gmap string nat)
  : gmap string nat :=
  if b then setdefault k idx m else m.

(** The body of the loop of [_header_map] for the cell at [idx]. *)
Definition header_map_cell (idx : nat) (c : cell) (mapping : gmap string nat)
  : gmap string nat :=
  let v := header_value c in
  if negb (Py.truthy v) then mapping
  else
    let m := mapping in
    let m := set_if (Py.contains "program element" v
                     && (Py.contains "number" v || Py.endswith "program element" v))
               "PENumber" idx m in
    let m := set_if (Py.contains "program element name" v || Py.contains "pe name" v
                     || Py.endswith "title" v && Py.contains "program element" v)
               "PEName" idx m in
    let m := set_if (Py.contains "project number" v || String.eqb v "project"
                     || String.eqb v "project#")
               "ProjectNumber" idx m in
    let m := set_if (Py.contains "project name" v || Py.contains "project title" v)
               "ProjectName" idx m in
    let m := set_if (Py.contains "cost category" v || Py.contains "cost element" v
                     || Py.contains "line item" v)
               "CostCategory" idx m in
    let m := set_if (String.eqb v "pe#") "PENumber" idx m in
    let m := set_if (String.eqb v "type") "Type" idx m in
    let m := set_if (Py.contains "accomplishments/planned programs title" v
                     || Py.startswith "pe/project/" v)
               "Title" idx m in
    let m := set_if (String.eqb v "description") "Description" idx m in
    let m := set_if (Py.contains "fy2023" v || String.eqb v "fy 2023"
                     || String.eqb v "fy23")
               "FY2023_Cost" idx m in
    let m := set_if (Py.contains "fy2024" v || String.eqb v "fy 2024"
                     || String.eqb v "fy24")
               "FY2024_Cost" idx m in
    let m := set_if (Py.contains "fy 2025 base" v || String.eqb v "fy25 base"
                     || Py.contains "fy2025" v && Py.contains "base" v
                     || Py.contains "fy2025 base" v)
               "FY2025_Base_Cost" idx m in
    m.

Fixpoint header_map_from (idx : nat) (cells : list cell)
    (mapping : gmap string nat) : gmap string nat :=
  match cells with
  | [] => mapping
  | c :: cells' => header_map_from (S idx) cells' (header_map_cell idx c mapping)
  end.

Definition _header_map (cells : list cell) : gmap string nat :=
  header_map_from 0 cells ∅.

(** The local function [gv]. *)
Definition gv (hdr_map : gmap string nat) (row_vals : row) (key : string)
  : option string :=
  match hdr_map !! key with
  | None => None
  | Some idx =>
      match row_vals !! idx with
      | None => None
      | Some CEmpty | Some CNone => None
      | Some v => Some (Py.strip (cell_text v))
      end
  end.

(** [all(c is None or (isinstance(c, str) and not c.strip()) for c in row_vals)]. *)
Definition is_blank_cell (c : cell) : bool :=
  match c with
  | CEmpty | CNone => true
  | CStr s => negb (Py.truthy (Py.strip s))
  | CObj _ => false
  end.

Definition is_blank_row (row_vals : row) : bool := forallb is_blank_cell row_vals.

(** [gv] hands an optional string to [_parse_float_safe_any]. *)
Definition obj_of (v : option string) : pyobj :=
  match v with Some s => PStr s | None => PNone end.

(** The context variables of [_parse_r1d_sheet]. *)
Record context := {
  current_pe_num : option string;
  current_pe_name : option string;
  current_proj_num : option string;
  current_proj_name : option string;
}.

Definition init_context : context :=
  {| current_pe_num := None; current_pe_name := None;
     current_proj_num := None; current_proj_name := None |}.

(** [typ = (gv(row_vals, "Type") or "").upper()]. *)
Definition row_type (hdr_map : gmap string nat) (row_vals : row) : string :=
  Py.upper (Py.or_str (gv hdr_map row_vals "Type") "").

(** [typ == "PROJECT" or typ == "PROJECTS" or typ == "PRJ"]. *)
Definition is_project_type (typ : string) : bool :=
  String.eqb typ "PROJECT" || String.eqb typ "PROJECTS" || String.eqb typ "PRJ".

(** The category text of a leaf row:
    [_norm(title or gv(row_vals, "Description") or typ)]. *)
Definition derived_category (hdr_map : gmap string nat) (row_vals : row)
  : string :=
  let title := Py.or_str (gv hdr_map row_vals "Title") "" in
  _norm (Py.or_else (Some title)
           (Py.or_else (gv hdr_map row_vals "Description")
              (Some (row_type hdr_map row_vals)))).

(** The test that drops a totals summary row. *)
Definition is_summary_duplicate (category : string) : bool :=
  let cc_lower := Py.lower category in
  Py.contains "totals" cc_lower && Py.contains "sum of" cc_lower
  || Fusion.in_list cc_lower ["project totals"].

(** The body of the loop of [_parse_r1d_sheet] for a row that is not blank:
    the context after the row and the record it appends, if any. The
    locals [pe_num] and [proj_num] of the source are never read and are
    left out. *)
Definition r1d_row (hdr_map : gmap string nat) (row_vals : row) (ctx : context)
  : context * option CostLineRecord :=
  let typ := row_type hdr_map row_vals in
  let title := Py.or_str (gv hdr_map row_vals "Title") "" in
  let or_title (cur : option string) :=
    if Py.truthy title then Some title else cur in
  if String.eqb typ "PE" then
    ({| current_pe_num :=
          Py.or_else (gv hdr_map row_vals "PENumber") (current_pe_num ctx);
        current_pe_name := or_title (current_pe_name ctx);
        current_proj_num := None;
        current_proj_name := None |}, None)
  else if is_project_type typ then
    let ctx' :=
      {| current_pe_num := current_pe_num ctx;
         current_pe_name := current_pe_name ctx;
         current_proj_num :=
           Py.or_else (gv hdr_map row_vals "ProjectNumber") (current_proj_num ctx);
         current_proj_name := or_title (current_proj_name ctx) |} in
    (ctx',
     Some {| PENumber := _norm (current_pe_num ctx');
             PEName := _norm (current_pe_name ctx');
             ProjectNumber := _norm (current_proj_num ctx');
             ProjectName := _norm (current_proj_name ctx');
             CostCategory := "Project Totals";
             FY2023_Cost :=
               _parse_float_safe_any (obj_of (gv hdr_map row_vals "FY2023_Cost"));
             FY2024_Cost :=
               _parse_float_safe_any (obj_of (gv hdr_map row_vals "FY2024_Cost"));
             FY2025_Base_Cost :=
               _parse_float_safe_any
                 (obj_of (gv hdr_map row_vals "FY2025_Base_Cost"));
             R1D_Description :=
               Some (Py.or_str (gv hdr_map row_vals "Description") "") |})
  else if Fusion.in_list typ ["A/PP"; "CA"]
          || Py.truthy typ && negb (Fusion.in_list typ ["PE"; "PROJECT"]) then
    let rec :=
      {| PENumber := _norm (current_pe_num ctx);
         PEName := _norm (current_pe_name ctx);
         ProjectNumber := _norm (current_proj_num ctx);
         ProjectName := _norm (current_proj_name ctx);
         CostCategory := derived_category hdr_map row_vals;
         FY2023_Cost :=
           _parse_float_safe_any (obj_of (gv hdr_map row_vals "FY2023_Cost"));
         FY2024_Cost :=
           _parse_float_safe_any (obj_of (gv hdr_map row_vals "FY2024_Cost"));
         FY2025_Base_Cost :=
           _parse_float_safe_any (obj_of (gv hdr_map row_vals "FY2025_Base_Cost"));
         R1D_Description :=
           Some (Py.or_str (gv hdr_map row_vals "Description") "") |} in
    if is_summary_duplicate (CostCategory rec) then (ctx, None)
    else if Py.truthy (PENumber rec) || Py.truthy (ProjectNumber rec)
            || Py.truthy (CostCategory rec) then (ctx, Some rec)
    else (ctx, None)
  else (ctx, None).

(** The loop of [_parse_r1d_sheet] over the rows below the header, with its
    state: context, blank streak and results. *)
Fixpoint r1d_loop (hdr_map : gmap string nat) (rows : list row) (ctx : context)
    (blank_streak : nat) (results : list CostLineRecord) : list CostLineRecord :=
  match rows with
  | [] => results
  | row_vals :: rows' =>
      if is_blank_row row_vals then
        let blank_streak := S blank_streak in
        if (10 <=? blank_streak)%nat then results
        else r1d_loop hdr_map rows' ctx blank_streak results
      else
        let '(ctx', rec) := r1d_row hdr_map row_vals ctx in
        r1d_loop hdr_map rows' ctx' 0
          (match rec with
           | Some r => (results ++ [r])%list
           | None => results
           end)
  end.

Definition _parse_r1d_sheet (sh : sheet) (header_row : nat)
    (hdr_map : gmap string nat) : list CostLineRecord :=
  r1d_loop hdr_map (List.skipn header_row sh) init_context 0 [].

(** The loop of [_parse_xlsx_file] over the data rows of a generic sheet. *)
Fixpoint generic_loop (hdr_map : gmap string nat) (rows : list row)
    (blank_streak : nat) (results : list CostLineRecord) : list CostLineRecord :=
  match rows with
  | [] => results
  | row_vals :: rows' =>
      if is_blank_row row_vals then
        let blank_streak := S blank_streak in
        if (5 <=? blank_streak)%nat then results
        else generic_loop hdr_map rows' blank_streak results
      else
        let g := gv hdr_map row_vals in
        let rec :=
          {| PENumber := _norm (g "PENumber");
             PEName := _norm (g "PEName");
             ProjectNumber := _norm (g "ProjectNumber");
             ProjectName := _norm (g "ProjectName");
             CostCategory := _norm (g "CostCategory");
             FY2023_Cost := _parse_float_safe_any (obj_of (g "FY2023_Cost"));
             FY2024_Cost := _parse_float_safe_any (obj_of (g "FY2024_Cost"));
             FY2025_Base_Cost :=
               _parse_float_safe_any (obj_of (g "FY2025_Base_Cost"));
             R1D_Description := None |} in
        if negb (Py.truthy (PENumber rec)) && negb (Py.truthy (ProjectNumber rec))
        then generic_loop hdr_map rows' 0 results
        else generic_loop hdr_map rows' 0 (results ++ [rec])%list
  end.

Definition has_key (m : gmap string nat) (k : string) : bool :=
  match m !! k with Some _ => true | None => false end.

Definition map_is_empty (m : gmap string nat) : bool :=
  match map_to_list m with [] => true | _ => false end.

(** The body of the loop of [_parse_xlsx_file] for one worksheet: the rows
    it adds to the results. The call of [_find_header_row] is not under a
    [try]: what it raises leaves [_parse_xlsx_file]. *)
Definition parse_sheet (sh : sheet) : outcome (list CostLineRecord) :=
  header ← _find_header_row sh 50;
  Returns
    match header with
    | None => []
    | Some header_row =>
        match sh !! (header_row - 1)%nat with
        | None => []
        | Some header_cells =>
            let hdr_map := _header_map header_cells in
            if map_is_empty hdr_map then []
            else if forallb (has_key hdr_map) ["Type"; "PENumber"; "ProjectNumber"]
            then _parse_r1d_sheet sh header_row hdr_map
            else generic_loop hdr_map (List.skipn header_row sh) 0 []
        end
    end.

(** [_parse_xlsx_file]: [None] is the exception of [load_workbook], the
    only one the function handles. *)
Definition _parse_xlsx_file (wb : option (list sheet))
  : outcome (list CostLineRecord) :=
  match wb with
  | None => Returns []
  | Some worksheets => extend_all parse_sheet worksheets
  end.

(** The retention rule of the data model: one of the trimmed identifying
    fields is not empty. *)
Definition retained (r : CostLineRecord) : bool :=
  Py.truthy (Py.strip (PENumber r)) || Py.truthy (Py.strip (ProjectNumber r))
  || Py.truthy (Py.strip (CostCategory r)).

(** *** Files *)

(** What the two readers make of a file: the tree [etree.parse] returns and
    the worksheets [load_workbook] returns, [None] when the call raises. *)
Record file := {
  xml_tree : option elem;
  workbook : option (list sheet);
}.

(** [p.rfind(c)], with -1 when [c] does not occur. *)
Fixpoint rfind_from (c : ascii) (i : Z) (s : string) (last : Z) : Z :=
  match s with
  | "" => last
  | String x s' => rfind_from c (i + 1) s' (if Ascii.eqb x c then i else last)
  end.

Definition rfind (c : ascii) (s : string) : Z := rfind_from c 0 s (-1).

Fixpoint all_dots (s : string) : bool :=
  match s with
  | "" => true
  | String c s' => Ascii.eqb c "." && all_dots s'
  end.

(** [os.path.splitext(path)[1]] (posixpath): the extension starts at the
    last dot of the last component, leading dots of the component apart. *)
Definition splitext_ext (p : string) : string :=
  let sepIndex := rfind "/" p in
  let dotIndex := rfind "." p in
  if (sepIndex <? dotIndex)%Z then
    let name := Py.take (Z.to_nat (dotIndex - (sepIndex + 1)))
                  (Py.drop (Z.to_nat (sepIndex + 1)) p) in
    if all_dots name then "" else Py.drop (Z.to_nat dotIndex) p
  else "".

Definition xml_extensions : list string := [".xml"; ".xls"; ".xlt"; ".mxl"].
Definition xlsx_extensions : list string := [".xlsx"; ".xlsm"].

(** [os.path.splitext(path)[1].lower()]. *)
Definition extension (path : string) : string := Py.lower (splitext_ext path).

(** The body of the loop of [parse_r3_projects]; a path the file system
    does not map is not a file. *)
Definition parse_path (fs : gmap string file) (path : string)
  : outcome (list CostLineRecord) :=
  match fs !! path with
  | None => Returns []
  | Some f =>
      let ext := extension path in
      if Fusion.in_list ext xml_extensions
      then Returns (_parse_xml_file (xml_tree f))
      else if Fusion.in_list ext xlsx_extensions
      then _parse_xlsx_file (workbook f)
      else
        match _parse_xml_file (xml_tree f) with
        | [] => _parse_xlsx_file (workbook f)
        | parsed => Returns parsed
        end
  end.

(** [parse_r3_projects]: no call of the loop is under a [try], so what a
    path raises leaves the function and the results so far are lost. *)
Definition parse_r3_projects (fs : gmap string file) (xml_paths : list string)
  : outcome (list CostLineRecord) :=
  extend_all (parse_path fs) xml_paths.

(** A file is unreadable under a path when every reader the extension of
    the path routes it to raises. *)
Definition unreadable (path : string) (f : file) : Prop :=
  if Fusion.in_list (extension path) xml_extensions then xml_tree f = None
  else if Fusion.in_list (extension path) xlsx_extensions then workbook f = None
  else xml_tree f = None /\ workbook f = None.

End XmlR3Parser.

(** ** Auxiliary notions for reasoning about the matcher *)

Module ReAux.
Import Re.

(** The state of the matcher after a greedy run of class [p]: offset,
    previous character and remaining text. *)
Fixpoint skip_st (p : ascii -> bool) (pos : nat) (prev : option ascii)
    (s : string) : nat * option ascii * string :=
  match s with
  | String x s' =>
      if in_class p x then skip_st p (S pos) (Some x) s' else (pos, prev, s)
  | "" => (pos, prev, s)
  end.

(** The text left by a greedy run of class [p]. *)
Fixpoint skip_class (p : ascii -> bool) (s : string) : string :=
  match s with
  | String x s' => if in_class p x then skip_class p s' else s
  | "" => ""
  end.

Definition match_at (pat : pattern) (st : nat * option ascii * string)
  : option result :=
  match_here pat st.1.1 st.1.2 st.2.

(** A pattern is absorbing for [p] when failing after one more character
    of [p] implies failing before it; a greedy [p*] in front of it then
    never has to give characters back. *)
Definition absorbing (p : ascii -> bool) (pat : pattern) : Prop :=
  forall pos prev x s,
    in_class p x = true ->
    match_here pat (S pos) (Some x) s = None ->
    match_here pat pos prev (String x s) = None.

(** The tail of the new-start pattern: the answer group and [\b]. *)
Definition pat_answer : pattern := [AGroup ["Yes"; "No"]; AWordB].
Definition pat_blank_answer : pattern := AStar Py.is_space :: pat_answer.
Definition pat_sep_answer : pattern := AOpt R2Parser.is_sep :: pat_blank_answer.
Definition pat_start_answer : pattern :=
  (lit "Start" ++ AStar Py.is_space :: pat_sep_answer)%list.

End ReAux.

(** ** The new-start label, as the specification words it

    These definitions follow the specification, not the source: a
    "New Start" label followed, with optional separators and in any case, by
    "Yes" or "No". They are compared with [_detect_new_start_flag] below. *)

Module NewStartSpec.

Fixpoint all_space (w : string) : bool :=
  match w with
  | "" => true
  | String c w' => Py.is_space c && all_space w'
  end.

(** [new_start_label s b]: the text [s] starts with the label, and the
    answer is "Yes" ([b = true]) or "No" ([b = false]) as a whole word. *)
Inductive new_start_label : string -> bool -> Prop :=
| NewStartLabel (n w1 st w2 sep w3 ans rest : string) (b : bool) :
    Py.lower n = "new" ->
    all_space w1 = true ->
    Py.lower st = "start" ->
    all_space w2 = true ->
    sep = "" \/ sep = ":" \/ sep = "-" ->
    all_space w3 = true ->
    Py.lower ans = (if b then "yes" else "no") ->
    Re.is_word_opt (Re.next_char rest) = false ->
    new_start_label (n +:+ w1 +:+ st +:+ w2 +:+ sep +:+ w3 +:+ ans +:+ rest) b.

(** The first label of a text, read from left to right: the label that
    starts after [pre], no label starting earlier. *)
Definition first_label (text : string) (b : bool) : Prop :=
  exists pre s,
    text = pre +:+ s /\ new_start_label s b /\
    forall pre' s' b',
      text = pre' +:+ s' -> (String.length pre' < String.length pre)%nat ->
      ~ new_start_label s' b'.

Definition no_label (text : string) : Prop :=
  forall pre s b, text = pre +:+ s -> ~ new_start_label s b.

(** A deterministic reading of the label, used to relate the two: the text
    after "New", blanks, "Start", blanks, at most one separator and blanks. *)
Definition skip_sep (s : string) : string :=
  match s with
  | String c r => if R2Parser.is_sep c then r else s
  | "" => s
  end.

Definition after_ci (a s : string) : option string :=
  match Re.strip_prefix_ci a s None with
  | Some (_, _, rest) => Some rest
  | None => None
  end.

Definition label_rest (s : string) : option string :=
  match after_ci "New" s with
  | Some r1 =>
      match after_ci "Start" (Py.lstrip r1) with
      | Some r2 => Some (Py.lstrip (skip_sep (Py.lstrip r2)))
      | None => None
      end
  | None => None
  end.

(** The answer word at the head of [s]. *)
Definition answer_word (a s : string) : option string :=
  match Re.strip_prefix_ci a s None with
  | Some (m, _, rest) =>
      if Re.is_word_opt (Re.next_char rest) then None else Some m
  | None => None
  end.

Definition answer (s : string) : option string :=
  match answer_word "Yes" s with
  | Some m => Some m
  | None => answer_word "No" s
  end.

Definition label_text (s : string) : option string :=
  match label_rest s with
  | Some r => answer r
  | None => None
  end.

(** [m.group(1).lower() == "yes"]. *)
Definition is_yes (g : string) : bool := String.eqb (Py.lower g) "yes".

Fixpoint first_label_text (s : string) : option string :=
  match label_text s with
  | Some g => Some g
  | None =>
      match s with
      | String _ s' => first_label_text s'
      | "" => None
      end
  end.

End NewStartSpec.

(** ** Numerals, as the specification words them

    These definitions follow the specification, not the source: a valid
    decimal numeral is an optional sign and digits with at most one decimal
    point, and its value is the digits read as an integer over ten to the
    number of digits after the point. The other literals [float] reads are
    worded after Python's documentation of [float]: a decimal numeral
    followed by an exponent, digits grouped by single underscores, and the
    words for infinity and not-a-number. They are compared with
    [_parse_float_safe_any] below. *)

Module NumeralSpec.

Fixpoint all_digits (s : string) : bool :=
  match s with
  | "" => true
  | String c s' => Py.is_digit c && all_digits s'
  end.


(** The text before the first point, and the text after it if there is one. *)
Fixpoint int_part (s : string) : string :=
  match s with
  | "" => ""
  | String c s' => if Ascii.eqb c "." then "" else String c (int_part s')
  end.

Fixpoint frac_part (s : string) : option string :=
  match s with
  | "" => None
  | String c s' => if Ascii.eqb c "." then Some s' else frac_part s'
  end.

Definition unsigned (t : string) : bool * string :=
  match t with
  | String "-" b => (true, b)
  | String "+" b => (false, b)
  | _ => (false, t)
  end.

Definition is_decimal_body (b : string) : bool :=
  let i := int_part b in
  let f := default "" (frac_part b) in
  all_digits i && all_digits f && negb (String.eqb i "" && String.eqb f "").





(** Exponent notation: a decimal numeral, [e] or [E], and an exponent,
    which is an optional sign and at least one digit. *)
Definition is_e (c : ascii) : bool := Ascii.eqb c "e" || Ascii.eqb c "E".

Fixpoint mantissa_part (b : string) : string :=
  match b with
  | "" => ""
  | String c b' => if is_e c then "" else String c (mantissa_part b')
  end.

Fixpoint exponent_part (b : string) : option string :=
  match b with
  | "" => None
  | String c b' => if is_e c then Some b' else exponent_part b'
  end.

Definition is_exponent_text (x : string) : bool :=
  let d := (unsigned x).2 in
  all_digits d && negb (String.eqb d "").

Definition is_exponent_body (b : string) : bool :=
  match exponent_part b with
  | Some x => is_decimal_body (mantissa_part b) && is_exponent_text x
  | None => false
  end.






(** Whether a text holds a digit. *)
Fixpoint has_digit (t : string) : bool :=
  match t with
  | "" => false
  | String c t' => Py.is_digit c || has_digit t'
  end.



(** The text handed to [float]: commas removed, blanks trimmed. *)
Definition cleaned (s : string) : string := Py.strip (Py.remove_commas s).

End NumeralSpec.

(** ** Inputs of the scenarios *)

Module Scenario.
Import XmlR3Parser.

(** The narrative text of the section-carving scenario. *)
Definition narrative : string :=
  "... A. Mission Description and Budget Item Justification The program develops X. C. Accomplishments/Planned Programs Built Y in FY23. D. Acquisition Strategy Sole source. E. Other ...".

(** The same sections, each header on a line of its own. *)
Definition narrative_lines : string :=
  Py.join R2Parser.newline
    ["A. Mission Description and Budget Item Justification";
     "The program develops X.";
     "C. Accomplishments/Planned Programs";
     "Built Y in FY23.";
     "D. Acquisition Strategy";
     "Sole source.";
     "E. Other"].

(** The worksheet of the PE/PROJECT scenario. *)
Definition header : row :=
  [CStr "Type"; CStr "PE#"; CStr "Project#";
   CStr "Accomplishments/Planned Programs Title"; CStr "Description";
   CStr "FY2023"; CStr "FY2024"; CStr "FY2025 Base"].

Definition pe_row : row :=
  [CStr "PE"; CStr "0604123X"; CNone; CStr "Hypersonics";
   CNone; CNone; CNone; CNone].

Definition project_row : row :=
  [CStr "PROJECT"; CNone; CStr "001"; CStr "Flight Test"; CNone;
   CObj "10.0"; CObj "12.0"; CObj "15.0"].

Definition worksheet : sheet := [header; pe_row; project_row].

(** A hierarchical sheet with a summary row and a row without a type. *)
Definition summary_row : row :=
  [CStr "A/PP"; CNone; CNone; CStr "Sum of Project Totals"; CNone;
   CObj "10.0"; CObj "12.0"; CObj "15.0"].

Definition leaf_row : row :=
  [CStr "A/PP"; CNone; CNone; CStr "Wind tunnel"; CStr "Tunnel campaign";
   CObj "4.5"; CStr "1,200.25"; CStr "n/a"].

Definition untyped_row : row :=
  [CStr "  "; CStr "0604999Z"; CStr "009"; CStr "Notes"; CNone;
   CObj "1.0"; CNone; CNone].

Definition long_sheet : sheet :=
  [header; pe_row; project_row; untyped_row; summary_row; leaf_row].

Definition leaf_record : Schema.CostLineRecord :=
  {| Schema.PENumber := "0604123X"; Schema.PEName := "Hypersonics";
     Schema.ProjectNumber := "001"; Schema.ProjectName := "Flight Test";
     Schema.CostCategory := "Wind tunnel";
     Schema.FY2023_Cost := Some (PyFloat.FFin (9 # 2));
     Schema.FY2024_Cost := Some (PyFloat.FFin (4801 # 4));
     Schema.FY2025_Base_Cost := None;
     Schema.R1D_Description := Some "Tunnel campaign" |}.

Definition project_context : context :=
  {| current_pe_num := Some "0604123X"; current_pe_name := Some "Hypersonics";
     current_proj_num := Some "001"; current_proj_name := Some "Flight Test" |}.

(** Files of a batch: a good XML export, a file no reader can parse, and a
    workbook. *)
Definition good_xml : elem :=
  Elem "Budget" [] ""
    [Elem "ProgramElement" [("number", "0604123X"); ("name", "Hypersonics")] ""
       [Elem "Project" [("number", "001")] ""
          [Elem "Name" [] "Flight Test" [];
           Elem "CostCategory" [("name", "Wind tunnel"); ("FY2023", "4.5")] "" []]]].

Definition batch_fs : gmap string file :=
  {[ "a.xml" := {| xml_tree := Some good_xml; workbook := None |};
     "broken.dat" := {| xml_tree := None; workbook := None |};
     "broken.xlsx" := {| xml_tree := None; workbook := None |};
     "c.xlsx" := {| xml_tree := None; workbook := Some [worksheet] |} ]}.

(** A workbook whose sheet has a title in the second column of its first
    row, above the header: the first cell of that row is an [EmptyCell]. *)
Definition offset_title_sheet : sheet :=
  [CEmpty; CStr "Exhibit R-1D"] :: worksheet.

Definition abort_fs : gmap string file :=
  {[ "a.xml" := {| xml_tree := Some good_xml; workbook := None |};
     "b.xlsx" := {| xml_tree := None; workbook := Some [offset_title_sheet] |};
     "broken.xlsx" := {| xml_tree := None; workbook := None |};
     "c.xlsx" := {| xml_tree := None; workbook := Some [worksheet] |} ]}.

Definition record_a : Schema.CostLineRecord :=
  {| Schema.PENumber := "0604123X"; Schema.PEName := "Hypersonics";
     Schema.ProjectNumber := "001"; Schema.ProjectName := "Flight Test";
     Schema.CostCategory := "Wind tunnel";
     Schema.FY2023_Cost := Some (PyFloat.FFin (9 # 2));
     Schema.FY2024_Cost := None; Schema.FY2025_Base_Cost := None;
     Schema.R1D_Description := None |}.

Definition record_c : Schema.CostLineRecord :=
  {| Schema.PENumber := "0604123X"; Schema.PEName := "Hypersonics";
     Schema.ProjectNumber := "001"; Schema.ProjectName := "Flight Test";
     Schema.CostCategory := "Project Totals";
     Schema.FY2023_Cost := Some (PyFloat.FFin 10);
     Schema.FY2024_Cost := Some (PyFloat.FFin 12);
     Schema.FY2025_Base_Cost := Some (PyFloat.FFin 15);
     Schema.R1D_Description := Some "" |}.



(** An XML export whose program element has a blank number:
    [<PE number=" "><Project><Line/></Project></PE>]. *)
Definition blank_pe_xml : elem :=
  Elem "PE" [("number", " ")] ""
    [Elem "Project" [] "" [Elem "Line" [] "" []]].

Definition blank_pe_fs : gmap string file :=
  {[ "r3_export.xml" := {| xml_tree := Some blank_pe_xml; workbook := None |} ]}.

(** Two cost-line rows and a lookup that knows only the first. *)
Definition row_a : Schema.CostLineRecord :=
  {| Schema.PENumber := "0604123X"; Schema.PEName := "Hypersonics";
     Schema.ProjectNumber := "001"; Schema.ProjectName := "Flight Test";
     Schema.CostCategory := "Project Totals";
     Schema.FY2023_Cost := Some (PyFloat.FFin 10);
     Schema.FY2024_Cost := None;
     Schema.FY2025_Base_Cost := Some (PyFloat.FFin 15);
     Schema.R1D_Description := Some "Test flights" |}.

Definition row_b : Schema.CostLineRecord :=
  {| Schema.PENumber := " 0602000D "; Schema.PEName := "Sensors";
     Schema.ProjectNumber := "002"; Schema.ProjectName := "";
     Schema.CostCategory := "Lab work";
     Schema.FY2023_Cost := None; Schema.FY2024_Cost := Some (PyFloat.FFin 0);
     Schema.FY2025_Base_Cost := None;
     Schema.R1D_Description := Some "Bench trials" |}.

Definition bundle_a : R2Parser.bundle :=
  {| R2Parser.mission := Some "Develop hypersonics.";
     R2Parser.accomplishments := Some "";
     R2Parser.acquisition := None;
     R2Parser.is_new_start := Some "True" |}.

Definition lookup_a : gmap string R2Parser.bundle := {[ "0604123X" := bundle_a ]}.

(** Pages of a program element that is a new start, and the lookup built
    from them. *)
Definition new_start_pages : list string :=
  ["Exhibit R-2 PE 0604123X"; "New Start: Yes"].

Definition new_start_lookup : gmap string R2Parser.bundle :=
  {[ "0604123X" := R2Parser.extract_r2_sections_for_pe new_start_pages ]}.

End Scenario.

From Stdlib Require Import Sorted Permutation.
From Stdlib Require OrderedTypeEx.


(** ** [etl/r2_parser.py]: the pages of a program element *)

Module R2Pages.
Import Re R2Parser.

Definition R2_TITLE_MARKERS : list string :=
  ["Exhibit R-2"; "Exhibit R-2A"; "R-2 Budget Item Justification"; "R-2A"].

(** [any(m in txt for m in R2_TITLE_MARKERS)]. *)
Definition has_title_marker (txt : string) : bool :=
  existsb (fun m => Py.contains m txt) R2_TITLE_MARKERS.

(** A literal matched with its case: the last character consumed and the
    rest of the text. *)
Fixpoint strip_prefix (x s : string) (prev : option ascii)
  : option (option ascii * string) :=
  match x with
  | "" => Some (prev, s)
  | String c x' =>
      match s with
      | String d s' => if Ascii.eqb c d then strip_prefix x' s' (Some d) else None
      | "" => None
      end
  end.

(** [\b] between the character [prev] and the text [s]. *)
Definition word_boundary (prev : option ascii) (s : string) : bool :=
  xorb (is_word_opt prev) (is_word_opt (next_char s)).

(** The escaped number, then [\b]. *)
Definition number_here (pe_number : string) (prev : option ascii) (s : string)
  : bool :=
  match strip_prefix pe_number s prev with
  | Some (last, rest) => word_boundary last rest
  | None => false
  end.

(** [\s*], then the number and [\b]: after some run of blanks. *)
Fixpoint blanks_then_number (pe_number : string) (prev : option ascii)
    (s : string) : bool :=
  number_here pe_number prev s ||
  match s with
  | String c s' => Py.is_space c && blanks_then_number pe_number (Some c) s'
  | "" => false
  end.

(** Whether the pattern of [find_r2_pages_for_pe] matches at one position:
    a word boundary, optionally "PE" and blanks, the escaped number and a
    word boundary. The pattern is compiled without flags: letters are
    matched with their case. *)
Definition pe_pattern_here (pe_number : string) (prev : option ascii)
    (s : string) : bool :=
  word_boundary prev s &&
  (match strip_prefix "PE" s prev with
   | Some (last, rest) => blanks_then_number pe_number last rest
   | None => false
   end
   || number_here pe_number prev s).

Fixpoint pe_pattern_search_from (pe_number : string) (prev : option ascii)
    (s : string) : bool :=
  pe_pattern_here pe_number prev s ||
  match s with
  | String c s' => pe_pattern_search_from pe_number (Some c) s'
  | "" => false
  end.

(** The truth value of [re.search(pe_pattern, txt)]. *)
Definition pe_pattern_search (pe_number txt : string) : bool :=
  pe_pattern_search_from pe_number None txt.

(** The loop of [find_r2_pages_for_pe] over the pages from index [i] on. *)
Fixpoint find_pages_from (i : nat) (pages : list string) (pe_number : string)
  : list nat :=
  match pages with
  | [] => []
  | txt :: pages' =>
      if has_title_marker txt && pe_pattern_search pe_number txt
      then i :: find_pages_from (S i) pages' pe_number
      else find_pages_from (S i) pages' pe_number
  end.

(** [find_r2_pages_for_pe] on an opened document, given as the texts of its
    pages. *)
Definition find_r2_pages_for_pe (doc : list string) (pe_number : string)
  : list nat :=
  find_pages_from 0 doc pe_number.

(** [extract_r2_sections_for_pe] on an opened document: the texts of the
    selected pages are collected and carved. *)
Definition extract_r2_sections_for_pdf (doc : list string) (pe_number : string)
  : bundle :=
  let page_ids := find_r2_pages_for_pe doc pe_number in
  extract_r2_sections_for_pe (List.map (fun pid => nth pid doc "") page_ids).

End R2Pages.

(** ** [cli/pipeline.py] and [cli/batch.py]: the lookup of narratives *)

Module Pipeline.
Import Schema R2Parser R2Pages Fusion.

(** [(r.get("PENumber") or "").strip()]. *)
Definition pe_key (r : CostLineRecord) : string := Py.strip (PENumber r).

(** Insertion into a sorted list without duplicates, in the order of
    Python's string comparison. *)
Fixpoint insert_sorted (x : string) (l : list string) : list string :=
  match l with
  | [] => [x]
  | y :: l' =>
      if String.eqb x y then l
      else if String.ltb x y then x :: l
      else y :: insert_sorted x l'
  end.

(** [sorted({key(r) for r in r3_rows if key(r)})]. *)
Definition unique_pes (r3_rows : list CostLineRecord) : list string :=
  fold_right insert_sorted []
    (List.filter Py.truthy (List.map pe_key r3_rows)).

(** The dict of the [except] branch of [run_pipeline]. *)
Definition null_bundle : bundle :=
  {| mission := None; accomplishments := None; acquisition := None;
     is_new_start := None |}.

(** [extract_r2_sections_for_pe(pdf_path, pe)] under [try]: [doc] is [None]
    when the document cannot be opened, which raises. *)
Definition extract_or_null (doc : option (list string)) (pe : string) : bundle :=
  match doc with
  | Some d => extract_r2_sections_for_pdf d pe
  | None => null_bundle
  end.

(** Step 3 of [run_pipeline]. *)
Definition build_r2_lookup (doc : option (list string))
    (r3_rows : list CostLineRecord) : gmap string bundle :=
  fold_left (fun r2_lookup pe => <[pe := extract_or_null doc pe]> r2_lookup)
    (unique_pes r3_rows) ∅.

(** [os.path.basename] (posixpath). *)
Definition basename (p : string) : string :=
  Py.drop (Z.to_nat (XmlR3Parser.rfind "/" p + 1)) p.

Definition path_given (pdf_path : option string) : bool :=
  match pdf_path with Some p => Py.truthy p | None => false end.

(** Steps 3 and 4 of [run_pipeline], up to the list [enriched]. *)
Definition run_pipeline_enriched (pdf_path : option string)
    (doc : option (list string)) (r3_rows : list CostLineRecord)
    (skip_r2 use_r1d_description : bool) : list EnrichedRecord :=
  let r2_lookup :=
    if negb skip_r2 && path_given pdf_path
    then build_r2_lookup doc r3_rows else ∅ in
  let src_name :=
    match pdf_path with
    | Some p => if Py.truthy p then basename p else "excel_only"
    | None => "excel_only"
    end in
  fuse_r3_with_r2 src_name r3_rows r2_lookup use_r1d_description.

(** The tail of [_gather_files]: duplicates removed, first occurrences kept
    in order. *)
Fixpoint uniq_from (seen : gset string) (files : list string) : list string :=
  match files with
  | [] => []
  | f :: files' =>
      if decide (f ∈ seen) then uniq_from seen files'
      else f :: uniq_from ({[f]} ∪ seen) files'
  end.

Definition uniq (files : list string) : list string := uniq_from ∅ files.

(** The pages of [pe] in a PDF of the batch, [[]] when the call raises. *)
Definition pages_in (pdf : option (list string)) (pe : string) : list nat :=
  match pdf with
  | Some d => find_r2_pages_for_pe d pe
  | None => []
  end.

(** The inner loop of [run_batch] over the unresolved identifiers. *)
Definition scan_pdf (pdf : option (list string))
    (st : gmap string bundle * gset string) : gmap string bundle * gset string :=
  fold_left
    (fun '(r2_lookup, unresolved) pe =>
       match pages_in pdf pe with
       | [] => (r2_lookup, unresolved)
       | _ :: _ => (<[pe := extract_or_null pdf pe]> r2_lookup, unresolved ∖ {[pe]})
       end)
    (elements st.2) st.

(** The loop of [run_batch] over the PDFs, left when nothing is unresolved. *)
Fixpoint scan_pdfs (pdf_files : list (option (list string)))
    (st : gmap string bundle * gset string) : gmap string bundle * gset string :=
  match pdf_files with
  | [] => st
  | pdf :: pdf_files' =>
      let st' := scan_pdf pdf st in
      if decide (st'.2 = ∅) then st' else scan_pdfs pdf_files' st'
  end.

(** Step 3 of [run_batch]: the lookup and the identifiers left unresolved. *)
Definition batch_r2_lookup (pdf_files : list (option (list string)))
    (r3_rows : list CostLineRecord) (skip_r2 : bool)
  : gmap string bundle * gset string :=
  if skip_r2 then (∅, ∅)
  else
    match pdf_files with
    | [] => (∅, ∅)
    | _ => scan_pdfs pdf_files (∅, list_to_set (unique_pes r3_rows))
    end.

(** Whether a PDF of the batch has pages for [pe], and the first PDF of
    the list that has. *)
Definition has_pages (pdf : option (list string)) (pe : string) : bool :=
  match pages_in pdf pe with [] => false | _ :: _ => true end.

Definition first_pdf_with_pages (pdf_files : list (option (list string)))
    (pe : string) : option (option (list string)) :=
  List.find (fun pdf => has_pages pdf pe) pdf_files.

End Pipeline.

(** ** [analysis/llm_tagging.py]: the corpus and the rule-based tags *)

Module Tagging.

(** A value of a row of the data frame: [None], a missing number (NaN), or
    any other value, carried as the text [str] gives for it. *)
Inductive tval :=
| TNone
| TNaN
| TText (s : string).

Definition _to_text (val : tval) : string :=
  match val with
  | TNone | TNaN => ""
  | TText s => s
  end.

(** The three keys [build_corpus] reads; a missing key is [TNone]. *)
Record tag_row := {
  AccomplishmentsText : tval;
  AcquisitionStrategyText : tval;
  MissionDescriptionText : tval;
}.

(** [s[:n]] for any integer [n]. *)
Definition slice_to (n : Z) (s : string) : string :=
  if (n <? 0)%Z then Py.take (Z.to_nat (Z.of_nat (String.length s) + n)) s
  else Py.take (Z.to_nat n) s.

Definition truncated_mark : string := "... [truncated]".

Definition paragraph_break : string :=
  String (ascii_of_nat 10) (String (ascii_of_nat 10) "").

Definition corpus_part (max_length : Z) (pr : tval) : list string :=
  let text := Py.strip (_to_text pr) in
  if Py.truthy text then
    [if (max_length / 3 <? Z.of_nat (String.length text))%Z
     then slice_to (max_length / 3) text +:+ truncated_mark else text]
  else [].

Definition build_corpus (row : tag_row) (max_length : Z) : string :=
  let parts :=
    flat_map (corpus_part max_length)
      [AccomplishmentsText row; AcquisitionStrategyText row;
       MissionDescriptionText row] in
  let corpus := Py.join paragraph_break parts in
  if (max_length <? Z.of_nat (String.length corpus))%Z
  then slice_to max_length corpus +:+ truncated_mark else corpus.

(** The phrases that make a keyword a primary focus. *)
Definition focus_phrases (k : string) : list string :=
  ["focus on " +:+ k; "developing " +:+ k; k +:+ " program"; k +:+ " system";
   k +:+ " capability"].

(** [k.lower().strip()]. *)
Definition keyword_norm (k : string) : string := Py.strip (Py.lower k).

(** The body of the loop of [_rule_based_relevance]: the counters
    [(k_hits, primary_hits)]. *)
Definition keyword_step (c : string) (hits : nat * nat) (k0 : string)
  : nat * nat :=
  let k := keyword_norm k0 in
  if negb (Py.truthy k) then hits
  else if Py.contains k c then
    (S hits.1,
     if existsb (fun p => Py.contains p c) (focus_phrases k)
     then S hits.2 else hits.2)
  else hits.

Definition _rule_based_relevance (corpus : string) (keywords : list string)
  : string * string :=
  let c := Py.lower corpus in
  let '(k_hits, primary_hits) := fold_left (keyword_step c) keywords (0, 0)%nat in
  if (1 <=? primary_hits)%nat then ("High", "Primary focus phrases matched")
  else if (1 <=? k_hits)%nat then ("Medium", "Keyword mentioned in context")
  else ("Low", "No direct keyword match").

(** What the two counters of [_rule_based_relevance] record about one
    keyword: it occurs in the corpus, and one of its focus phrases does. *)
Definition keyword_hit (c k0 : string) : bool :=
  Py.truthy (keyword_norm k0) && Py.contains (keyword_norm k0) c.

Definition keyword_primary (c k0 : string) : bool :=
  keyword_hit c k0
  && existsb (fun p => Py.contains p c) (focus_phrases (keyword_norm k0)).

(** [tag_relevance_batch] when no provider is configured: the sequential
    loop with the rule-based tag. *)
Definition tag_relevance_batch (rows : list tag_row) (keywords : list string)
  : list (string * string) :=
  fold_left
    (fun results row =>
       (results ++ [_rule_based_relevance (build_corpus row 8000) keywords])%list)
    rows [].

End Tagging.

(** ** Shapes of texts and records, used to state properties *)

Module Shape.
Import Schema.

(** The blanks of the text are single spaces: [after_space] tells that the
    previous character was a blank. *)
Fixpoint single_spaced (after_space : bool) (s : string) : bool :=
  match s with
  | "" => true
  | String c s' =>
      if Py.is_space c
      then Ascii.eqb c " " && negb after_space && single_spaced true s'
      else single_spaced false s'
  end.

(** The five text fields of a cost-line row are trimmed. *)
Definition trimmed_fields (r : CostLineRecord) : Prop :=
  Py.strip (PENumber r) = PENumber r /\
  Py.strip (PEName r) = PEName r /\
  Py.strip (ProjectNumber r) = ProjectNumber r /\
  Py.strip (ProjectName r) = ProjectName r /\
  Py.strip (CostCategory r) = CostCategory r.

(** The description of a cost-line row, when present, is trimmed. *)
Definition description_trimmed (r : CostLineRecord) : Prop :=
  match R1D_Description r with
  | Some d => Py.strip d = d
  | None => True
  end.

(** The last character of [s], or [prev] when [s] is empty. *)
Fixpoint last_char (prev : option ascii) (s : string) : option ascii :=
  match s with
  | "" => prev
  | String c s' => last_char (Some c) s'
  end.

(** The test of [find_r2_pages_for_pe] on the text of one page. *)
Definition selected (pe_number txt : string) : bool :=
  R2Pages.has_title_marker txt && R2Pages.pe_pattern_search pe_number txt.

(** The canonical fields a header cell can be mapped to. *)
Definition canonical_fields : list string :=
  ["PENumber"; "PEName"; "ProjectNumber"; "ProjectName"; "CostCategory";
   "Type"; "Title"; "Description"; "FY2023_Cost"; "FY2024_Cost";
   "FY2025_Base_Cost"].

(** The path reaches [_parse_xlsx_file]: its extension is a workbook
    extension, or it is not an XML extension and [_parse_xml_file] returned
    no record. *)
Definition reads_workbook (path : string) (f : XmlR3Parser.file) : bool :=
  negb (Fusion.in_list (XmlR3Parser.extension path) XmlR3Parser.xml_extensions)
  && (Fusion.in_list (XmlR3Parser.extension path) XmlR3Parser.xlsx_extensions
      || match XmlR3Parser._parse_xml_file (XmlR3Parser.xml_tree f) with
         | [] => true
         | _ => false
         end).

(** Within the first [bound] rows of the sheet, a row whose first cell is
    empty comes before any row that reads as a header. *)
Definition empty_first_cell_before_header (sh : XmlR3Parser.sheet) (bound : nat)
  : Prop :=
  exists i row,
    (i < bound)%nat /\ sh !! i = Some row /\
    XmlR3Parser.first_cell_has_no_row row = true /\
    forall j r,
      (j < i)%nat -> sh !! j = Some r ->
      XmlR3Parser.first_cell_has_no_row r = false /\
      XmlR3Parser.is_header r = false.

(** The records of a path, none when the path raises. *)
Definition rows_of_path (fs : gmap string XmlR3Parser.file) (path : string)
  : list CostLineRecord :=
  match XmlR3Parser.parse_path fs path with
  | Outcome.Returns rows => rows
  | Outcome.Raises => []
  end.

End Shape.

(** ** Inputs of further examples *)

Module Scenario2.
Import XmlR3Parser.

(** A sheet whose header is in its third row. *)
Definition titled_sheet : sheet :=
  [[CStr "Budget Exhibit"]; []; Scenario.header; Scenario.pe_row;
   Scenario.project_row].

(** A generic header with two columns that qualify as the project name. *)
Definition generic_header : row :=
  [CStr "Program Element Number"; CStr "Project Number"; CStr "Project Title";
   CStr "Project Name"; CStr "FY2023"].

Definition blank_row : row := [CNone; CStr "  "; CNone].

(** A document of four pages, two of them pages of the program element. *)
Definition jbook : list string :=
  ["Table of contents 0604123X";
   "Exhibit R-2 PE0604123X A. Mission Description and Budget Item Justification Develops X.";
   "Exhibit R-2A 06041234";
   "R-2A PE 0604123X New Start: No"].

(** Rows of two program elements, one of them twice, and a row without
    number. *)
Definition rows_of_two : list Schema.CostLineRecord :=
  [Scenario.row_b; Scenario.row_a; Scenario.row_b;
   {| Schema.PENumber := "  "; Schema.PEName := ""; Schema.ProjectNumber := "7";
      Schema.ProjectName := ""; Schema.CostCategory := "";
      Schema.FY2023_Cost := None; Schema.FY2024_Cost := None;
      Schema.FY2025_Base_Cost := None; Schema.R1D_Description := None |}].

(** A row of the data frame with one narrative. *)
Definition radar_row : Tagging.tag_row :=
  {| Tagging.AccomplishmentsText := Tagging.TText " Developing Radar arrays. ";
     Tagging.AcquisitionStrategyText := Tagging.TNaN;
     Tagging.MissionDescriptionText := Tagging.TNone |}.

(** An XML export with padded attribute values. *)
Definition padded_xml : elem :=
  Elem "Budget" [] ""
    [Elem "PE" [("number", " 0604123X "); ("name", " Hypersonics")] ""
       [Elem "Project" [("number", "001 ")] ""
          [Elem "Line" [("name", " Wind tunnel "); ("FY2023", " 4.5 ")] "" []]]].

Definition padded_fs : gmap string file :=
  {[ "r3.xml" := {| xml_tree := Some padded_xml; workbook := None |} ]}.

Definition xml_record : Schema.CostLineRecord :=
  {| Schema.PENumber := "0604123X"; Schema.PEName := "Hypersonics";
     Schema.ProjectNumber := "001"; Schema.ProjectName := "";
     Schema.CostCategory := "Wind tunnel";
     Schema.FY2023_Cost := Some (PyFloat.FFin (9 # 2));
     Schema.FY2024_Cost := None; Schema.FY2025_Base_Cost := None;
     Schema.R1D_Description := None |}.

End Scenario2.
(** ** Properties *)

Import PyFloat Schema R2Parser Fusion Outcome XmlR3Parser.

(** *** Trimming *)

Lemma rstrip_idem s : Py.rstrip (Py.rstrip s) = Py.rstrip s.
Proof.
  induction s as [|c s IH]; [reflexivity|].
  cbn [Py.rstrip]. destruct (Py.rstrip s) as [|d r] eqn:E.
  - destruct (Py.is_space c) eqn:Hc; [reflexivity|].
    cbn [Py.rstrip]. now rewrite Hc.
  - cbn [Py.rstrip]. cbn [Py.rstrip] in IH.
    destruct (Py.rstrip r) as [|e r'] eqn:E'.
    + destruct (Py.is_space d); [discriminate|]. now rewrite IH.
    + now rewrite IH.
Qed.

Lemma lstrip_nonspace c s : Py.is_space c = false -> Py.lstrip (String c s) = String c s.
Proof. intros H. simpl. now rewrite H. Qed.

Lemma lstrip_cases s :
  Py.lstrip s = "" \/ exists c t, Py.lstrip s = String c t /\ Py.is_space c = false.
Proof.
  induction s as [|c s IH]; [now left|].
  simpl. destruct (Py.is_space c) eqn:Hc; [exact IH|].
  right. now exists c, s.
Qed.

Lemma rstrip_nonspace_head c s :
  Py.is_space c = false -> exists t, Py.rstrip (String c s) = String c t.
Proof.
  intros Hc. cbn [Py.rstrip]. destruct (Py.rstrip s) as [|d r].
  - rewrite Hc. now exists "".
  - now exists (String d r).
Qed.

(** [strip] leaves a trimmed string as it is. *)
Lemma strip_idem s : Py.strip (Py.strip s) = Py.strip s.
Proof.
  unfold Py.strip. destruct (lstrip_cases s) as [->|(c & t & -> & Hc)].
  - reflexivity.
  - destruct (rstrip_nonspace_head c t Hc) as [u Hu].
    rewrite Hu, (lstrip_nonspace _ _ Hc), <- Hu. apply rstrip_idem.
Qed.

Lemma is_space_upper_char c : Py.is_space (Py.upper_char c) = Py.is_space c.
Proof. destruct c as [[] [] [] [] [] [] [] []]; reflexivity. Qed.

Lemma lstrip_upper s : Py.lstrip (Py.upper s) = Py.upper (Py.lstrip s).
Proof.
  induction s as [|c s IH]; [reflexivity|].
  simpl. rewrite is_space_upper_char. now destruct (Py.is_space c).
Qed.

Lemma rstrip_upper s : Py.rstrip (Py.upper s) = Py.upper (Py.rstrip s).
Proof.
  induction s as [|c s IH]; [reflexivity|].
  cbn [Py.upper Py.rstrip]. rewrite IH, is_space_upper_char.
  destruct (Py.rstrip s); simpl; [now destruct (Py.is_space c)|reflexivity].
Qed.

Lemma strip_upper s : Py.strip (Py.upper s) = Py.upper (Py.strip s).
Proof. unfold Py.strip. now rewrite lstrip_upper, rstrip_upper. Qed.

Lemma upper_empty s : Py.upper s = "" -> s = "".
Proof. destruct s; [reflexivity|discriminate]. Qed.

Lemma truthy_true s : Py.truthy s = true <-> s <> "".
Proof. destruct s; simpl; split; congruence. Qed.

Lemma truthy_false s : Py.truthy s = false <-> s = "".
Proof. destruct s; simpl; split; congruence. Qed.

(** [gv] yields trimmed strings. *)
Lemma gv_trimmed hdr_map row_vals key s :
  gv hdr_map row_vals key = Some s -> Py.strip s = s.
Proof.
  unfold gv. destruct (hdr_map !! key) as [idx|]; [|discriminate].
  destruct (row_vals !! idx) as [[| |t|t]|]; try discriminate;
    intros [= <-]; apply strip_idem.
Qed.

Lemma norm_trimmed v : Py.strip (_norm v) = _norm v.
Proof. apply strip_idem. Qed.

(** *** Section carving *)

Lemma finditer_generic_after_start pos prev s skip m :
  In m (Re.finditer_from pat_generic (S pos) prev s skip) -> False.
Proof.
  revert pos prev skip. induction s as [|x s IH]; intros pos prev skip.
  - destruct skip; simpl; tauto.
  - destruct skip as [|k]; cbn [Re.finditer_from].
    + change (Re.match_here pat_generic (S pos) prev (String x s))
        with (@None Re.result).
      apply IH.
    + apply IH.
Qed.

(** The generic boundary can only match at the very start of the text it is
    searched in. *)
Lemma generic_boundary_only_at_start s m :
  In m (Re.finditer pat_generic s) -> Re.m_start m = 0%nat.
Proof.
  unfold Re.finditer. destruct s as [|x s]; cbn [Re.finditer_from].
  - destruct (Re.match_here pat_generic 0 None "") as [[e g]|]; simpl.
    + intros [<-|[]]. reflexivity.
    + tauto.
  - destruct (Re.match_here pat_generic 0 None (String x s)) as [[e g]|].
    + intros [<-|H]; [reflexivity|].
      exfalso. eapply finditer_generic_after_start, H.
    + intros H. exfalso. eapply finditer_generic_after_start, H.
Qed.

(** C1. On the narrative of the carving scenario the mission and
    accomplishments sections end at the next anchor, but the acquisition
    section is not cut at the following header "E.": the generic boundary
    is anchored to the start of the searched text, so the section runs to
    the end of the text. The same happens when every header starts a line. *)
Theorem carve_scenario_acquisition_runs_to_end :
  extract_r2_sections_for_pe [Scenario.narrative] =
    {| mission := Some "The program develops X.";
       accomplishments := Some "Built Y in FY23.";
       acquisition := Some "Sole source. E. Other ...";
       is_new_start := None |}
  /\ acquisition (extract_r2_sections_for_pe [Scenario.narrative_lines]) =
       Some "Sole source. E. Other".
Proof. split; vm_compute; reflexivity. Qed.

(** *** Fusion *)

Lemma fold_left_snoc_map {A B} (f : A -> B) (l : list A) (init : list B) :
  fold_left (fun acc x => (acc ++ [f x])%list) l init = (init ++ List.map f l)%list.
Proof.
  revert init. induction l as [|x l IH]; intros init; simpl.
  - now rewrite app_nil_r.
  - rewrite IH, <- app_assoc. reflexivity.
Qed.

Lemma fuse_r3_with_r2_map source rows lookup flag :
  fuse_r3_with_r2 source rows lookup flag =
  List.map (fuse_row source lookup flag) rows.
Proof. unfold fuse_r3_with_r2. exact (fold_left_snoc_map _ _ []). Qed.

Lemma lookup_map {A B} (f : A -> B) (l : list A) (i : nat) :
  List.map f l !! i = f <$> (l !! i).
Proof.
  revert i. induction l as [|x l IH]; intros [|i]; simpl; auto.
Qed.

(** C2, as amended. Fusion returns one record per cost-line row, in the
    order of the rows, whatever the lookup holds and whatever the fallback
    flag: the output is as long as the input, and the record at each
    position carries the source label and the identifying and cost fields
    of the row at that position. A row whose trimmed PENumber has no bundle
    still has its record, with no acquisition text and no flag; its
    accomplishments and mission texts are null when the fallback is off
    (as it is by default) or the row carries no description, and are both
    the trimmed description of the row when the fallback is on and that
    description is not empty. *)
Theorem fuse_one_record_per_row (source : string) (rows : list CostLineRecord)
    (lookup : gmap string bundle) (flag : bool) :
  List.length (fuse_r3_with_r2 source rows lookup flag) = List.length rows /\
  forall (i : nat) (row : CostLineRecord),
    rows !! i = Some row ->
    exists rec,
      fuse_r3_with_r2 source rows lookup flag !! i = Some rec /\
      SourceFile rec = source /\
      E_PENumber rec = PENumber row /\
      E_PEName rec = PEName row /\
      E_ProjectNumber rec = ProjectNumber row /\
      E_ProjectName rec = ProjectName row /\
      E_CostCategory rec = CostCategory row /\
      E_FY2023_Cost rec = FY2023_Cost row /\
      E_FY2024_Cost rec = FY2024_Cost row /\
      E_FY2025_Base_Cost rec = FY2025_Base_Cost row /\
      (lookup !! Py.strip (PENumber row) = None ->
         AcquisitionStrategyText rec = None /\ IsNewStart rec = None /\
         (flag = false \/ Py.strip (Py.or_str (R1D_Description row) "") = "" ->
            AccomplishmentsText rec = None /\ MissionDescriptionText rec = None)
         /\
         (flag = true ->
          Py.strip (Py.or_str (R1D_Description row) "") <> "" ->
            AccomplishmentsText rec =
              Some (Py.strip (Py.or_str (R1D_Description row) "")) /\
            MissionDescriptionText rec =
              Some (Py.strip (Py.or_str (R1D_Description row) "")))).
Proof.
  rewrite fuse_r3_with_r2_map. split.
  - apply List.length_map.
  - intros i row Hi. exists (fuse_row source lookup flag row).
    rewrite lookup_map, Hi.
    do 10 (split; [reflexivity|]).
    intros Hno. unfold fuse_row; simpl. rewrite Hno; simpl.
    do 2 (split; [reflexivity|]). split.
    + intros [-> | ->]; [split; reflexivity|].
      destruct flag; split; reflexivity.
    + intros -> Hd. unfold fallback. cbn [is_missing andb].
      destruct (Py.strip (Py.or_str (R1D_Description row) "")) eqn:E;
        [congruence|]. split; reflexivity.
Qed.

Lemma fuse_one_record_per_row_witness :
  exists rec,
    fuse_r3_with_r2 "vol1.pdf" [Scenario.row_a; Scenario.row_b]
      Scenario.lookup_a false !! 1%nat = Some rec /\
    E_PENumber rec = " 0602000D " /\
    AccomplishmentsText rec = None /\ MissionDescriptionText rec = None.
Proof.
  destruct (fuse_one_record_per_row "vol1.pdf" [Scenario.row_a; Scenario.row_b]
              Scenario.lookup_a false) as [_ H].
  destruct (H 1%nat Scenario.row_b eq_refl) as (rec & Hrec & _ & Hpe & H').
  exists rec. split; [exact Hrec|]. split; [exact Hpe|].
  destruct H' as (_ & _ & _ & _ & _ & _ & _ & Hno).
  destruct (Hno ltac:(vm_compute; reflexivity)) as (_ & _ & Hoff & _).
  exact (Hoff (or_introl eq_refl)).
Defined.

(** With the fallback on, a row without bundle that carries a description
    gets accomplishments and mission texts: its narrative fields are not
    null. *)
Lemma row_without_bundle_gets_description :
  Scenario.lookup_a !! Py.strip (PENumber Scenario.row_b) = None /\
  fuse_r3_with_r2 "vol1.pdf" [Scenario.row_a; Scenario.row_b]
    Scenario.lookup_a true !! 1%nat =
  Some {| SourceFile := "vol1.pdf";
          E_PENumber := " 0602000D "; E_PEName := "Sensors";
          E_ProjectNumber := "002"; E_ProjectName := "";
          E_CostCategory := "Lab work";
          E_FY2023_Cost := None; E_FY2024_Cost := Some (FFin 0);
          E_FY2025_Base_Cost := None;
          AccomplishmentsText := Some "Bench trials";
          AcquisitionStrategyText := None;
          IsNewStart := None;
          MissionDescriptionText := Some "Bench trials" |}.
Proof. split; vm_compute; reflexivity. Qed.

(** C3. With the fallback off, the three narrative fields of a fused record
    are the fields of the row's bundle (the empty bundle when the lookup has
    none), whatever R1D_Description the row carries. With the fallback on,
    the acquisition text is still the bundle's, and the accomplishments and
    the mission text, each on its own, are replaced by the trimmed
    R1D_Description exactly when the bundle's text is null or empty and the
    trimmed description is not empty; a bundle text that is not empty is
    kept. *)
Theorem fallback_policy (source : string) (rows : list CostLineRecord)
    (lookup : gmap string bundle) (flag : bool) (i : nat)
    (row : CostLineRecord) (rec : EnrichedRecord) :
  rows !! i = Some row ->
  fuse_r3_with_r2 source rows lookup flag !! i = Some rec ->
  let b := default empty_bundle (lookup !! Py.strip (PENumber row)) in
  let desc := Py.strip (Py.or_str (R1D_Description row) "") in
  AcquisitionStrategyText rec = acquisition b /\
  (flag = false ->
     AccomplishmentsText rec = accomplishments b /\
     MissionDescriptionText rec = mission b) /\
  (flag = true ->
     AccomplishmentsText rec =
       (if is_missing (accomplishments b) && Py.truthy desc
        then Some desc else accomplishments b) /\
     MissionDescriptionText rec =
       (if is_missing (mission b) && Py.truthy desc
        then Some desc else mission b) /\
     (is_missing (accomplishments b) = false ->
        AccomplishmentsText rec = accomplishments b) /\
     (is_missing (mission b) = false ->
        MissionDescriptionText rec = mission b) /\
     (AccomplishmentsText rec <> accomplishments b ->
        is_missing (accomplishments b) = true /\
        exists d, R1D_Description row = Some d /\ d <> "" /\
                  AccomplishmentsText rec = Some (Py.strip d)) /\
     (MissionDescriptionText rec <> mission b ->
        is_missing (mission b) = true /\
        exists d, R1D_Description row = Some d /\ d <> "" /\
                  MissionDescriptionText rec = Some (Py.strip d))).
Proof.
  intros Hrow Hrec b desc.
  rewrite fuse_r3_with_r2_map, lookup_map, Hrow in Hrec.
  injection Hrec as <-.
  assert (Hsub : forall t, fallback t desc <> t ->
            is_missing t = true /\
            exists d, R1D_Description row = Some d /\ d <> "" /\
                      fallback t desc = Some (Py.strip d)).
  { intros t. unfold fallback.
    destruct (is_missing t); simpl; [|congruence].
    destruct (Py.truthy desc) eqn:Hd; [|congruence].
    intros _. split; [reflexivity|].
    subst desc. destruct (R1D_Description row) as [d|]; simpl in *.
    - destruct d as [|c d]; simpl in *; [discriminate|].
      exists (String c d). repeat split; congruence.
    - discriminate. }
  split; [reflexivity|]. split.
  - intros ->. split; reflexivity.
  - intros ->.
    assert (Ha : AccomplishmentsText (fuse_row source lookup true row) =
                 fallback (accomplishments b) desc) by reflexivity.
    assert (Hm : MissionDescriptionText (fuse_row source lookup true row) =
                 fallback (mission b) desc) by reflexivity.
    rewrite Ha, Hm.
    split; [reflexivity|]. split; [reflexivity|].
    split; [intros Hk; unfold fallback; rewrite Hk; reflexivity|].
    split; [intros Hk; unfold fallback; rewrite Hk; reflexivity|].
    split; apply Hsub.
Qed.

Lemma fallback_policy_witness :
  AccomplishmentsText
    (fuse_row "vol1.pdf" Scenario.lookup_a true Scenario.row_a) =
    Some "Test flights" /\
  MissionDescriptionText
    (fuse_row "vol1.pdf" Scenario.lookup_a true Scenario.row_a) =
    Some "Develop hypersonics.".
Proof.
  destruct (fallback_policy "vol1.pdf" [Scenario.row_a; Scenario.row_b]
              Scenario.lookup_a true 0%nat Scenario.row_a
              (fuse_row "vol1.pdf" Scenario.lookup_a true Scenario.row_a)
              eq_refl eq_refl)
    as (_ & _ & Hon).
  destruct (Hon eq_refl) as (Ha & Hm & _).
  split; [exact Ha | exact Hm].
Defined.

(** *** The hierarchical Row-Walker: what a row emits *)

(** Every record of the walk was emitted by the step of one of the rows. *)
Lemma r1d_loop_emitted hdr_map rows ctx blank_streak results rec :
  In rec (r1d_loop hdr_map rows ctx blank_streak results) ->
  In rec results \/
  exists row_vals ctx0,
    In row_vals rows /\ is_blank_row row_vals = false /\
    (r1d_row hdr_map row_vals ctx0).2 = Some rec.
Proof.
  revert ctx blank_streak results.
  induction rows as [|r rows IH]; intros ctx bs res; cbn [r1d_loop].
  - now left.
  - destruct (is_blank_row r) eqn:Hb.
    + destruct (10 <=? S bs)%nat; [now left|].
      intros H. destruct (IH _ _ _ H) as [?|(r' & c & Hin & ?)]; [now left|].
      right. exists r', c. split; [now right|assumption].
    + destruct (r1d_row hdr_map r ctx) as [ctx' [e|]] eqn:Hstep; intros H;
        destruct (IH _ _ _ H) as [Hres|(r' & c & Hin & ?)].
      * apply in_app_or in Hres as [?|[<-|[]]]; [now left|].
        right. exists r, ctx. rewrite Hstep. split; [now left|now split].
      * right. exists r', c. split; [now right|assumption].
      * now left.
      * right. exists r', c. split; [now right|assumption].
Qed.

(** A record comes from a PROJECT row, with the constant category, or from a
    leaf row that passed the summary test. *)
Lemma r1d_row_emitted hdr_map row_vals ctx rec :
  (r1d_row hdr_map row_vals ctx).2 = Some rec ->
  is_project_type (row_type hdr_map row_vals) = true /\
    CostCategory rec = "Project Totals"
  \/
  is_project_type (row_type hdr_map row_vals) = false /\
    CostCategory rec = derived_category hdr_map row_vals /\
    is_summary_duplicate (CostCategory rec) = false /\
    Py.truthy (PENumber rec) || Py.truthy (ProjectNumber rec)
      || Py.truthy (CostCategory rec) = true /\
    PENumber rec = _norm (current_pe_num ctx) /\
    ProjectNumber rec = _norm (current_proj_num ctx).
Proof.
  unfold r1d_row.
  destruct (String.eqb (row_type hdr_map row_vals) "PE"); [discriminate|].
  destruct (is_project_type (row_type hdr_map row_vals)) eqn:Hp.
  - cbn. intros [= <-]. now left.
  - destruct (_ || _); [|discriminate].
    cbn [CostCategory].
    destruct (is_summary_duplicate _) eqn:Hd; [discriminate|].
    destruct (_ || _) eqn:Hk; [|discriminate].
    cbn. intros [= <-]. right. cbn [CostCategory PENumber ProjectNumber].
    cbn [CostCategory PENumber ProjectNumber] in Hk. auto 10.
Qed.

Lemma summary_duplicate_false category :
  is_summary_duplicate category = false ->
  Py.contains "totals" (Py.lower category)
    && Py.contains "sum of" (Py.lower category) = false /\
  Py.lower category <> "project totals".
Proof.
  unfold is_summary_duplicate, in_list. cbn [existsb].
  intros H. apply orb_false_iff in H as [H1 H2]. split; [exact H1|].
  rewrite orb_false_r in H2. now apply String.eqb_neq in H2.
Qed.

(** C4. No record of the Row-Walker has a category that, in lower case,
    contains both "totals" and "sum of"; none has the category
    "Sum of Project Totals"; and a record whose category is "project totals"
    in lower case was emitted by a PROJECT row, never by a leaf row. A leaf
    row whose derived category is "Sum of Project Totals" emits nothing. *)
Theorem no_summary_duplicates (sh : sheet) (header_row : nat)
    (hdr_map : gmap string nat) :
  (forall rec,
     In rec (_parse_r1d_sheet sh header_row hdr_map) ->
     Py.contains "totals" (Py.lower (CostCategory rec))
       && Py.contains "sum of" (Py.lower (CostCategory rec)) = false /\
     CostCategory rec <> "Sum of Project Totals" /\
     exists row_vals ctx,
       In row_vals (List.skipn header_row sh) /\
       (r1d_row hdr_map row_vals ctx).2 = Some rec /\
       (Py.lower (CostCategory rec) = "project totals" ->
          is_project_type (row_type hdr_map row_vals) = true)) /\
  (forall row_vals ctx,
     is_project_type (row_type hdr_map row_vals) = false ->
     derived_category hdr_map row_vals = "Sum of Project Totals" ->
     (r1d_row hdr_map row_vals ctx).2 = None).
Proof.
  split.
  - intros rec Hin. unfold _parse_r1d_sheet in Hin.
    apply r1d_loop_emitted in Hin as [[]|(r & c & Hr & _ & Hstep)].
    assert (Hboth : Py.contains "totals" (Py.lower (CostCategory rec))
                    && Py.contains "sum of" (Py.lower (CostCategory rec)) = false).
    { destruct (r1d_row_emitted _ _ _ _ Hstep) as [[_ ->]|(_ & _ & Hd & _)].
      - reflexivity.
      - now apply summary_duplicate_false in Hd. }
    split; [exact Hboth|]. split.
    + intros E. rewrite E in Hboth. discriminate.
    + exists r, c. split; [exact Hr|]. split; [exact Hstep|].
      intros Hcc.
      destruct (r1d_row_emitted _ _ _ _ Hstep) as [[Hp _]|(_ & _ & Hd & _)];
        [exact Hp|].
      apply summary_duplicate_false in Hd as [_ Hne]. contradiction.
  - intros r c Hp Hcat. unfold r1d_row. rewrite Hp.
    destruct (String.eqb (row_type hdr_map r) "PE"); [reflexivity|].
    destruct (_ || _); [|reflexivity].
    cbn [CostCategory]. rewrite Hcat. reflexivity.
Qed.

Lemma no_summary_duplicates_witness :
  (Py.contains "totals" (Py.lower (CostCategory Scenario.leaf_record))
     && Py.contains "sum of" (Py.lower (CostCategory Scenario.leaf_record)) = false
   /\ CostCategory Scenario.leaf_record <> "Sum of Project Totals")
  /\ (r1d_row (_header_map Scenario.header) Scenario.summary_row
        Scenario.project_context).2 = None.
Proof.
  destruct (no_summary_duplicates Scenario.long_sheet 1
              (_header_map Scenario.header)) as [Hout Hrow].
  split.
  - destruct (Hout Scenario.leaf_record) as (H1 & H2 & _).
    + vm_compute. right. left. reflexivity.
    + split; [exact H1 | exact H2].
  - apply Hrow; vm_compute; reflexivity.
Defined.

(** *** The hierarchical Row-Walker: rows without a type *)

Lemma row_type_trimmed hdr_map row_vals :
  Py.strip (row_type hdr_map row_vals) = row_type hdr_map row_vals.
Proof.
  unfold row_type. destruct (gv hdr_map row_vals "Type") as [ty|] eqn:Hg;
    cbn [Py.or_str]; [|reflexivity].
  destruct (Py.truthy ty); [|reflexivity].
  now rewrite strip_upper, (gv_trimmed _ _ _ _ Hg).
Qed.

Lemma or_else_cases a b :
  (exists s, a = Some s /\ s <> "" /\ Py.or_else a b = Some s) \/
  Py.or_else a b = b.
Proof.
  destruct a as [[|c s]|]; cbn; auto.
  left. exists (String c s). repeat split. discriminate.
Qed.

(** The category of a leaf row with a type is never empty. *)
Lemma derived_category_nonempty hdr_map row_vals :
  row_type hdr_map row_vals <> "" -> derived_category hdr_map row_vals <> "".
Proof.
  intros Hty. unfold derived_category, _norm.
  set (title := Py.or_str (gv hdr_map row_vals "Title") "").
  assert (Htitle : Py.strip title = title).
  { subst title. destruct (gv hdr_map row_vals "Title") as [t|] eqn:Ht;
      cbn [Py.or_str]; [|reflexivity].
    destruct (Py.truthy t); [|reflexivity]. apply (gv_trimmed _ _ _ _ Ht). }
  destruct (or_else_cases (Some title)
              (Py.or_else (gv hdr_map row_vals "Description")
                 (Some (row_type hdr_map row_vals))))
    as [(s & [= <-] & Hs & ->)| ->].
  { cbn [Py.or_str]. destruct title; [congruence|].
    cbn [Py.truthy]. now rewrite Htitle. }
  destruct (or_else_cases (gv hdr_map row_vals "Description")
              (Some (row_type hdr_map row_vals)))
    as [(s & Hd & Hs & ->)| ->].
  { cbn [Py.or_str]. destruct s; [congruence|].
    cbn [Py.truthy]. now rewrite (gv_trimmed _ _ _ _ Hd). }
  cbn [Py.or_str]. destruct (row_type hdr_map row_vals) eqn:E; [congruence|].
  cbn [Py.truthy]. rewrite <- E, row_type_trimmed. congruence.
Qed.

(** The other rows: a PE row resets the project context and emits nothing, a
    PROJECT row emits a record, and any other row with a type emits a
    record unless its category is a totals summary. *)
Lemma typed_row_is_dispatched hdr_map row_vals ctx :
  row_type hdr_map row_vals <> "" ->
  (row_type hdr_map row_vals = "PE" /\
     (r1d_row hdr_map row_vals ctx).2 = None /\
     current_proj_num (r1d_row hdr_map row_vals ctx).1 = None /\
     current_proj_name (r1d_row hdr_map row_vals ctx).1 = None) \/
  (exists rec, (r1d_row hdr_map row_vals ctx).2 = Some rec) \/
  (is_summary_duplicate (derived_category hdr_map row_vals) = true /\
     r1d_row hdr_map row_vals ctx = (ctx, None)).
Proof.
  intros Hty. unfold r1d_row.
  destruct (String.eqb (row_type hdr_map row_vals) "PE") eqn:Hpe.
  { left. apply String.eqb_eq in Hpe. now rewrite Hpe. }
  right.
  destruct (is_project_type (row_type hdr_map row_vals)) eqn:Hp.
  { left. eexists. reflexivity. }
  assert (Hleaf : in_list (row_type hdr_map row_vals) ["A/PP"; "CA"]
                  || Py.truthy (row_type hdr_map row_vals)
                     && negb (in_list (row_type hdr_map row_vals) ["PE"; "PROJECT"])
                  = true).
  { apply orb_true_iff. right. apply andb_true_iff. split.
    - now apply truthy_true.
    - unfold in_list. cbn [existsb]. rewrite Hpe.
      unfold is_project_type in Hp.
      apply orb_false_iff in Hp as [Hp _]. apply orb_false_iff in Hp as [Hp _].
      now rewrite Hp. }
  rewrite Hleaf. cbn [CostCategory PENumber ProjectNumber].
  destruct (is_summary_duplicate (derived_category hdr_map row_vals)) eqn:Hd.
  { right. split; reflexivity. }
  left.
  assert (Hcat : Py.truthy (derived_category hdr_map row_vals) = true).
  { apply truthy_true. now apply derived_category_nonempty. }
  rewrite Hcat, !orb_true_r. eexists. reflexivity.
Qed.

(** C10, as amended. A row that is not blank and whose Type cell is missing
    or empty emits no record and leaves the context as it was: the walk
    goes on from the next row with the same context and the same results.
    A row with a type is a PE row, which resets the project context and
    emits nothing, or emits a record, or is a leaf row dropped as a totals
    summary, which leaves the context as it was too. *)
Theorem untyped_row_is_skipped (hdr_map : gmap string nat) (row_vals : row)
    (ctx : context) :
  is_blank_row row_vals = false ->
  (gv hdr_map row_vals "Type" = None \/ gv hdr_map row_vals "Type" = Some "" ->
   r1d_row hdr_map row_vals ctx = (ctx, None) /\
   forall rows blank_streak results,
     r1d_loop hdr_map (row_vals :: rows) ctx blank_streak results =
     r1d_loop hdr_map rows ctx 0 results) /\
  (row_type hdr_map row_vals <> "" ->
   (row_type hdr_map row_vals = "PE" /\
      (r1d_row hdr_map row_vals ctx).2 = None /\
      current_proj_num (r1d_row hdr_map row_vals ctx).1 = None /\
      current_proj_name (r1d_row hdr_map row_vals ctx).1 = None) \/
   (exists rec, (r1d_row hdr_map row_vals ctx).2 = Some rec) \/
   (is_summary_duplicate (derived_category hdr_map row_vals) = true /\
      r1d_row hdr_map row_vals ctx = (ctx, None))).
Proof.
  intros Hb. split; [|apply typed_row_is_dispatched].
  intros Ht.
  assert (Hstep : r1d_row hdr_map row_vals ctx = (ctx, None)).
  { unfold r1d_row, row_type. destruct Ht as [-> | ->]; reflexivity. }
  split; [exact Hstep|].
  intros rows bs res. cbn [r1d_loop]. rewrite Hb, Hstep. reflexivity.
Qed.

Lemma untyped_row_is_skipped_witness :
  r1d_row (_header_map Scenario.header) Scenario.untyped_row
    Scenario.project_context = (Scenario.project_context, None) /\
  exists rec,
    (r1d_row (_header_map Scenario.header) Scenario.leaf_row
       Scenario.project_context).2 = Some rec.
Proof.
  split.
  - apply (untyped_row_is_skipped (_header_map Scenario.header)
             Scenario.untyped_row Scenario.project_context).
    + vm_compute. reflexivity.
    + right. vm_compute. reflexivity.
  - destruct (untyped_row_is_skipped (_header_map Scenario.header)
                Scenario.leaf_row Scenario.project_context) as [_ H].
    + vm_compute. reflexivity.
    + destruct H as [(Hpe & _)|[Hrec|(Hdup & _)]].
      * vm_compute. discriminate.
      * vm_compute in Hpe. discriminate.
      * exact Hrec.
      * vm_compute in Hdup. discriminate.
Defined.

(** A row with a type that neither changes the context nor emits a record:
    the summary row of the totals. *)
Lemma typed_summary_row_is_dropped :
  row_type (_header_map Scenario.header) Scenario.summary_row = "A/PP" /\
  r1d_row (_header_map Scenario.header) Scenario.summary_row
    Scenario.project_context = (Scenario.project_context, None).
Proof. split; vm_compute; reflexivity. Qed.

(** *** The hierarchical Row-Walker *)

(** C5. On the worksheet of the scenario the header is found in row 1 and
    mapped to the hierarchical fields, the PE row sets the context and emits
    nothing, and the PROJECT row emits the one record of the sheet, with the
    identifiers of the context, the category "Project Totals" and the three
    amounts of the row (and an empty R1D_Description). *)
Theorem pe_project_scenario :
  _find_header_row Scenario.worksheet 50 = Returns (Some 1%nat) /\
  r1d_row (_header_map Scenario.header) Scenario.pe_row init_context =
    ({| current_pe_num := Some "0604123X";
        current_pe_name := Some "Hypersonics";
        current_proj_num := None;
        current_proj_name := None |}, None) /\
  Returns (_parse_r1d_sheet Scenario.worksheet 1 (_header_map Scenario.header)) =
    parse_sheet Scenario.worksheet /\
  parse_sheet Scenario.worksheet =
    Returns
    [{| PENumber := "0604123X";
        PEName := "Hypersonics";
        ProjectNumber := "001";
        ProjectName := "Flight Test";
        CostCategory := "Project Totals";
        FY2023_Cost := Some (FFin 10);
        FY2024_Cost := Some (FFin 12);
        FY2025_Base_Cost := Some (FFin 15);
        R1D_Description := Some "" |}].
Proof. repeat split; vm_compute; reflexivity. Qed.

(** *** Retention of records *)

(** The hierarchical path keeps the retention rule. *)
Lemma r1d_records_retained sh header_row hdr_map rec :
  In rec (_parse_r1d_sheet sh header_row hdr_map) -> retained rec = true.
Proof.
  intros Hin. unfold _parse_r1d_sheet in Hin.
  apply r1d_loop_emitted in Hin as [[]|(r & c & _ & _ & Hstep)].
  unfold retained.
  destruct (r1d_row_emitted _ _ _ _ Hstep)
    as [[_ ->]|(_ & Hcat & _ & Hk & Hpe & Hproj)].
  - apply orb_true_r.
  - rewrite Hpe, Hproj, Hcat in *. unfold derived_category in *.
    now rewrite !norm_trimmed.
Qed.

(** So does the generic path. *)
Lemma generic_loop_retained hdr_map rows blank_streak results :
  Forall (fun r => retained r = true) results ->
  Forall (fun r => retained r = true)
    (generic_loop hdr_map rows blank_streak results).
Proof.
  revert blank_streak results.
  induction rows as [|r rows IH]; intros bs res Hres; cbn [generic_loop].
  - exact Hres.
  - destruct (is_blank_row r).
    + destruct (5 <=? S bs)%nat; [exact Hres|]. now apply IH.
    + cbn [PENumber ProjectNumber].
      destruct (negb (Py.truthy (_norm (gv hdr_map r "PENumber")))
                && negb (Py.truthy (_norm (gv hdr_map r "ProjectNumber")))) eqn:Hk.
      * now apply IH.
      * apply IH. apply Forall_app. split; [exact Hres|].
        constructor; [|constructor].
        unfold retained. cbn [PENumber ProjectNumber CostCategory].
        rewrite !norm_trimmed.
        apply andb_false_iff in Hk as [Hk|Hk]; apply negb_false_iff in Hk;
          rewrite Hk; [reflexivity|].
        now rewrite orb_true_r.
Qed.

(** What a loop that extends the results returns, and when it raises. *)
Lemma extend_all_from {A B} (f : A -> outcome (list B)) l (r : outcome (list B)) :
  fold_left
    (fun results x => acc ← results; rows ← f x; Returns (acc ++ rows)%list)
    l r =
  acc ← r; rest ← extend_all f l; Returns (acc ++ rest)%list.
Proof.
  unfold extend_all. revert r. induction l as [|x l IH]; intros r.
  - destruct r as [acc|]; cbn; [now rewrite app_nil_r|reflexivity].
  - cbn [fold_left]. rewrite IH, (IH (_ ≫= _)).
    destruct r as [acc|]; [|reflexivity].
    cbn. destruct (f x) as [rows|]; [|reflexivity].
    cbn. destruct (fold_left _ l (Returns [])) as [rest|]; [|reflexivity].
    cbn. now rewrite app_assoc.
Qed.

Lemma extend_all_cons {A B} (f : A -> outcome (list B)) x l :
  extend_all f (x :: l) =
  rows ← f x; rest ← extend_all f l; Returns (rows ++ rest)%list.
Proof.
  unfold extend_all at 1. cbn [fold_left]. rewrite extend_all_from.
  destruct (f x) as [rows|]; reflexivity.
Qed.

Lemma extend_all_app {A B} (f : A -> outcome (list B)) l1 l2 :
  extend_all f (l1 ++ l2) =
  rows1 ← extend_all f l1; rows2 ← extend_all f l2;
  Returns (rows1 ++ rows2)%list.
Proof.
  induction l1 as [|x l1 IH].
  - cbn [app]. change (extend_all f []) with (Returns (@nil B)). cbn.
    now destruct (extend_all f l2).
  - cbn [app]. rewrite !extend_all_cons, IH.
    destruct (f x) as [rows|]; [|reflexivity]. cbn.
    destruct (extend_all f l1) as [r1|]; [|reflexivity]. cbn.
    destruct (extend_all f l2) as [r2|]; [|reflexivity]. cbn.
    now rewrite app_assoc.
Qed.

Lemma extend_all_raises {A B} (f : A -> outcome (list B)) l :
  extend_all f l = Raises <-> exists x, In x l /\ f x = Raises.
Proof.
  induction l as [|x l IH].
  - split; [discriminate|]. now intros (x & [] & _).
  - rewrite extend_all_cons. destruct (f x) as [rows|] eqn:E; cbn.
    + destruct (extend_all f l) as [rest|]; cbn.
      * split; [discriminate|]. intros (y & [<-|Hy] & Hr); [congruence|].
        pose proof (proj2 IH (ex_intro _ y (conj Hy Hr))) as H. discriminate.
      * split; [|reflexivity]. intros _.
        destruct (proj1 IH eq_refl) as (y & Hy & Hr). exists y.
        split; [now right|exact Hr].
    + split; [|reflexivity]. intros _. exists x. split; [now left|exact E].
Qed.

Lemma extend_all_in {A B} (f : A -> outcome (list B)) l rs r :
  extend_all f l = Returns rs -> In r rs ->
  exists x rows, In x l /\ f x = Returns rows /\ In r rows.
Proof.
  revert rs. induction l as [|x l IH]; intros rs.
  - intros [= <-] [].
  - rewrite extend_all_cons. destruct (f x) as [rows|] eqn:E; [|discriminate].
    cbn. destruct (extend_all f l) as [rest|]; [|discriminate]. cbn.
    intros [= <-] Hin. apply in_app_or in Hin as [Hin|Hin].
    + exists x, rows. split; [now left|]. now split.
    + destruct (IH rest eq_refl Hin) as (y & rows' & Hy & Hf & Hr).
      exists y, rows'. split; [now right|]. now split.
Qed.

Lemma extend_all_returns {A B} (f : A -> outcome (list B)) (g : A -> list B) l :
  (forall x, In x l -> f x = Returns (g x)) ->
  extend_all f l = Returns (flat_map g l).
Proof.
  induction l as [|x l IH]; intros H; [reflexivity|].
  rewrite extend_all_cons, (H x (or_introl eq_refl)), IH; [reflexivity|].
  intros y Hy. apply H. now right.
Qed.

(** The rows a worksheet adds were parsed on one of the two paths. *)
Lemma parse_sheet_rows sh rows rec :
  parse_sheet sh = Returns rows -> In rec rows ->
  exists h cells,
    _find_header_row sh 50 = Returns (Some h) /\
    sh !! (h - 1)%nat = Some cells /\
    map_is_empty (_header_map cells) = false /\
    (forallb (has_key (_header_map cells)) ["Type"; "PENumber"; "ProjectNumber"]
       = true /\ In rec (_parse_r1d_sheet sh h (_header_map cells))
     \/
     forallb (has_key (_header_map cells)) ["Type"; "PENumber"; "ProjectNumber"]
       = false /\
     In rec (generic_loop (_header_map cells) (List.skipn h sh) 0 [])).
Proof.
  unfold parse_sheet.
  destruct (_find_header_row sh 50) as [[h|]|] eqn:Hf; cbn [mbind outcome_bind];
    [| |discriminate]; intros [= <-]; [|intros []].
  destruct (sh !! (h - 1)%nat) as [cells|] eqn:Hc; [|intros []].
  cbv zeta. destruct (map_is_empty _) eqn:Hm; [intros []|].
  match goal with
  | |- In _ (if ?b then _ else _) -> _ =>
      assert (Hk : forallb (has_key (_header_map cells))
                     ["Type"; "PENumber"; "ProjectNumber"] = b) by reflexivity;
      destruct b
  end; intros Hin; exists h, cells; repeat (split; [assumption||reflexivity|]);
    [left|right]; now split.
Qed.

Lemma spreadsheet_records_retained wb rows rec :
  _parse_xlsx_file wb = Returns rows -> In rec rows -> retained rec = true.
Proof.
  destruct wb as [worksheets|]; [|now intros [= <-] []].
  cbn [_parse_xlsx_file]. intros Hret Hin.
  destruct (extend_all_in _ _ _ _ Hret Hin) as (sh & rs & _ & Hsh & Hrec).
  destruct (parse_sheet_rows _ _ _ Hsh Hrec)
    as (h & cells & _ & _ & _ & [[_ Hr]|[_ Hg]]).
  - eapply r1d_records_retained, Hr.
  - pose proof (generic_loop_retained (_header_map cells) (List.skipn h sh) 0 []
                  (List.Forall_nil _)) as HF.
    rewrite List.Forall_forall in HF. now apply HF.
Qed.

(** C6. The XML path keeps a record whose three identifying fields are all
    empty once trimmed: the number of the program element is tested before
    it is trimmed, so a blank number passes the test. *)
Theorem xml_blank_pe_number_is_kept :
  parse_r3_projects Scenario.blank_pe_fs ["r3_export.xml"] =
    Returns
    [{| PENumber := ""; PEName := ""; ProjectNumber := ""; ProjectName := "";
        CostCategory := ""; FY2023_Cost := None; FY2024_Cost := None;
        FY2025_Base_Cost := None; R1D_Description := None |}]
  /\ Forall (fun r => retained r = false)
       (_parse_xml_file (Some Scenario.blank_pe_xml))
  /\ _parse_xml_file (Some Scenario.blank_pe_xml) <> [].
Proof.
  split; [vm_compute; reflexivity|]. split.
  - vm_compute. repeat constructor.
  - vm_compute. discriminate.
Qed.

(** *** The matcher *)

Section Engine.
Import Re ReAux.

Lemma match_here_lit a pat pos prev s :
  match_here (lit a ++ pat)%list pos prev s =
  match strip_prefix_ci a s prev with
  | Some (_, last, rest) => match_here pat (pos + String.length a) last rest
  | None => None
  end.
Proof.
  revert pos prev s. induction a as [|c a IH]; intros pos prev s.
  - cbn. now rewrite Nat.add_0_r.
  - cbn [lit app match_here strip_prefix_ci String.length].
    destruct s as [|x s]; [reflexivity|].
    destruct (ci_eq c x); [|reflexivity].
    rewrite IH, Nat.add_succ_r.
    now destruct (strip_prefix_ci a s (Some x)) as [[[m last] rest]|].
Qed.

Lemma match_here_star_cons p pat pos prev x s :
  match_here (AStar p :: pat) pos prev (String x s) =
  if in_class p x then
    match match_here (AStar p :: pat) (S pos) (Some x) s with
    | Some r => Some r
    | None => match_here pat pos prev (String x s)
    end
  else match_here pat pos prev (String x s).
Proof. reflexivity. Qed.

Lemma match_here_star_nil p pat pos prev :
  match_here (AStar p :: pat) pos prev "" = match_here pat pos prev "".
Proof. reflexivity. Qed.

Lemma skip_st_fails p pat pos prev s :
  absorbing p pat ->
  match_at pat (skip_st p pos prev s) = None ->
  match_here pat pos prev s = None.
Proof.
  intros Habs. revert pos prev.
  induction s as [|x s IH]; intros pos prev; cbn [skip_st]; [auto|].
  destruct (in_class p x) eqn:Hx; [|auto].
  intros Hnone. apply Habs; auto.
Qed.

(** In front of an absorbing pattern a greedy run is deterministic. *)
Lemma match_here_star p pat pos prev s :
  absorbing p pat ->
  match_here (AStar p :: pat) pos prev s = match_at pat (skip_st p pos prev s).
Proof.
  intros Habs. revert pos prev.
  induction s as [|x s IH]; intros pos prev.
  - reflexivity.
  - rewrite match_here_star_cons. cbn [skip_st].
    destruct (in_class p x) eqn:Hx; [|reflexivity].
    rewrite IH.
    destruct (match_at pat (skip_st p (S pos) (Some x) s)) eqn:E; [reflexivity|].
    apply Habs; [exact Hx|]. now apply (skip_st_fails p).
Qed.

Lemma skip_st_text p pos prev s : (skip_st p pos prev s).2 = skip_class p s.
Proof.
  revert pos prev. induction s as [|x s IH]; intros pos prev; cbn; [reflexivity|].
  destruct (in_class p x); [apply IH|reflexivity].
Qed.

Lemma in_class_space x : in_class Py.is_space x = Py.is_space x.
Proof. destruct x as [[] [] [] [] [] [] [] []]; reflexivity. Qed.

Lemma skip_class_space s : skip_class Py.is_space s = Py.lstrip s.
Proof.
  induction s as [|x s IH]; [reflexivity|].
  cbn. rewrite in_class_space. now destruct (Py.is_space x).
Qed.

Lemma match_here_opt_none p pat pos prev s :
  match_here (AOpt p :: pat) pos prev s = None -> match_here pat pos prev s = None.
Proof.
  cbn [match_here]. destruct s as [|x s]; [auto|].
  destruct (in_class p x); [|auto].
  now destruct (match_here pat (S pos) (Some x) s).
Qed.

Lemma space_not_letter (c x : ascii) :
  Py.is_space x = true -> Py.is_space c = false -> Py.is_upper c = true ->
  ci_eq c x = false.
Proof.
  destruct x as [[] [] [] [] [] [] [] []]; try discriminate; intros _;
    destruct c as [[] [] [] [] [] [] [] []]; try discriminate; reflexivity.
Qed.

Lemma sep_cases x : in_class is_sep x = true -> x = ":"%char \/ x = "-"%char.
Proof.
  destruct x as [[] [] [] [] [] [] [] []]; try discriminate; auto.
Qed.

(** The answer group fails on a text that starts with a blank or with a
    separator. *)
Lemma pat_answer_head pos prev x s :
  in_class Py.is_space x = true \/ in_class is_sep x = true ->
  match_here pat_answer pos prev (String x s) = None.
Proof.
  intros H.
  assert (Hy : ci_eq "Y" x = false /\ ci_eq "N" x = false).
  { destruct H as [H|H].
    - rewrite in_class_space in H. split; now apply space_not_letter.
    - destruct (sep_cases _ H) as [-> | ->]; split; reflexivity. }
  destruct Hy as [Hy Hn]. cbn. now rewrite Hy, Hn.
Qed.

Lemma pat_answer_absorbing : absorbing Py.is_space pat_answer.
Proof. intros pos prev x s Hx _. apply pat_answer_head. now left. Qed.

Lemma is_sep_in_class x : in_class is_sep x = is_sep x.
Proof. destruct x as [[] [] [] [] [] [] [] []]; reflexivity. Qed.

Lemma space_not_sep x : Py.is_space x = true -> is_sep x = false.
Proof. destruct x as [[] [] [] [] [] [] [] []]; try discriminate; reflexivity. Qed.

Lemma sep_not_space x : is_sep x = true -> Py.is_space x = false.
Proof. destruct x as [[] [] [] [] [] [] [] []]; try discriminate; reflexivity. Qed.

(** The optional separator in front of the answer is deterministic too. *)
Lemma pat_sep_answer_eval pos prev s :
  exists n l,
    match_here pat_sep_answer pos prev s =
    match_here pat_blank_answer n l (NewStartSpec.skip_sep s).
Proof.
  destruct s as [|x s]; [exists pos, prev; reflexivity|].
  unfold pat_sep_answer. cbn [match_here NewStartSpec.skip_sep].
  rewrite is_sep_in_class. destruct (is_sep x) eqn:Hx.
  - exists (S pos), (Some x).
    assert (Hf : match_here pat_blank_answer pos prev (String x s) = None).
    { unfold pat_blank_answer.
      rewrite (match_here_star _ _ _ _ _ pat_answer_absorbing).
      cbn [skip_st]. rewrite in_class_space, (sep_not_space _ Hx).
      apply pat_answer_head. right. now rewrite is_sep_in_class. }
    rewrite Hf. now destruct (match_here pat_blank_answer (S pos) (Some x) s).
  - exists pos, prev. reflexivity.
Qed.

Lemma pat_sep_answer_absorbing : absorbing Py.is_space pat_sep_answer.
Proof.
  intros pos prev x s Hx Hnone. rewrite in_class_space in Hx.
  apply match_here_opt_none in Hnone.
  unfold pat_sep_answer. cbn [match_here].
  rewrite is_sep_in_class, (space_not_sep _ Hx).
  unfold pat_blank_answer in *.
  rewrite (match_here_star _ _ _ _ _ pat_answer_absorbing) in Hnone.
  rewrite (match_here_star _ _ _ _ _ pat_answer_absorbing).
  cbn [skip_st]. now rewrite in_class_space, Hx.
Qed.

Lemma pat_start_answer_absorbing : absorbing Py.is_space pat_start_answer.
Proof.
  intros pos prev x s Hx _. rewrite in_class_space in Hx.
  cbn. now rewrite (space_not_letter "S" x Hx).
Qed.

Lemma strip_prefix_ci_prev a s prev :
  match strip_prefix_ci a s prev, strip_prefix_ci a s None with
  | Some (m, _, r), Some (m', _, r') => m = m' /\ r = r'
  | None, None => True
  | _, _ => False
  end.
Proof.
  destruct a as [|c a]; [now cbn|].
  cbn [strip_prefix_ci]. destruct s as [|x s]; [exact I|].
  destruct (ci_eq c x); [|exact I].
  now destruct (strip_prefix_ci a s (Some x)) as [[[m l] r]|].
Qed.

Lemma match_here_lit_after a pat pos prev s :
  match NewStartSpec.after_ci a s with
  | Some rest =>
      exists n l, match_here (lit a ++ pat)%list pos prev s = match_here pat n l rest
  | None => match_here (lit a ++ pat)%list pos prev s = None
  end.
Proof.
  rewrite match_here_lit. unfold NewStartSpec.after_ci.
  pose proof (strip_prefix_ci_prev a s prev) as H.
  destruct (strip_prefix_ci a s prev) as [[[m l] r]|],
           (strip_prefix_ci a s None) as [[[m' l'] r']|]; try contradiction.
  - destruct H as [_ <-]. eauto.
  - reflexivity.
Qed.

Lemma match_here_star_lstrip pat pos prev s :
  absorbing Py.is_space pat ->
  exists n l,
    match_here (AStar Py.is_space :: pat) pos prev s = match_here pat n l (Py.lstrip s).
Proof.
  intros Habs. rewrite (match_here_star _ _ _ _ _ Habs).
  rewrite <- skip_class_space, <- (skip_st_text _ pos prev).
  unfold match_at. destruct (skip_st Py.is_space pos prev s) as [[n l] r].
  now exists n, l.
Qed.

(** The label part of the new-start pattern is deterministic: what is left
    for the answer group is [label_rest]. *)
Lemma match_here_label pos prev s :
  match NewStartSpec.label_rest s with
  | Some r =>
      exists n l, match_here pat_new_start pos prev s = match_here pat_answer n l r
  | None => match_here pat_new_start pos prev s = None
  end.
Proof.
  change pat_new_start
    with (lit "New" ++ AStar Py.is_space :: pat_start_answer)%list.
  unfold NewStartSpec.label_rest.
  pose proof (match_here_lit_after "New" (AStar Py.is_space :: pat_start_answer)
                pos prev s) as H1.
  destruct (NewStartSpec.after_ci "New" s) as [r1|]; [|exact H1].
  destruct H1 as (n1 & l1 & ->).
  destruct (match_here_star_lstrip _ n1 l1 r1 pat_start_answer_absorbing)
    as (n2 & l2 & ->).
  unfold pat_start_answer.
  pose proof (match_here_lit_after "Start" (AStar Py.is_space :: pat_sep_answer)
                n2 l2 (Py.lstrip r1)) as H2.
  destruct (NewStartSpec.after_ci "Start" (Py.lstrip r1)) as [r2|]; [|exact H2].
  destruct H2 as (n3 & l3 & ->).
  destruct (match_here_star_lstrip _ n3 l3 r2 pat_sep_answer_absorbing)
    as (n4 & l4 & ->).
  destruct (pat_sep_answer_eval n4 l4 (Py.lstrip r2)) as (n5 & l5 & ->).
  unfold pat_blank_answer.
  apply match_here_star_lstrip, pat_answer_absorbing.
Qed.

End Engine.
(** *** The new-start label *)

Section NewStart.
Import Re ReAux NewStartSpec.

Lemma ci_eq_s_word x : ci_eq "s" x = true -> Py.is_word x = true.
Proof. destruct x as [[] [] [] [] [] [] [] []]; try discriminate; reflexivity. Qed.

Lemma ci_eq_o_word x : ci_eq "o" x = true -> Py.is_word x = true.
Proof. destruct x as [[] [] [] [] [] [] [] []]; try discriminate; reflexivity. Qed.

Lemma ci_eq_y_not_n x : ci_eq "Y" x = true -> ci_eq "N" x = false.
Proof. destruct x as [[] [] [] [] [] [] [] []]; try discriminate; reflexivity. Qed.

(** The last character consumed by a literal that ends in a letter. *)
Lemma strip_yes_last s prev m last rest :
  strip_prefix_ci "Yes" s prev = Some (m, last, rest) -> is_word_opt last = true.
Proof.
  destruct s as [|x1 [|x2 [|x3 s]]]; cbn;
    repeat match goal with
           | |- context [ci_eq ?c ?x] => destruct (ci_eq c x) eqn:?
           end; try discriminate.
  intros [= <- <- <-]. cbn. now apply ci_eq_s_word.
Qed.

Lemma strip_no_last s prev m last rest :
  strip_prefix_ci "No" s prev = Some (m, last, rest) -> is_word_opt last = true.
Proof.
  destruct s as [|x1 [|x2 s]]; cbn;
    repeat match goal with
           | |- context [ci_eq ?c ?x] => destruct (ci_eq c x) eqn:?
           end; try discriminate.
  intros [= <- <- <-]. cbn. now apply ci_eq_o_word.
Qed.

Lemma match_word_b pos prev s :
  match_here [AWordB] pos prev s =
  if xorb (is_word_opt prev) (is_word_opt (next_char s))
  then Some (pos, None) else None.
Proof. reflexivity. Qed.

Lemma match_here_answer_unfold pos prev s :
  match_here pat_answer pos prev s =
  match
    match strip_prefix_ci "Yes" s prev with
    | Some (m, last, rest) =>
        match match_here [AWordB] (pos + String.length m) last rest with
        | Some (e, _) => Some (e, Some m)
        | None => None
        end
    | None => None
    end
  with
  | Some r => Some r
  | None =>
      match strip_prefix_ci "No" s prev with
      | Some (m, last, rest) =>
          match match_here [AWordB] (pos + String.length m) last rest with
          | Some (e, _) => Some (e, Some m)
          | None => None
          end
      | None => None
      end
  end.
Proof.
  unfold pat_answer. cbn [match_here].
  destruct (strip_prefix_ci "Yes" s prev) as [[[m l] r]|];
    destruct (strip_prefix_ci "No" s prev) as [[[m' l'] r']|]; try reflexivity;
    repeat match goal with
           | |- context [if ?b then _ else _] => destruct b
           end; reflexivity.
Qed.

Lemma answer_word_eval a s pos prev :
  (forall m last rest,
     strip_prefix_ci a s prev = Some (m, last, rest) -> is_word_opt last = true) ->
  option_map snd
    match strip_prefix_ci a s prev with
    | Some (m, last, rest) =>
        match match_here [AWordB] (pos + String.length m) last rest with
        | Some (e, _) => Some (e, Some m)
        | None => None
        end
    | None => None
    end = option_map Some (answer_word a s).
Proof.
  intros Hlast. unfold answer_word.
  pose proof (strip_prefix_ci_prev a s prev) as H.
  destruct (strip_prefix_ci a s prev) as [[[m l] r]|] eqn:E,
           (strip_prefix_ci a s None) as [[[m' l'] r']|]; try contradiction;
    [|reflexivity].
  destruct H as [<- <-]. rewrite match_word_b, (Hlast _ _ _ eq_refl).
  cbn [xorb]. now destruct (is_word_opt (next_char r)).
Qed.

(** The answer group with its word boundary yields the answer word. *)
Lemma match_here_answer pos prev s :
  option_map snd (match_here pat_answer pos prev s) = option_map Some (answer s).
Proof.
  rewrite match_here_answer_unfold. unfold answer.
  pose proof (answer_word_eval "Yes" s pos prev (strip_yes_last s prev)) as Hy.
  pose proof (answer_word_eval "No" s pos prev (strip_no_last s prev)) as Hn.
  destruct (answer_word "Yes" s) as [g|].
  - destruct (match strip_prefix_ci "Yes" s prev with Some _ => _ | None => _ end)
      as [[e g']|]; [exact Hy|discriminate].
  - destruct (match strip_prefix_ci "Yes" s prev with Some _ => _ | None => _ end)
      as [[e g']|]; [discriminate|exact Hn].
Qed.

(** At one position the pattern matches exactly when the text reads as a
    label, and the group is the answer word. *)
Lemma match_here_new_start pos prev s :
  option_map snd (match_here pat_new_start pos prev s) =
  option_map Some (label_text s).
Proof.
  unfold label_text. pose proof (match_here_label pos prev s) as H.
  destruct (label_rest s) as [r|].
  - destruct H as (n & l & ->). apply match_here_answer.
  - now rewrite H.
Qed.

Lemma search_from_new_start pos prev s :
  option_map m_group (search_from pat_new_start pos prev s) =
  option_map Some (first_label_text s).
Proof.
  revert pos prev. induction s as [|x s IH]; intros pos prev;
    cbn [search_from first_label_text];
    pose proof (match_here_new_start pos prev) as H.
  - specialize (H ""). destruct (label_text "") as [g|];
      destruct (match_here pat_new_start pos prev "") as [[e g']|];
      try discriminate; [|reflexivity].
    cbn in H. injection H as ->. reflexivity.
  - specialize (H (String x s)). destruct (label_text (String x s)) as [g|];
      destruct (match_here pat_new_start pos prev (String x s)) as [[e g']|];
      try discriminate; [|apply IH].
    cbn in H. injection H as ->. reflexivity.
Qed.

Lemma detect_new_start_flag_first text :
  _detect_new_start_flag text = is_yes <$> first_label_text text.
Proof.
  unfold _detect_new_start_flag, search.
  pose proof (search_from_new_start 0 None text) as H.
  destruct (search_from pat_new_start 0 None text) as [m|];
    destruct (first_label_text text) as [g|]; try discriminate; [|reflexivity].
  cbn in H. injection H as ->. reflexivity.
Qed.

End NewStart.

Section NewStartLabel.
Import Re ReAux NewStartSpec.

Lemma append_cons x (m r : string) : String x m +:+ r = String x (m +:+ r).
Proof. reflexivity. Qed.

Lemma append_nil (r : string) : "" +:+ r = r.
Proof. reflexivity. Qed.

Lemma ci_eq_true c x : ci_eq c x = true -> Py.lower_char x = Py.lower_char c.
Proof. unfold ci_eq. intros H. apply Ascii.eqb_eq in H. congruence. Qed.

Lemma strip_prefix_ci_spec a s prev m last rest :
  strip_prefix_ci a s prev = Some (m, last, rest) ->
  s = m +:+ rest /\ Py.lower m = Py.lower a.
Proof.
  revert s prev m last rest. induction a as [|c a IH]; intros s prev m last rest.
  - cbn. intros [= <- _ <-]. split; reflexivity.
  - cbn [strip_prefix_ci]. destruct s as [|x s]; [discriminate|].
    destruct (ci_eq c x) eqn:Hc; [|discriminate].
    destruct (strip_prefix_ci a s (Some x)) as [[[m' l'] r']|] eqn:E; [|discriminate].
    intros [= <- _ <-]. destruct (IH _ _ _ _ _ E) as [-> Hm].
    split; [reflexivity|]. cbn [Py.lower]. now rewrite Hm, (ci_eq_true _ _ Hc).
Qed.

Lemma strip_prefix_ci_app a m rest prev :
  Py.lower m = Py.lower a ->
  exists last, strip_prefix_ci a (m +:+ rest) prev = Some (m, last, rest).
Proof.
  revert m prev. induction a as [|c a IH]; intros m prev Hm.
  - destruct m; [|discriminate]. exists prev. reflexivity.
  - destruct m as [|x m]; [discriminate|]. cbn [Py.lower] in Hm.
    injection Hm as Hx Hm. rewrite append_cons. cbn [strip_prefix_ci].
    unfold ci_eq. rewrite Hx, Ascii.eqb_refl.
    destruct (IH m (Some x) Hm) as [last ->]. now exists last.
Qed.

Lemma lstrip_split s :
  exists w, all_space w = true /\ s = w +:+ Py.lstrip s.
Proof.
  induction s as [|x s (w & Hw & IH)]; [now exists ""|].
  cbn [Py.lstrip]. destruct (Py.is_space x) eqn:Hx.
  - exists (String x w). cbn [all_space]. rewrite Hx, Hw, append_cons.
    split; [reflexivity|]. now f_equal.
  - now exists "".
Qed.

Lemma lstrip_app_space w s :
  all_space w = true -> Py.lstrip (w +:+ s) = Py.lstrip s.
Proof.
  induction w as [|x w IH]; [reflexivity|].
  cbn [all_space]. intros H. apply andb_true_iff in H as [Hx Hw].
  rewrite append_cons. cbn [Py.lstrip]. rewrite Hx. now apply IH.
Qed.

Lemma lower_char_nonblank x :
  Py.is_lower (Py.lower_char x) = true ->
  Py.is_space x = false /\ is_sep x = false.
Proof.
  destruct x as [[] [] [] [] [] [] [] []]; try discriminate; now split.
Qed.

(** A word that reads as a lower-case word starting with a letter starts
    with neither a blank nor a separator. *)
Lemma lower_word_head (word : string) c t :
  Py.lower word = String c t -> Py.is_lower c = true ->
  exists x word',
    word = String x word' /\ Py.is_space x = false /\ is_sep x = false /\
    Py.lower_char x = c.
Proof.
  destruct word as [|x word']; [discriminate|].
  cbn [Py.lower]. intros [= Hx _] Hc. exists x, word'.
  rewrite <- Hx in Hc. destruct (lower_char_nonblank x Hc). auto.
Qed.

Lemma skip_sep_split s :
  exists sep, (sep = "" \/ sep = ":" \/ sep = "-") /\ s = sep +:+ skip_sep s.
Proof.
  destruct s as [|x s]; [exists ""; auto|].
  cbn [skip_sep]. destruct (is_sep x) eqn:Hx.
  - rewrite <- is_sep_in_class in Hx.
    destruct (sep_cases x Hx) as [-> | ->];
      [exists ":" | exists "-"]; auto.
  - exists "". auto.
Qed.

Lemma answer_word_sound a s g :
  answer_word a s = Some g ->
  exists rest,
    s = g +:+ rest /\ Py.lower g = Py.lower a /\
    is_word_opt (next_char rest) = false.
Proof.
  unfold answer_word.
  destruct (strip_prefix_ci a s None) as [[[m l] r]|] eqn:E; [|discriminate].
  destruct (is_word_opt (next_char r)) eqn:Hb; [discriminate|].
  intros [= <-]. exists r. destruct (strip_prefix_ci_spec _ _ _ _ _ _ E). auto.
Qed.

Lemma answer_word_complete a ans rest :
  Py.lower ans = Py.lower a -> is_word_opt (next_char rest) = false ->
  answer_word a (ans +:+ rest) = Some ans.
Proof.
  intros Ha Hb. unfold answer_word.
  destruct (strip_prefix_ci_app a ans rest None Ha) as [last ->].
  now rewrite Hb.
Qed.

(** A text that reads as a label is a label of the specification, with the
    answer its answer word gives. *)
Lemma label_text_sound s g :
  label_text s = Some g -> new_start_label s (is_yes g).
Proof.
  unfold label_text, label_rest, after_ci.
  destruct (strip_prefix_ci "New" s None) as [[[n l1] r1]|] eqn:E1; [|discriminate].
  destruct (strip_prefix_ci "Start" (Py.lstrip r1) None) as [[[st l2] r2]|] eqn:E2;
    [|discriminate].
  intros Hans.
  destruct (strip_prefix_ci_spec _ _ _ _ _ _ E1) as [-> Hn].
  destruct (strip_prefix_ci_spec _ _ _ _ _ _ E2) as [H2 Hst].
  destruct (lstrip_split r1) as (w1 & Hw1 & H1). rewrite H2 in H1. clear H2.
  destruct (lstrip_split r2) as (w2 & Hw2 & H3).
  destruct (skip_sep_split (Py.lstrip r2)) as (sep & Hsep & H4).
  destruct (lstrip_split (skip_sep (Py.lstrip r2))) as (w3 & Hw3 & H5).
  remember (Py.lstrip (skip_sep (Py.lstrip r2))) as r eqn:Hr. clear Hr.
  remember (skip_sep (Py.lstrip r2)) as r4 eqn:Hr4. clear Hr4.
  remember (Py.lstrip r2) as r3 eqn:Hr3. clear Hr3.
  assert (Hg : exists rest,
             r = g +:+ rest /\
             Py.lower g = (if is_yes g then "yes" else "no") /\
             is_word_opt (next_char rest) = false).
  { unfold answer in Hans.
    destruct (answer_word "Yes" r) as [g'|] eqn:Ey.
    - injection Hans as ->.
      destruct (answer_word_sound _ _ _ Ey) as (rest & ? & Hl & ?).
      exists rest. unfold is_yes. rewrite Hl. auto.
    - destruct (answer_word_sound _ _ _ Hans) as (rest & ? & Hl & ?).
      exists rest. unfold is_yes. rewrite Hl. auto. }
  destruct Hg as (rest & -> & Hl & Hb).
  subst r4 r3 r2 r1. now constructor.
Qed.

Lemma label_text_complete s b :
  new_start_label s b -> exists g, label_text s = Some g /\ is_yes g = b.
Proof.
  intros [n w1 st w2 sep w3 ans rest b' Hn Hw1 Hst Hw2 Hsep Hw3 Hans Hb].
  exists ans.
  assert (Hhead : exists x ans', ans = String x ans' /\ Py.is_space x = false /\
                                 is_sep x = false /\
                                 Py.lower_char x = (if b' then "y" else "n")%char).
  { destruct b'; eapply lower_word_head; eauto. }
  destruct Hhead as (x & ans' & Hx & Hxs & Hxp & Hxl).
  assert (Hanswer : answer (ans +:+ rest) = Some ans).
  { unfold answer. destruct b'.
    - now rewrite (answer_word_complete "Yes" ans rest).
    - assert (Hy : answer_word "Yes" (ans +:+ rest) = None).
      { rewrite Hx, append_cons. unfold answer_word. cbn [strip_prefix_ci].
        unfold ci_eq. now rewrite Hxl. }
      rewrite Hy. now apply answer_word_complete. }
  assert (Hrest : Py.lstrip (skip_sep (Py.lstrip
                    (w2 +:+ sep +:+ w3 +:+ ans +:+ rest))) = ans +:+ rest).
  { rewrite (lstrip_app_space _ _ Hw2).
    assert (Hw3' : Py.lstrip (w3 +:+ ans +:+ rest) = ans +:+ rest).
    { rewrite (lstrip_app_space _ _ Hw3), Hx, append_cons.
      now apply lstrip_nonspace. }
    destruct Hsep as [-> | [-> | ->]].
    - rewrite append_nil, Hw3'.
      rewrite Hx, append_cons. cbn [skip_sep]. rewrite Hxp.
      now apply lstrip_nonspace.
    - rewrite append_cons, append_nil. cbn [Py.lstrip skip_sep].
      change (Py.is_space ":") with false. change (is_sep ":") with true.
      cbv iota. exact Hw3'.
    - rewrite append_cons, append_nil. cbn [Py.lstrip skip_sep].
      change (Py.is_space "-") with false. change (is_sep "-") with true.
      cbv iota. exact Hw3'. }
  split.
  - unfold label_text, label_rest, after_ci.
    destruct (strip_prefix_ci_app "New" n
                (w1 +:+ st +:+ w2 +:+ sep +:+ w3 +:+ ans +:+ rest) None Hn)
      as [l1 ->].
    rewrite (lstrip_app_space _ _ Hw1).
    destruct (lower_word_head st "s" "tart" Hst eq_refl)
      as (y & st' & Hy & Hys & _).
    assert (Hl : Py.lstrip (st +:+ w2 +:+ sep +:+ w3 +:+ ans +:+ rest)
                 = st +:+ w2 +:+ sep +:+ w3 +:+ ans +:+ rest).
    { rewrite Hy, append_cons. now apply lstrip_nonspace. }
    rewrite Hl.
    destruct (strip_prefix_ci_app "Start" st
                (w2 +:+ sep +:+ w3 +:+ ans +:+ rest) None Hst) as [l2 ->].
    now rewrite Hrest.
  - unfold is_yes. rewrite Hans. now destruct b'.
Qed.

End NewStartLabel.

Section NewStartFlag.
Import Re ReAux NewStartSpec.

Lemma append_empty (p s : string) : p +:+ s = "" -> p = "" /\ s = "".
Proof. destruct p; [auto|discriminate]. Qed.

Lemma append_eq_length (p1 p2 s1 s2 : string) :
  p1 +:+ s1 = p2 +:+ s2 -> String.length p1 = String.length p2 -> s1 = s2.
Proof.
  revert p2. induction p1 as [|x p1 IH]; intros [|y p2]; try discriminate.
  - auto.
  - rewrite !append_cons. intros [= _ H] [= Hl]. eauto.
Qed.

Lemma label_text_none s b : label_text s = None -> ~ new_start_label s b.
Proof.
  intros Hn Hl. destruct (label_text_complete _ _ Hl) as (g & Hg & _). congruence.
Qed.

Lemma first_label_text_some s g :
  first_label_text s = Some g -> first_label s (is_yes g).
Proof.
  induction s as [|x s IH]; cbn [first_label_text].
  - destruct (label_text "") as [g'|] eqn:E; [|discriminate].
    intros [= ->]. exists "", "". split; [reflexivity|].
    split; [now apply label_text_sound|]. cbn. lia.
  - destruct (label_text (String x s)) as [g'|] eqn:E.
    + intros [= ->]. exists "", (String x s). split; [reflexivity|].
      split; [now apply label_text_sound|]. cbn. lia.
    + intros H. destruct (IH H) as (pre & suf & -> & Hl & Hmin).
      exists (String x pre), suf. split; [reflexivity|]. split; [exact Hl|].
      intros [|y p2] s2 b2.
      * rewrite append_nil. intros <- _. now apply label_text_none.
      * rewrite !append_cons. intros [= _ H2] Hlen. cbn in Hlen.
        apply (Hmin p2 s2 b2 H2). lia.
Qed.

Lemma first_label_text_none s : first_label_text s = None -> no_label s.
Proof.
  induction s as [|x s IH]; cbn [first_label_text].
  - destruct (label_text "") eqn:E; [discriminate|].
    intros _ pre suf b Heq. symmetry in Heq.
    apply append_empty in Heq as [-> ->]. now apply label_text_none.
  - destruct (label_text (String x s)) eqn:E; [discriminate|].
    intros H [|y p] suf b.
    + rewrite append_nil. intros <-. now apply label_text_none.
    + rewrite append_cons. intros [= _ Heq]. now apply (IH H p suf b).
Qed.

Lemma first_label_text_complete s b :
  first_label s b -> exists g, first_label_text s = Some g /\ is_yes g = b.
Proof.
  intros (pre & suf & Heq & Hl & Hmin).
  destruct (first_label_text s) as [g|] eqn:E.
  - exists g. split; [reflexivity|].
    destruct (first_label_text_some _ _ E) as (pre2 & suf2 & Heq2 & Hl2 & Hmin2).
    destruct (Nat.lt_trichotomy (String.length pre) (String.length pre2))
      as [Hlt|[Hlen|Hlt]].
    + exfalso. exact (Hmin2 pre suf b Heq Hlt Hl).
    + assert (suf = suf2) as <-.
      { eapply append_eq_length; [|exact Hlen]. congruence. }
      destruct (label_text_complete _ _ Hl) as (g1 & Hg1 & <-).
      destruct (label_text_complete _ _ Hl2) as (g2 & Hg2 & Hy).
      congruence.
    + exfalso. exact (Hmin pre2 suf2 _ Heq2 Hlt Hl2).
  - exfalso. exact (first_label_text_none _ E pre suf b Heq Hl).
Qed.

Lemma decode_new_start_encoded (o : option bool) :
  decode_new_start (str_of_bool <$> o) = o.
Proof. now destruct o as [[]|]. Qed.

(** C7. The flag read from a narrative text is the answer of the first
    "New Start" label of the text, true for "Yes" and false for "No", and
    null exactly when the text has no such label. The flag survives its
    encoding as a string in the bundle: the record fused from a row whose
    bundle was extracted from the pages carries the flag read from their
    text, true as true, false as false and null as null. *)
Theorem new_start_flag_round_trip (text : string) (collected_text : list string) :
  (forall b, _detect_new_start_flag text = Some b <-> first_label text b) /\
  (_detect_new_start_flag text = None <-> no_label text) /\
  (forall o : option bool, decode_new_start (str_of_bool <$> o) = o) /\
  (forall (source : string) (rows : list CostLineRecord)
          (lookup : gmap string bundle) (flag : bool) (i : nat)
          (row : CostLineRecord) (rec : EnrichedRecord),
     rows !! i = Some row ->
     fuse_r3_with_r2 source rows lookup flag !! i = Some rec ->
     lookup !! Py.strip (PENumber row) =
       Some (extract_r2_sections_for_pe collected_text) ->
     IsNewStart rec =
       _detect_new_start_flag (Py.join newline collected_text)).
Proof.
  split; [|split; [|split]].
  - intros b. rewrite detect_new_start_flag_first. split.
    + destruct (first_label_text text) as [g|] eqn:E; [|discriminate].
      intros [= <-]. now apply first_label_text_some.
    + intros H. destruct (first_label_text_complete _ _ H) as (g & -> & <-).
      reflexivity.
  - rewrite detect_new_start_flag_first. split.
    + destruct (first_label_text text) as [g|] eqn:E; [discriminate|].
      intros _. now apply first_label_text_none.
    + intros Hno. destruct (first_label_text text) as [g|] eqn:E; [|reflexivity].
      destruct (first_label_text_some _ _ E) as (pre & suf & Heq & Hl & _).
      exfalso. exact (Hno pre suf _ Heq Hl).
  - apply decode_new_start_encoded.
  - intros source rows lookup flag i row rec Hrow Hrec Hb.
    rewrite fuse_r3_with_r2_map, lookup_map, Hrow in Hrec.
    injection Hrec as <-. unfold fuse_row. cbn [IsNewStart].
    rewrite Hb. cbn [default is_new_start extract_r2_sections_for_pe].
    apply decode_new_start_encoded.
Qed.

Lemma new_start_flag_round_trip_witness :
  _detect_new_start_flag "New Start: Yes" = Some true /\
  IsNewStart (fuse_row "vol1.pdf" Scenario.new_start_lookup false Scenario.row_a) =
    _detect_new_start_flag (Py.join newline Scenario.new_start_pages).
Proof.
  destruct (new_start_flag_round_trip "New Start: Yes" Scenario.new_start_pages)
    as (Hyes & _ & _ & Hfuse).
  split.
  - apply Hyes. exists "", "New Start: Yes". split; [reflexivity|]. split.
    + exact (NewStartLabel "New" " " "Start" "" ":" " " "Yes" "" true
               eq_refl eq_refl eq_refl eq_refl (or_intror (or_introl eq_refl))
               eq_refl eq_refl eq_refl).
    + intros pre' s' b' _ Hlen. cbn in Hlen. lia.
  - apply (Hfuse "vol1.pdf" [Scenario.row_a] Scenario.new_start_lookup false
             0%nat Scenario.row_a); [reflexivity|reflexivity|].
    vm_compute. reflexivity.
Defined.

End NewStartFlag.
(** *** Numeric cost parsing *)

Section Numerals.
Import NumeralSpec.



Lemma append_length (a b : string) :
  String.length (a +:+ b) = (String.length a + String.length b)%nat.
Proof. induction a as [|c a IH]; [reflexivity|]. cbn. now rewrite <- IH. Qed.








(** A text splits at its first point. *)
Lemma int_frac_split b :
  b = int_part b +:+
      match frac_part b with Some f => String "." f | None => "" end.
Proof.
  induction b as [|c b IH]; [reflexivity|].
  cbn [int_part frac_part]. destruct (Ascii.eqb c ".") eqn:Hc.
  - apply Ascii.eqb_eq in Hc as ->. reflexivity.
  - rewrite append_cons. now f_equal.
Qed.

Lemma string_eqb_empty s : String.eqb s "" = match s with "" => true | _ => false end.
Proof. now destruct s. Qed.




Lemma string_append_assoc (a b c : string) : (a +:+ b) +:+ c = a +:+ (b +:+ c).
Proof.
  induction a as [|x a IH]; [reflexivity|]. rewrite !append_cons. now f_equal.
Qed.





Lemma lower_app (a b : string) : Py.lower (a +:+ b) = Py.lower a +:+ Py.lower b.
Proof.
  induction a as [|x a IH]; [reflexivity|].
  rewrite append_cons. cbn [Py.lower]. now rewrite IH, append_cons.
Qed.









(** *** Exponents *)





(** A text splits at its first exponent mark. *)
Lemma exponent_split b x :
  exponent_part b = Some x ->
  exists c, is_e c = true /\ b = mantissa_part b +:+ String c x.
Proof.
  induction b as [|c b IH]; [discriminate|].
  cbn [exponent_part mantissa_part]. destruct (is_e c) eqn:He.
  - intros [= <-]. now exists c.
  - intros H. destruct (IH H) as (c' & Hc' & E). exists c'.
    split; [exact Hc'|]. now rewrite append_cons, <- E.
Qed.



Lemma exponent_body_split b :
  is_exponent_body b = true ->
  exists m c x,
    b = m +:+ String c x /\ is_decimal_body m = true /\ is_e c = true /\
    is_exponent_text x = true.
Proof.
  unfold is_exponent_body.
  destruct (exponent_part b) as [x|] eqn:E; [|discriminate].
  intros H. apply andb_true_iff in H as [Hm Hx].
  destruct (exponent_split b x E) as (c & Hc & Hb).
  now exists (mantissa_part b), c, x.
Qed.


(** *** Underscores *)





Lemma has_digit_app (a b : string) :
  has_digit (a +:+ b) = has_digit a || has_digit b.
Proof.
  induction a as [|c a IH]; [reflexivity|].
  rewrite append_cons. cbn [has_digit]. now rewrite IH, orb_assoc.
Qed.


Lemma all_digits_has_digit d :
  all_digits d = true -> d <> "" -> has_digit d = true.
Proof.
  destruct d as [|c d]; [congruence|]. cbn [all_digits has_digit].
  intros H _. apply andb_true_iff in H as [-> _]. reflexivity.
Qed.

Lemma decimal_body_has_digit b : is_decimal_body b = true -> has_digit b = true.
Proof.
  unfold is_decimal_body. intros H.
  apply andb_true_iff in H as [H Hne]. apply andb_true_iff in H as [Hi Hf].
  rewrite !string_eqb_empty in Hne.
  rewrite (int_frac_split b), has_digit_app.
  destruct (int_part b) as [|c i] eqn:Ei.
  - destruct (frac_part b) as [f|]; cbn [from_option id] in *; [|discriminate].
    cbn [has_digit orb]. change (Py.is_digit ".") with false. cbn [orb].
    apply all_digits_has_digit; [exact Hf|]. now destruct f.
  - rewrite (all_digits_has_digit _ Hi); [reflexivity|discriminate].
Qed.

Lemma numeral_body_has_digit b :
  is_decimal_body b = true \/ is_exponent_body b = true -> has_digit b = true.
Proof.
  intros [H|H]; [now apply decimal_body_has_digit|].
  destruct (exponent_body_split b H) as (m & c & x & -> & Hm & _ & _).
  now rewrite has_digit_app, (decimal_body_has_digit m Hm).
Qed.













End Numerals.

Section CostParsing.
Import NumeralSpec.

Lemma rstrip_empty t : Py.rstrip t = "" -> Py.lstrip t = "".
Proof.
  induction t as [|c t IH]; [reflexivity|].
  cbn [Py.rstrip Py.lstrip]. destruct (Py.rstrip t) as [|d r].
  - destruct (Py.is_space c); [intros _; now apply IH|discriminate].
  - discriminate.
Qed.

Lemma strip_empty_lstrip s : Py.strip s = "" -> Py.lstrip s = "".
Proof.
  unfold Py.strip. intros H. apply rstrip_empty in H.
  destruct (lstrip_cases s) as [E|(c & t & E & Hc)]; [exact E|].
  rewrite E in H. rewrite (lstrip_nonspace _ _ Hc) in H. congruence.
Qed.

Lemma space_not_comma c : Py.is_space c = true -> Ascii.eqb c "," = false.
Proof. destruct c as [[] [] [] [] [] [] [] []]; try discriminate; reflexivity. Qed.

Lemma blank_remove_commas s : Py.lstrip s = "" -> Py.remove_commas s = s.
Proof.
  induction s as [|c s IH]; [reflexivity|].
  cbn [Py.lstrip Py.remove_commas].
  destruct (Py.is_space c) eqn:Hc; [|discriminate].
  intros H. now rewrite (space_not_comma _ Hc), (IH H).
Qed.

(** A blank string is still blank once its commas are removed. *)
Lemma blank_cleaned s : Py.strip s = "" -> cleaned s = "".
Proof.
  intros H. unfold cleaned.
  now rewrite (blank_remove_commas _ (strip_empty_lstrip _ H)).
Qed.

Lemma parse_string_eq s :
  (if negb (Py.truthy (Py.strip s)) then None
   else float_of_string (Py.strip (Py.remove_commas s)))
  = float_of_string (cleaned s).
Proof.
  destruct (Py.strip s) eqn:E; cbn [Py.truthy negb]; [|reflexivity].
  now rewrite (blank_cleaned _ E).
Qed.

(** The two parsers agree on strings. *)
Lemma parse_float_safe_any_str s :
  _parse_float_safe_any (PStr s) = _parse_float_safe (Some s).
Proof. cbn [_parse_float_safe_any _parse_float_safe]. apply parse_string_eq. Qed.


(** *** Rounding to zero *)







End CostParsing.
(** *** Batches of files *)

Lemma parse_r3_projects_app fs paths1 paths2 :
  parse_r3_projects fs (paths1 ++ paths2) =
  rows1 ← parse_r3_projects fs paths1; rows2 ← parse_r3_projects fs paths2;
  Returns (rows1 ++ rows2)%list.
Proof. apply extend_all_app. Qed.

Lemma parse_r3_projects_cons fs path paths :
  parse_r3_projects fs (path :: paths) =
  rows ← parse_path fs path; rest ← parse_r3_projects fs paths;
  Returns (rows ++ rest)%list.
Proof. apply extend_all_cons. Qed.

(** The batch raises exactly when one of its paths does. *)
Lemma parse_r3_projects_raises fs paths :
  parse_r3_projects fs paths = Raises <->
  exists path, In path paths /\ parse_path fs path = Raises.
Proof. apply extend_all_raises. Qed.

(** A path that is not a file, or a file that the readers its extension
    routes it to cannot open, contributes no record and raises nothing: the
    batch around it does what it does without it. *)
Lemma unreadable_path_is_skipped fs before after bad :
  (fs !! bad = None \/ exists f, fs !! bad = Some f /\ unreadable bad f) ->
  parse_path fs bad = Returns [] /\
  parse_r3_projects fs (before ++ bad :: after) =
    parse_r3_projects fs (before ++ after).
Proof.
  intros Hbad.
  assert (Hnil : parse_path fs bad = Returns []).
  { unfold parse_path. destruct Hbad as [-> | (f & -> & Hf)]; [reflexivity|].
    unfold unreadable in Hf. cbv zeta.
    destruct (in_list (extension bad) xml_extensions); [now rewrite Hf|].
    destruct (in_list (extension bad) xlsx_extensions); [now rewrite Hf|].
    destruct Hf as [-> ->]. reflexivity. }
  split; [exact Hnil|].
  rewrite !parse_r3_projects_app, parse_r3_projects_cons, Hnil.
  destruct (parse_r3_projects fs before) as [r1|]; [|reflexivity].
  cbn. now destruct (parse_r3_projects fs after).
Qed.

(** C9. [parse_r3_projects] is fail-soft for a path that is not a file and
    for a file that cannot be opened, which contribute nothing to the batch
    of the scenario; but a workbook that opens and has, above its header, a
    row whose first cell is empty makes [_find_header_row] raise, and the
    exception leaves [parse_r3_projects]: the whole batch is lost, the
    records of the files before and after it included. *)
Theorem parse_r3_projects_raises_on_empty_first_cell :
  parse_r3_projects Scenario.abort_fs ["a.xml"; "c.xlsx"] =
    Returns [Scenario.record_a; Scenario.record_c] /\
  parse_r3_projects Scenario.abort_fs
    ["a.xml"; "missing.xml"; "broken.xlsx"; "c.xlsx"] =
    Returns [Scenario.record_a; Scenario.record_c] /\
  _find_header_row Scenario.offset_title_sheet 50 = Raises /\
  parse_r3_projects Scenario.abort_fs ["b.xlsx"] = Raises /\
  parse_r3_projects Scenario.abort_fs ["a.xml"; "b.xlsx"; "c.xlsx"] = Raises.
Proof. repeat split; vm_compute; reflexivity. Qed.

(** ** Further properties *)

(** *** Normalized text and carved sections *)

Section Carving.
Import Shape.

Lemma sub_ws_single_spaced b t : single_spaced b (Re.sub_ws b t) = true.
Proof.
  revert b. induction t as [|c t IH]; intros b; [reflexivity|].
  cbn [Re.sub_ws]. destruct (Py.is_space c) eqn:Hc.
  - destruct b; [apply IH|]. cbn [single_spaced].
    change (Py.is_space " ") with true. cbv iota. now rewrite IH.
  - cbn [single_spaced]. now rewrite Hc.
Qed.

Lemma single_spaced_head b b' c s :
  Py.is_space c = false ->
  single_spaced b (String c s) = single_spaced b' (String c s).
Proof. intros Hc. cbn. now rewrite Hc. Qed.

Lemma lstrip_single_spaced b b' s :
  single_spaced b s = true -> single_spaced b' (Py.lstrip s) = true.
Proof.
  revert b b'. induction s as [|c s IH]; intros b b' H; [reflexivity|].
  cbn [Py.lstrip]. destruct (Py.is_space c) eqn:Hc.
  - cbn [single_spaced] in H. rewrite Hc in H.
    apply andb_true_iff in H as [_ H]. now apply (IH true).
  - now rewrite (single_spaced_head b' b c s Hc).
Qed.

Lemma rstrip_single_spaced b s :
  single_spaced b s = true -> single_spaced b (Py.rstrip s) = true.
Proof.
  revert b. induction s as [|c s IH]; intros b H; [reflexivity|].
  cbn [Py.rstrip]. cbn [single_spaced] in H.
  destruct (Py.is_space c) eqn:Hc.
  - apply andb_true_iff in H as [H1 H2]. specialize (IH true H2).
    destruct (Py.rstrip s) as [|d r]; [reflexivity|].
    cbn [single_spaced]. rewrite Hc, H1. exact IH.
  - specialize (IH false H).
    destruct (Py.rstrip s) as [|d r]; cbn [single_spaced]; rewrite Hc;
      [reflexivity|exact IH].
Qed.

Lemma sub_ws_fixed b s : single_spaced b s = true -> Re.sub_ws b s = s.
Proof.
  revert b. induction s as [|c s IH]; intros b H; [reflexivity|].
  cbn [single_spaced] in H. cbn [Re.sub_ws].
  destruct (Py.is_space c) eqn:Hc.
  - apply andb_true_iff in H as [H1 H2]. apply andb_true_iff in H1 as [Hsp Hb].
    apply Ascii.eqb_eq in Hsp as ->. destruct b; [discriminate|].
    now rewrite (IH true H2).
  - now rewrite (IH false H).
Qed.

Lemma normalize_text_single_spaced t :
  single_spaced false (_normalize_text t) = true.
Proof.
  unfold _normalize_text, Py.strip.
  apply rstrip_single_spaced, (lstrip_single_spaced false), sub_ws_single_spaced.
Qed.

(** X1. Normalizing a text twice is normalizing it once; a normalized text is
    trimmed and its only blanks are single spaces between other
    characters. *)
Theorem normalize_text_idempotent (t : string) :
  _normalize_text (_normalize_text t) = _normalize_text t /\
  Py.strip (_normalize_text t) = _normalize_text t /\
  single_spaced false (_normalize_text t) = true.
Proof.
  pose proof (normalize_text_single_spaced t) as Hs.
  assert (Hstrip : Py.strip (_normalize_text t) = _normalize_text t)
    by apply strip_idem.
  split; [|split; assumption].
  unfold _normalize_text at 1. now rewrite (sub_ws_fixed _ _ Hs).
Qed.

Lemma take_all s : Py.take (String.length s) s = s.
Proof. induction s as [|c s IH]; [reflexivity|]. cbn. now rewrite IH. Qed.

(** X2. A section is null exactly when its anchor does not occur in the
    text; otherwise it is the normalized text of some prefix of what
    follows the anchor, whatever the end patterns are, so a section is
    always trimmed and single-spaced. *)
Theorem extract_section_shape (text : string) (start_regex : Re.pattern)
    (end_regexes : list Re.pattern) :
  match Re.search start_regex text with
  | None => _extract_section text start_regex end_regexes = None
  | Some start =>
      exists n,
        _extract_section text start_regex end_regexes =
        Some (_normalize_text (Py.take n (Py.drop (Re.m_end start) text)))
  end /\
  forall section,
    _extract_section text start_regex end_regexes = Some section ->
    Py.strip section = section /\ single_spaced false section = true.
Proof.
  split.
  - unfold _extract_section. destruct (Re.search start_regex text) as [m|];
      [|reflexivity].
    destruct (Re.min_by_start _) as [e|].
    + now exists (Re.m_start e).
    + exists (String.length (Py.drop (Re.m_end m) text)). now rewrite take_all.
  - unfold _extract_section. intros section.
    destruct (Re.search start_regex text) as [m|]; [|discriminate].
    destruct (Re.min_by_start _) as [e|]; intros [= <-];
      (split; [apply strip_idem|apply normalize_text_single_spaced]).
Qed.

Lemma extract_section_shape_witness :
  Py.strip "Sole source. E. Other ..." = "Sole source. E. Other ..." /\
  single_spaced false "Sole source. E. Other ..." = true.
Proof.
  apply (extract_section_shape Scenario.narrative pat_acquisition [pat_generic]).
  vm_compute. reflexivity.
Defined.

Lemma min_by_start_in ms m : Re.min_by_start ms = Some m -> In m ms.
Proof.
  revert m. induction ms as [|x ms IH]; intros m; [discriminate|].
  cbn [Re.min_by_start]. destruct (Re.min_by_start ms) as [m'|].
  - destruct (_ <? _)%nat; intros [= <-]; [right; now apply IH|now left].
  - intros [= <-]. now left.
Qed.

(** X3. The acquisition section is null when its anchor is absent, empty
    when a letter, a period and a blank directly follow the anchor, and
    otherwise the whole normalized rest of the text: no later header ends
    it. *)
Theorem acquisition_section_unbounded (collected_text : list string) :
  let text := Py.join newline collected_text in
  match Re.search pat_acquisition text with
  | None => acquisition (extract_r2_sections_for_pe collected_text) = None
  | Some start =>
      acquisition (extract_r2_sections_for_pe collected_text) =
        Some (match Re.finditer pat_generic (Py.drop (Re.m_end start) text) with
              | [] => _normalize_text (Py.drop (Re.m_end start) text)
              | _ :: _ => ""
              end)
  end.
Proof.
  cbn zeta. cbn [extract_r2_sections_for_pe acquisition].
  unfold _extract_section.
  destruct (Re.search pat_acquisition _) as [m|]; [|reflexivity].
  cbn [flat_map]. rewrite app_nil_r.
  destruct (Re.min_by_start _) as [e|] eqn:E.
  - pose proof (min_by_start_in _ _ E) as Hin.
    rewrite (generic_boundary_only_at_start _ _ Hin).
    destruct (Re.finditer pat_generic _); [destruct Hin|reflexivity].
  - destruct (Re.finditer pat_generic _) as [|x l]; [reflexivity|].
    cbn [Re.min_by_start] in E.
    destruct (Re.min_by_start l); [destruct (_ <? _)%nat|]; discriminate.
Qed.

End Carving.
(** *** Header detection and field mapping *)

Section Headers.
Import Shape.

Lemma find_header_from_spec k rows :
  match find_header_from k rows with
  | Returns (Some r) =>
      (k <= r < k + List.length rows)%nat /\
      (exists row, rows !! (r - k)%nat = Some row /\ is_header row = true) /\
      forall j row,
        (j <= r - k)%nat -> rows !! j = Some row ->
        first_cell_has_no_row row = false /\
        ((j < r - k)%nat -> is_header row = false)
  | Returns None =>
      forall j row,
        rows !! j = Some row ->
        first_cell_has_no_row row = false /\ is_header row = false
  | Raises =>
      exists i row,
        rows !! i = Some row /\ first_cell_has_no_row row = true /\
        forall j r,
          (j < i)%nat -> rows !! j = Some r ->
          first_cell_has_no_row r = false /\ is_header r = false
  end.
Proof.
  revert k. induction rows as [|x rows IH]; intros k.
  - cbn [find_header_from]. intros j row Hj. now rewrite lookup_nil in Hj.
  - cbn [find_header_from]. destruct (first_cell_has_no_row x) eqn:Hx.
    + exists 0%nat, x. split; [reflexivity|]. split; [exact Hx|]. intros j r Hj. lia.
    + destruct (is_header x) eqn:Hh.
      * cbn [List.length]. split; [lia|]. rewrite Nat.sub_diag.
        split; [now exists x|]. intros [|j] row Hj; [|lia].
        cbn. intros [= <-]. split; [exact Hx|lia].
      * specialize (IH (S k)).
        destruct (find_header_from (S k) rows) as [[r|]|].
        -- destruct IH as (Hr & (row & Hrow & Hrh) & Hmin).
           cbn [List.length]. split; [lia|].
           replace (r - k)%nat with (S (r - S k)) by lia.
           split; [now exists row|].
           intros [|j] row' Hj; cbn.
           ++ intros [= <-]. now split.
           ++ intros Hl. destruct (Hmin j row' ltac:(lia) Hl) as [H1 H2].
              split; [exact H1|]. intros Hlt. apply H2. lia.
        -- intros [|j] row; cbn; [intros [= <-]; now split|apply IH].
        -- destruct IH as (i & row & Hrow & Hraise & Hmin).
           exists (S i), row. split; [exact Hrow|]. split; [exact Hraise|].
           intros [|j] r Hj; cbn; [intros [= <-]; now split|].
           apply Hmin. lia.
Qed.

Lemma lookup_firstn {A} (l : list A) n j :
  (j < n)%nat -> List.firstn n l !! j = l !! j.
Proof.
  revert l j. induction n as [|n IH]; intros l j Hj; [lia|].
  destruct l as [|x l]; [reflexivity|]. destruct j as [|j]; [reflexivity|].
  cbn. apply IH. lia.
Qed.

Lemma lookup_firstn_some {A} (l : list A) n j x :
  List.firstn n l !! j = Some x -> (j < n)%nat /\ l !! j = Some x.
Proof.
  revert l j. induction n as [|n IH]; intros l j.
  - now destruct j.
  - destruct l as [|y l]; [now destruct j|].
    destruct j as [|j]; cbn; [intros H; split; [lia|exact H]|].
    intros H. destruct (IH _ _ H). split; [lia|assumption].
Qed.

Lemma searched_rows_lookup sh max_search_rows j :
  searched_rows sh max_search_rows !! j =
  if (max_search_rows =? 0)%nat || (j <? max_search_rows)%nat
  then sh !! j else None.
Proof.
  unfold searched_rows. destruct (Nat.eqb_spec max_search_rows 0) as [E|E];
    [reflexivity|]. cbn [orb].
  destruct (Nat.ltb_spec j max_search_rows) as [H|H].
  - now apply lookup_firstn.
  - destruct (List.firstn max_search_rows sh !! j) as [x|] eqn:Hx;
      [|reflexivity].
    apply lookup_firstn_some in Hx as [Hlt _]. lia.
Qed.

Lemma searched_rows_length sh max_search_rows :
  (List.length (searched_rows sh max_search_rows) <= List.length sh)%nat /\
  (max_search_rows <> 0%nat ->
   List.length (searched_rows sh max_search_rows) <= max_search_rows)%nat.
Proof.
  unfold searched_rows. destruct (Nat.eqb_spec max_search_rows 0) as [E|E].
  - split; [lia|congruence].
  - rewrite List.length_firstn. split; intros; lia.
Qed.

(** X4. [_find_header_row] walks the rows from row 1 up to the bound (to
    the end of the sheet when the bound is 0) and stops at the first row
    that either has an empty first cell, where it raises, or reads as a
    header, whose number it returns. So a returned number lies within the
    sheet and the bound, that row reads as a header, no row above it does
    and no row down to it has an empty first cell; [None] is returned only
    when no searched row reads as a header or has an empty first cell; and
    the call raises exactly when a searched row with an empty first cell
    comes before any header. *)
Theorem find_header_row_first (sh : sheet) (max_search_rows : nat) :
  let searched j := max_search_rows = 0%nat \/ (j < max_search_rows)%nat in
  match _find_header_row sh max_search_rows with
  | Returns (Some r) =>
      (1 <= r <= List.length sh)%nat /\ searched (r - 1)%nat /\
      (exists row, sh !! (r - 1)%nat = Some row /\ is_header row = true) /\
      forall j row,
        (j <= r - 1)%nat -> sh !! j = Some row ->
        first_cell_has_no_row row = false /\
        ((j < r - 1)%nat -> is_header row = false)
  | Returns None =>
      forall j row,
        searched j -> sh !! j = Some row ->
        first_cell_has_no_row row = false /\ is_header row = false
  | Raises =>
      exists i row,
        searched i /\ sh !! i = Some row /\ first_cell_has_no_row row = true /\
        forall j r,
          (j < i)%nat -> sh !! j = Some r ->
          first_cell_has_no_row r = false /\ is_header r = false
  end.
Proof.
  intros searched. unfold _find_header_row.
  assert (Hs : forall j x,
            searched_rows sh max_search_rows !! j = Some x ->
            searched j /\ sh !! j = Some x).
  { intros j x. rewrite searched_rows_lookup. unfold searched.
    destruct (Nat.eqb_spec max_search_rows 0); cbn [orb];
      [intros Hx; split; [now left|exact Hx]|].
    destruct (Nat.ltb_spec j max_search_rows); [|discriminate].
    intros Hx. split; [now right|exact Hx]. }
  assert (Hs' : forall j x,
            searched j -> sh !! j = Some x ->
            searched_rows sh max_search_rows !! j = Some x).
  { intros j x Hj Hx. rewrite searched_rows_lookup. unfold searched in Hj.
    destruct (Nat.eqb_spec max_search_rows 0); cbn [orb]; [exact Hx|].
    destruct (Nat.ltb_spec j max_search_rows); [exact Hx|].
    destruct Hj; [congruence|lia]. }
  assert (Hdown : forall i j, (j <= i)%nat -> searched i -> searched j)
    by (unfold searched; intros i j Hij [?|?]; [now left|right; lia]).
  pose proof (find_header_from_spec 1 (searched_rows sh max_search_rows)) as H.
  pose proof (searched_rows_length sh max_search_rows) as [Hlen _].
  destruct (find_header_from 1 (searched_rows sh max_search_rows)) as [[r|]|].
  - destruct H as (Hr & (row & Hrow & Hh) & Hmin).
    destruct (Hs _ _ Hrow) as [Hsr Hrow'].
    split; [lia|]. split; [exact Hsr|]. split; [now exists row|].
    intros j row' Hj Hrow''. apply (Hmin j row' Hj).
    apply Hs'; [|exact Hrow'']. now apply (Hdown (r - 1)%nat).
  - intros j row Hj Hrow. apply (H j row). now apply Hs'.
  - destruct H as (i & row & Hrow & Hraise & Hmin).
    destruct (Hs _ _ Hrow) as [Hsi Hrow'].
    exists i, row. split; [exact Hsi|]. split; [exact Hrow'|].
    split; [exact Hraise|]. intros j r Hj Hr. apply (Hmin j r Hj).
    apply Hs'; [|exact Hr]. apply (Hdown i); [lia|exact Hsi].
Qed.

Lemma find_header_row_first_witness :
  (exists row, Scenario2.titled_sheet !! 2%nat = Some row /\ is_header row = true)
  /\ is_header [CStr "Budget Exhibit"] = false
  /\ exists i row,
       Scenario.offset_title_sheet !! i = Some row /\
       first_cell_has_no_row row = true.
Proof.
  pose proof (find_header_row_first Scenario2.titled_sheet 50) as H.
  pose proof (find_header_row_first Scenario.offset_title_sheet 0) as H0.
  change (_find_header_row Scenario2.titled_sheet 50)
    with (Returns (Some 3%nat)) in H.
  change (_find_header_row Scenario.offset_title_sheet 0)
    with (@Raises (option nat)) in H0.
  cbv zeta in H, H0.
  destruct H as (_ & _ & Hrow & Hmin).
  destruct H0 as (i & row & _ & Hrow0 & Hraise & _).
  split; [exact Hrow|]. split.
  - apply (Hmin 0%nat [CStr "Budget Exhibit"]); [cbn; lia|reflexivity|cbn; lia].
  - now exists i, row.
Defined.

Lemma setdefault_lookup k' j (m : gmap string nat) k i :
  setdefault k' j m !! k = Some i ->
  m !! k = Some i \/ (i = j /\ k = k').
Proof.
  unfold setdefault. destruct (m !! k') eqn:E; [now left|].
  destruct (decide (k' = k)) as [<-|Hne].
  - rewrite lookup_insert_eq. intros [= <-]. now right.
  - rewrite lookup_insert_ne by exact Hne. now left.
Qed.

Lemma setdefault_keeps k' j (m : gmap string nat) k i :
  m !! k = Some i -> setdefault k' j m !! k = Some i.
Proof.
  intros H. unfold setdefault. destruct (m !! k') eqn:E; [exact H|].
  rewrite lookup_insert_ne; [exact H|]. congruence.
Qed.

Lemma set_if_lookup b k' j (m : gmap string nat) k i :
  set_if b k' j m !! k = Some i ->
  m !! k = Some i \/ (i = j /\ k = k').
Proof. destruct b; [apply setdefault_lookup|now left]. Qed.

Lemma set_if_keeps b k' j (m : gmap string nat) k i :
  m !! k = Some i -> set_if b k' j m !! k = Some i.
Proof. destruct b; [apply setdefault_keeps|auto]. Qed.

Lemma header_map_cell_keeps idx c (m : gmap string nat) k i :
  m !! k = Some i -> header_map_cell idx c m !! k = Some i.
Proof.
  intros H. unfold header_map_cell.
  destruct (negb (Py.truthy (header_value c))); [exact H|].
  cbv zeta. repeat apply set_if_keeps. exact H.
Qed.

Lemma header_map_cell_lookup idx c (m : gmap string nat) k i :
  header_map_cell idx c m !! k = Some i ->
  m !! k = Some i \/
  (i = idx /\ header_value c <> "" /\ In k canonical_fields).
Proof.
  unfold header_map_cell.
  destruct (Py.truthy (header_value c)) eqn:Hv; cbn [negb]; [|now left].
  apply truthy_true in Hv. cbv zeta. intros H.
  repeat match type of H with
         | set_if _ _ _ _ !! _ = Some _ =>
             apply set_if_lookup in H as [H|[-> ->]];
             [|right; split; [reflexivity|split; [exact Hv|cbn; tauto]]]
         end.
  now left.
Qed.

Lemma header_map_from_keeps idx cells (m : gmap string nat) k i :
  m !! k = Some i -> header_map_from idx cells m !! k = Some i.
Proof.
  revert idx m. induction cells as [|c cells IH]; intros idx m H; [exact H|].
  cbn [header_map_from]. now apply IH, header_map_cell_keeps.
Qed.

Lemma header_map_from_app idx cells more (m : gmap string nat) :
  header_map_from idx (cells ++ more) m =
  header_map_from (idx + List.length cells) more (header_map_from idx cells m).
Proof.
  revert idx m. induction cells as [|c cells IH]; intros idx m.
  - cbn. now rewrite Nat.add_0_r.
  - cbn [app header_map_from List.length]. rewrite IH. f_equal. lia.
Qed.

Lemma header_map_from_lookup idx cells (m : gmap string nat) k i :
  header_map_from idx cells m !! k = Some i ->
  m !! k = Some i \/
  ((idx <= i < idx + List.length cells)%nat /\
   (exists c, cells !! (i - idx)%nat = Some c /\ header_value c <> "") /\
   In k canonical_fields).
Proof.
  revert idx m. induction cells as [|c cells IH]; intros idx m; [now left|].
  cbn [header_map_from List.length]. intros H.
  destruct (IH _ _ H) as [H'|(Hi & (c' & Hc' & Hv) & Hk)].
  - destruct (header_map_cell_lookup _ _ _ _ _ H') as [?|(-> & Hv & Hk)];
      [now left|].
    right. split; [lia|]. rewrite Nat.sub_diag. split; [now exists c|exact Hk].
  - right. split; [lia|]. split; [|exact Hk].
    exists c'. replace (i - idx)%nat with (S (i - S idx)) by lia. now split.
Qed.

(** X5. In the field map of a header row the first column that qualifies
    for a field keeps it: columns added to the right never remap a field.
    Every mapped index is the position of a cell of the row whose text is
    not empty, and every key is one of the eleven canonical fields. *)
Theorem header_map_first_column_wins (cells more : list cell) (key : string)
    (idx : nat) :
  _header_map cells !! key = Some idx ->
  _header_map (cells ++ more) !! key = Some idx /\
  (idx < List.length cells)%nat /\
  (exists c, cells !! idx = Some c /\ header_value c <> "") /\
  In key canonical_fields.
Proof.
  unfold _header_map. intros H. split.
  - rewrite header_map_from_app. now apply header_map_from_keeps.
  - destruct (header_map_from_lookup _ _ _ _ _ H) as [H'|(Hi & (c & Hc & Hv) & Hk)].
    + rewrite lookup_empty in H'. discriminate.
    + rewrite Nat.sub_0_r in Hc. split; [lia|]. split; [now exists c|exact Hk].
Qed.

Lemma header_map_first_column_wins_witness :
  _header_map Scenario2.generic_header !! "ProjectName" = Some 2%nat /\
  _header_map (Scenario2.generic_header ++ [CStr "Project Name (long)"])
    !! "ProjectName" = Some 2%nat.
Proof.
  assert (H : _header_map Scenario2.generic_header !! "ProjectName" = Some 2%nat)
    by (vm_compute; reflexivity).
  split; [exact H|].
  apply (header_map_first_column_wins Scenario2.generic_header
           [CStr "Project Name (long)"] "ProjectName" 2 H).
Defined.

End Headers.

(** *** Blank rows *)

Section BlankRows.

Lemma generic_loop_skip_blanks hdr_map blanks rest bs results :
  Forall (fun r => is_blank_row r = true) blanks ->
  (bs + List.length blanks < 5)%nat ->
  generic_loop hdr_map (blanks ++ rest) bs results =
  generic_loop hdr_map rest (bs + List.length blanks) results.
Proof.
  intros H. revert bs. induction H as [|r blanks Hr _ IH]; intros bs Hlt.
  - cbn. now rewrite Nat.add_0_r.
  - cbn [app generic_loop List.length] in *. rewrite Hr.
    destruct (Nat.leb_spec 5 (S bs)); [lia|].
    rewrite IH by lia. f_equal. lia.
Qed.

Lemma generic_loop_stop hdr_map blanks rest bs results :
  Forall (fun r => is_blank_row r = true) blanks ->
  blanks <> [] ->
  (5 <= bs + List.length blanks)%nat ->
  generic_loop hdr_map (blanks ++ rest) bs results = results.
Proof.
  intros H. revert bs. induction H as [|r blanks Hr _ IH]; intros bs Hne Hle;
    [congruence|].
  cbn [app generic_loop List.length] in *. rewrite Hr.
  destruct (Nat.leb_spec 5 (S bs)); [reflexivity|].
  apply IH; [|lia]. intros ->. cbn in Hle. lia.
Qed.

Lemma generic_loop_reset hdr_map row rest bs results :
  is_blank_row row = false ->
  generic_loop hdr_map (row :: rest) bs results =
  generic_loop hdr_map (row :: rest) 0 results.
Proof. intros H. cbn [generic_loop]. now rewrite H. Qed.

Lemma r1d_loop_skip_blanks hdr_map blanks rest ctx bs results :
  Forall (fun r => is_blank_row r = true) blanks ->
  (bs + List.length blanks < 10)%nat ->
  r1d_loop hdr_map (blanks ++ rest) ctx bs results =
  r1d_loop hdr_map rest ctx (bs + List.length blanks) results.
Proof.
  intros H. revert bs. induction H as [|r blanks Hr _ IH]; intros bs Hlt.
  - cbn. now rewrite Nat.add_0_r.
  - cbn [app r1d_loop List.length] in *. rewrite Hr.
    destruct (Nat.leb_spec 10 (S bs)); [lia|].
    rewrite IH by lia. f_equal. lia.
Qed.

Lemma r1d_loop_stop hdr_map blanks rest ctx bs results :
  Forall (fun r => is_blank_row r = true) blanks ->
  blanks <> [] ->
  (10 <= bs + List.length blanks)%nat ->
  r1d_loop hdr_map (blanks ++ rest) ctx bs results = results.
Proof.
  intros H. revert bs. induction H as [|r blanks Hr _ IH]; intros bs Hne Hle;
    [congruence|].
  cbn [app r1d_loop List.length] in *. rewrite Hr.
  destruct (Nat.leb_spec 10 (S bs)); [reflexivity|].
  apply IH; [|lia]. intros ->. cbn in Hle. lia.
Qed.

Lemma r1d_loop_reset hdr_map row rest ctx bs results :
  is_blank_row row = false ->
  r1d_loop hdr_map (row :: rest) ctx bs results =
  r1d_loop hdr_map (row :: rest) ctx 0 results.
Proof. intros H. cbn [r1d_loop]. now rewrite H. Qed.

(** X6. A run of blank rows between data rows is invisible while it is
    short and ends the sheet once it is long: on a generic sheet fewer than
    5 blank rows before a data row change nothing and 5 or more stop the
    scan, so that no later row is read; on a hierarchical sheet the
    threshold is 10, and the context is carried across the shorter gap. *)
Theorem blank_run_threshold (hdr_map : gmap string nat) (blanks : list row)
    (next : row) (rest : list row) (ctx : context)
    (results : list CostLineRecord) :
  Forall (fun r => is_blank_row r = true) blanks ->
  is_blank_row next = false ->
  generic_loop hdr_map (blanks ++ next :: rest) 0 results =
    (if (List.length blanks <? 5)%nat
     then generic_loop hdr_map (next :: rest) 0 results
     else results) /\
  r1d_loop hdr_map (blanks ++ next :: rest) ctx 0 results =
    (if (List.length blanks <? 10)%nat
     then r1d_loop hdr_map (next :: rest) ctx 0 results
     else results).
Proof.
  intros Hb Hn. split.
  - destruct (Nat.ltb_spec (List.length blanks) 5).
    + rewrite generic_loop_skip_blanks by (auto; lia).
      now apply generic_loop_reset.
    + apply generic_loop_stop; [exact Hb| |lia].
      intros ->. cbn in *. lia.
  - destruct (Nat.ltb_spec (List.length blanks) 10).
    + rewrite r1d_loop_skip_blanks by (auto; lia).
      now apply r1d_loop_reset.
    + apply r1d_loop_stop; [exact Hb| |lia].
      intros ->. cbn in *. lia.
Qed.

Lemma blank_run_threshold_witness :
  generic_loop (_header_map Scenario.header)
    (List.repeat Scenario2.blank_row 5 ++ Scenario.project_row :: []) 0 [] = [] /\
  r1d_loop (_header_map Scenario.header)
    (List.repeat Scenario2.blank_row 5 ++ Scenario.project_row :: [])
    Scenario.project_context 0 [] =
  r1d_loop (_header_map Scenario.header) [Scenario.project_row]
    Scenario.project_context 0 [].
Proof.
  apply (blank_run_threshold (_header_map Scenario.header)
           (List.repeat Scenario2.blank_row 5) Scenario.project_row []
           Scenario.project_context []).
  - repeat constructor.
  - reflexivity.
Defined.

End BlankRows.

(** *** Shape of the ingested rows *)

Section RowShape.
Import Shape.

Lemma or_str_gv_trimmed hdr_map row_vals key :
  Py.strip (Py.or_str (gv hdr_map row_vals key) "") =
  Py.or_str (gv hdr_map row_vals key) "".
Proof.
  unfold Py.or_str. destruct (gv hdr_map row_vals key) as [s|] eqn:E;
    [|reflexivity].
  destruct (Py.truthy s); [|reflexivity]. exact (gv_trimmed _ _ _ _ E).
Qed.

Lemma r1d_row_shape hdr_map row_vals ctx rec :
  (r1d_row hdr_map row_vals ctx).2 = Some rec ->
  trimmed_fields rec /\
  R1D_Description rec = Some (Py.or_str (gv hdr_map row_vals "Description") "").
Proof.
  unfold r1d_row.
  destruct (String.eqb (row_type hdr_map row_vals) "PE"); [discriminate|].
  destruct (is_project_type (row_type hdr_map row_vals)).
  - cbn [snd]. intros [= <-]. unfold trimmed_fields. cbn [PENumber PEName ProjectNumber ProjectName CostCategory
      R1D_Description].
    rewrite !norm_trimmed. repeat split; reflexivity.
  - destruct (_ || _); [|discriminate].
    cbn [CostCategory PENumber ProjectNumber].
    destruct (is_summary_duplicate _); [discriminate|].
    destruct (_ || _); [|discriminate].
    cbn [snd]. intros [= <-]. unfold trimmed_fields, derived_category.
    cbn [PENumber PEName ProjectNumber ProjectName CostCategory
      R1D_Description]. rewrite !norm_trimmed. repeat split; reflexivity.
Qed.

Lemma generic_loop_shape hdr_map rows bs results :
  Forall (fun r => trimmed_fields r /\ R1D_Description r = None) results ->
  Forall (fun r => trimmed_fields r /\ R1D_Description r = None)
    (generic_loop hdr_map rows bs results).
Proof.
  revert bs results.
  induction rows as [|r rows IH]; intros bs res Hres; cbn [generic_loop].
  - exact Hres.
  - destruct (is_blank_row r).
    + destruct (5 <=? S bs)%nat; [exact Hres|]. now apply IH.
    + cbn [PENumber ProjectNumber].
      destruct (_ && _).
      * now apply IH.
      * apply IH. apply Forall_app. split; [exact Hres|].
        constructor; [|constructor].
        unfold trimmed_fields. cbn [PENumber PEName ProjectNumber ProjectName CostCategory
      R1D_Description]. rewrite !norm_trimmed.
        repeat split; reflexivity.
Qed.

Lemma xml_root_shape root rec :
  In rec (parse_xml_root root) ->
  trimmed_fields rec /\ R1D_Description rec = None.
Proof.
  unfold parse_xml_root. rewrite in_flat_map. intros (pe & _ & Hin).
  destruct (negb _); [destruct Hin|].
  rewrite in_flat_map in Hin. destruct Hin as (proj & _ & Hin).
  rewrite in_map_iff in Hin. destruct Hin as (cc & <- & _).
  unfold trimmed_fields. cbn [PENumber PEName ProjectNumber ProjectName CostCategory
      R1D_Description]. rewrite !norm_trimmed.
  repeat split; reflexivity.
Qed.

Lemma xml_file_shape tree rec :
  In rec (_parse_xml_file tree) ->
  trimmed_fields rec /\ R1D_Description rec = None.
Proof. destruct tree; [apply xml_root_shape|intros []]. Qed.

Lemma r1d_sheet_shape sh header_row hdr_map rec :
  In rec (_parse_r1d_sheet sh header_row hdr_map) ->
  trimmed_fields rec /\ exists d, R1D_Description rec = Some d /\ Py.strip d = d.
Proof.
  unfold _parse_r1d_sheet. intros Hin.
  apply r1d_loop_emitted in Hin as [[]|(r & c & _ & _ & Hstep)].
  destruct (r1d_row_shape _ _ _ _ Hstep) as [Ht Hd]. split; [exact Ht|].
  eexists. split; [exact Hd|]. apply or_str_gv_trimmed.
Qed.

Lemma xlsx_file_shape wb rows rec :
  _parse_xlsx_file wb = Returns rows -> In rec rows ->
  trimmed_fields rec /\ description_trimmed rec.
Proof.
  destruct wb as [worksheets|]; [|now intros [= <-] []].
  cbn [_parse_xlsx_file]. intros Hret Hin.
  destruct (extend_all_in _ _ _ _ Hret Hin) as (sh & rs & _ & Hsh & Hrec).
  destruct (parse_sheet_rows _ _ _ Hsh Hrec)
    as (h & cells & _ & _ & _ & [[_ Hr]|[_ Hg]]).
  - destruct (r1d_sheet_shape _ _ _ _ Hr) as [Ht (d & Hd & Hs)].
    split; [exact Ht|]. unfold description_trimmed. now rewrite Hd.
  - pose proof (generic_loop_shape (_header_map cells) (List.skipn h sh) 0 []
                  (List.Forall_nil _)) as HF.
    rewrite List.Forall_forall in HF. destruct (HF _ Hg) as [Ht Hd].
    split; [exact Ht|]. unfold description_trimmed. now rewrite Hd.
Qed.

Lemma xml_file_shape' tree rec :
  In rec (_parse_xml_file tree) -> trimmed_fields rec /\ description_trimmed rec.
Proof.
  intros H. destruct (xml_file_shape _ _ H) as [Ht Hd].
  split; [exact Ht|]. unfold description_trimmed. now rewrite Hd.
Qed.

(** X7. Every row the ingestor returns, from any mix of paths and formats,
    has its five text fields trimmed (no leading or trailing blank), and
    its description, when it has one, is trimmed too. *)
Theorem ingested_rows_are_trimmed (fs : gmap string file) (paths : list string)
    (rows : list CostLineRecord) (rec : CostLineRecord) :
  parse_r3_projects fs paths = Returns rows ->
  In rec rows ->
  trimmed_fields rec /\ description_trimmed rec.
Proof.
  intros Hret Hin. unfold parse_r3_projects in Hret.
  destruct (extend_all_in _ _ _ _ Hret Hin) as (p & rs & _ & Hp & Hrec).
  unfold parse_path in Hp. destruct (fs !! p) as [f|]; [|now injection Hp as <-].
  cbv zeta in Hp.
  destruct (in_list _ xml_extensions);
    [injection Hp as <-; now apply xml_file_shape' in Hrec|].
  destruct (in_list _ xlsx_extensions);
    [now apply (xlsx_file_shape _ _ _ Hp)|].
  destruct (_parse_xml_file (xml_tree f)) as [|r l] eqn:E.
  - now apply (xlsx_file_shape _ _ _ Hp).
  - injection Hp as <-. rewrite <- E in Hrec. now apply xml_file_shape' in Hrec.
Qed.

Lemma ingested_rows_are_trimmed_witness :
  trimmed_fields Scenario2.xml_record /\ description_trimmed Scenario2.xml_record.
Proof.
  apply (ingested_rows_are_trimmed Scenario2.padded_fs ["r3.xml"]
           [Scenario2.xml_record]).
  - vm_compute. reflexivity.
  - left. reflexivity.
Defined.

End RowShape.
(** *** Fusion: what the result depends on *)

Section FusionFrame.
Import Shape.

Lemma fuse_row_no_description source lookup flag row :
  R1D_Description row = None ->
  fuse_row source lookup flag row = fuse_row source lookup false row.
Proof.
  intros H. unfold fuse_row. rewrite H. cbn [Py.or_str].
  change (Py.strip "") with "". unfold fallback. cbn [Py.truthy].
  rewrite !andb_false_r. now destruct flag.
Qed.

Lemma fuse_no_description source rows lookup flag :
  Forall (fun r => R1D_Description r = None) rows ->
  fuse_r3_with_r2 source rows lookup flag =
  fuse_r3_with_r2 source rows lookup false.
Proof.
  intros H. rewrite !fuse_r3_with_r2_map.
  induction H as [|r rows Hr _ IH]; [reflexivity|].
  cbn [List.map]. now rewrite IH, (fuse_row_no_description _ _ _ _ Hr).
Qed.

Lemma generic_rows_no_description hdr_map rows :
  Forall (fun r => R1D_Description r = None) (generic_loop hdr_map rows 0 []).
Proof.
  pose proof (generic_loop_shape hdr_map rows 0 [] (List.Forall_nil _)) as H.
  eapply List.Forall_impl; [|exact H]. now intros r [_ Hd].
Qed.

Lemma xml_rows_no_description tree :
  Forall (fun r => R1D_Description r = None) (_parse_xml_file tree).
Proof.
  rewrite List.Forall_forall. intros r Hin. now apply xml_file_shape in Hin.
Qed.

(** X8. Only the hierarchical spreadsheet path gives a row a description:
    the rows of an XML file and of a generic sheet have none, the rows of
    a hierarchical sheet always have one. So the description fallback
    changes nothing when rows of an XML file or of a generic sheet are
    fused. *)
Theorem description_only_from_hierarchical_sheets (tree : option elem)
    (sh : sheet) (header_row : nat) (hdr_map : gmap string nat)
    (rows : list row) (source_file : string) (r2_lookup : gmap string bundle) :
  Forall (fun r => R1D_Description r = None) (_parse_xml_file tree) /\
  Forall (fun r => R1D_Description r = None) (generic_loop hdr_map rows 0 []) /\
  Forall (fun r => R1D_Description r <> None)
    (_parse_r1d_sheet sh header_row hdr_map) /\
  fuse_r3_with_r2 source_file (_parse_xml_file tree) r2_lookup true =
    fuse_r3_with_r2 source_file (_parse_xml_file tree) r2_lookup false /\
  fuse_r3_with_r2 source_file (generic_loop hdr_map rows 0 []) r2_lookup true =
    fuse_r3_with_r2 source_file (generic_loop hdr_map rows 0 []) r2_lookup false.
Proof.
  split; [apply xml_rows_no_description|].
  split; [apply generic_rows_no_description|].
  split.
  - rewrite List.Forall_forall. intros r Hin.
    apply r1d_sheet_shape in Hin as [_ (d & Hd & _)]. now rewrite Hd.
  - split; apply fuse_no_description;
      [apply xml_rows_no_description|apply generic_rows_no_description].
Qed.

(** X9. Ingesting and fusing distribute over the list of input paths: the
    enriched records of a batch of paths are those of its first part
    followed by those of the rest, under the same lookup, and the batch
    raises exactly when one of its parts does. *)
Theorem ingest_and_fuse_by_parts (fs : gmap string file)
    (paths1 paths2 : list string) (source_file : string)
    (r2_lookup : gmap string bundle) (use_r1d_description : bool) :
  (rows ← parse_r3_projects fs (paths1 ++ paths2);
   Returns (fuse_r3_with_r2 source_file rows r2_lookup use_r1d_description)) =
  (rows1 ← parse_r3_projects fs paths1;
   rows2 ← parse_r3_projects fs paths2;
   Returns
     (fuse_r3_with_r2 source_file rows1 r2_lookup use_r1d_description ++
      fuse_r3_with_r2 source_file rows2 r2_lookup use_r1d_description)%list).
Proof.
  rewrite parse_r3_projects_app.
  destruct (parse_r3_projects fs paths1) as [rows1|]; [|reflexivity].
  destruct (parse_r3_projects fs paths2) as [rows2|]; [|reflexivity].
  cbn [mbind outcome_bind]. f_equal.
  now rewrite !fuse_r3_with_r2_map, List.map_app.
Qed.

(** X10. Fusion reads the lookup only at the trimmed program element
    numbers of the rows: two lookups that agree there give the same
    enriched records. *)
Theorem fuse_reads_only_row_keys (source_file : string)
    (r3_rows : list CostLineRecord) (lookup1 lookup2 : gmap string bundle)
    (use_r1d_description : bool) :
  (forall r, In r r3_rows ->
     lookup1 !! Py.strip (PENumber r) = lookup2 !! Py.strip (PENumber r)) ->
  fuse_r3_with_r2 source_file r3_rows lookup1 use_r1d_description =
  fuse_r3_with_r2 source_file r3_rows lookup2 use_r1d_description.
Proof.
  intros H. rewrite !fuse_r3_with_r2_map. apply List.map_ext_in.
  intros r Hin. unfold fuse_row. now rewrite (H r Hin).
Qed.

Lemma fuse_reads_only_row_keys_witness :
  fuse_r3_with_r2 "jbook.pdf" [Scenario.row_a] Scenario.lookup_a true =
  fuse_r3_with_r2 "jbook.pdf" [Scenario.row_a]
    (<["0999999Z" := Scenario.bundle_a]> Scenario.lookup_a) true.
Proof.
  apply (fuse_reads_only_row_keys "jbook.pdf" [Scenario.row_a]).
  intros r [<-|[]]. vm_compute. reflexivity.
Defined.

End FusionFrame.

(** *** Cost texts *)

Section CostText.
Import NumeralSpec NewStartSpec.

Lemma remove_commas_space w : all_space w = true -> Py.remove_commas w = w.
Proof.
  induction w as [|c w IH]; [reflexivity|].
  cbn [all_space Py.remove_commas]. intros H.
  apply andb_true_iff in H as [Hc Hw]. rewrite (space_not_comma _ Hc).
  now rewrite IH.
Qed.

Lemma remove_commas_app (a b : string) :
  Py.remove_commas (a +:+ b) = Py.remove_commas a +:+ Py.remove_commas b.
Proof.
  induction a as [|c a IH]; [reflexivity|].
  rewrite append_cons. cbn [Py.remove_commas].
  destruct (Ascii.eqb c ","); [exact IH|]. now rewrite IH, append_cons.
Qed.

Lemma remove_commas_idem s :
  Py.remove_commas (Py.remove_commas s) = Py.remove_commas s.
Proof.
  induction s as [|c s IH]; [reflexivity|].
  cbn [Py.remove_commas]. destruct (Ascii.eqb c ",") eqn:E; [exact IH|].
  cbn [Py.remove_commas]. now rewrite E, IH.
Qed.

Lemma rstrip_all_space w : all_space w = true -> Py.rstrip w = "".
Proof.
  induction w as [|c w IH]; [reflexivity|].
  cbn [all_space Py.rstrip]. intros H. apply andb_true_iff in H as [Hc Hw].
  now rewrite (IH Hw), Hc.
Qed.

Lemma lstrip_all_space w : all_space w = true -> Py.lstrip w = "".
Proof.
  induction w as [|c w IH]; [reflexivity|].
  cbn [all_space Py.lstrip]. intros H. apply andb_true_iff in H as [Hc Hw].
  rewrite Hc. now apply IH.
Qed.

Lemma rstrip_app_space s w :
  all_space w = true -> Py.rstrip (s +:+ w) = Py.rstrip s.
Proof.
  intros Hw. induction s as [|c s IH].
  - rewrite append_nil. now apply rstrip_all_space.
  - rewrite append_cons. cbn [Py.rstrip]. now rewrite IH.
Qed.

Lemma strip_padding w1 s w2 :
  all_space w1 = true -> all_space w2 = true ->
  Py.strip (w1 +:+ s +:+ w2) = Py.strip s.
Proof.
  intros H1 H2. unfold Py.strip. rewrite (lstrip_app_space _ _ H1).
  destruct (lstrip_split s) as (w & Hw & Hs).
  rewrite Hs at 1. rewrite string_append_assoc, (lstrip_app_space _ _ Hw).
  destruct (lstrip_cases s) as [->|(c & t & -> & Hc)].
  - rewrite append_nil, (lstrip_all_space _ H2). reflexivity.
  - rewrite append_cons, (lstrip_nonspace _ _ Hc), <- append_cons.
    now apply rstrip_app_space.
Qed.

Lemma cleaned_padding w1 s w2 :
  all_space w1 = true -> all_space w2 = true ->
  cleaned (w1 +:+ s +:+ w2) = cleaned s.
Proof.
  intros H1 H2. unfold cleaned.
  rewrite !remove_commas_app, (remove_commas_space _ H1),
    (remove_commas_space _ H2).
  now apply strip_padding.
Qed.

(** X11. Blanks around a cost text and commas inside it do not matter:
    padding the text with blanks on either side, or deleting its commas
    beforehand, gives the same value or the same null, in the XML parser
    and in the spreadsheet parser. *)
Theorem cost_text_padding_and_commas (s w1 w2 : string) :
  all_space w1 = true -> all_space w2 = true ->
  _parse_float_safe_any (PStr (w1 +:+ s +:+ w2)) = _parse_float_safe_any (PStr s)
  /\ _parse_float_safe (Some (w1 +:+ s +:+ w2)) = _parse_float_safe (Some s)
  /\ _parse_float_safe_any (PStr (Py.remove_commas s)) =
     _parse_float_safe_any (PStr s)
  /\ _parse_float_safe (Some (Py.remove_commas s)) = _parse_float_safe (Some s).
Proof.
  intros H1 H2.
  assert (Hany : forall t, _parse_float_safe_any (PStr t) =
                           float_of_string (cleaned t))
    by (intros t; cbn [_parse_float_safe_any]; apply parse_string_eq).
  assert (Hxml : forall t, _parse_float_safe (Some t) =
                           float_of_string (cleaned t)) by reflexivity.
  rewrite !Hany, !Hxml, (cleaned_padding _ _ _ H1 H2).
  unfold cleaned. rewrite remove_commas_idem. repeat split; reflexivity.
Qed.

Lemma cost_text_padding_and_commas_witness :
  _parse_float_safe_any (PStr ("  " +:+ "1,234.5" +:+ " ")) =
    _parse_float_safe_any (PStr "1,234.5")
  /\ _parse_float_safe_any (PStr (Py.remove_commas "1,234.5")) =
     _parse_float_safe_any (PStr "1,234.5").
Proof.
  destruct (cost_text_padding_and_commas "1,234.5" "  " " " eq_refl eq_refl)
    as (H1 & _ & H2 & _).
  split; [exact H1|exact H2].
Defined.

End CostText.
(** *** The pages of a program element *)

Section Pages.
Import R2Pages Shape.

Lemma find_pages_from_bounds i pages pe j :
  In j (find_pages_from i pages pe) -> (i <= j)%nat.
Proof.
  revert i. induction pages as [|t pages IH]; intros i; [intros []|].
  cbn [find_pages_from]. destruct (_ && _).
  - intros [<-|H]; [lia|]. apply IH in H. lia.
  - intros H. apply IH in H. lia.
Qed.

Lemma find_pages_from_sorted i pages pe :
  StronglySorted lt (find_pages_from i pages pe).
Proof.
  revert i. induction pages as [|t pages IH]; intros i; [constructor|].
  cbn [find_pages_from]. destruct (_ && _); [|apply IH].
  constructor; [apply IH|]. rewrite List.Forall_forall. intros j Hj.
  apply find_pages_from_bounds in Hj. lia.
Qed.

Lemma find_pages_from_in i pages pe j :
  In j (find_pages_from i pages pe) <->
  (i <= j)%nat /\
  exists txt, pages !! (j - i)%nat = Some txt /\ selected pe txt = true.
Proof.
  revert i. induction pages as [|t pages IH]; intros i.
  - cbn. split; [intros []|]. now intros (_ & txt & H & _).
  - cbn [find_pages_from]. fold (selected pe t).
    assert (Htl : In j (find_pages_from (S i) pages pe) <->
                  (i < j)%nat /\
                  exists txt, (t :: pages) !! (j - i)%nat = Some txt /\
                              selected pe txt = true).
    { rewrite IH. split.
      - intros (Hle & txt & Hl & Hs). split; [lia|]. exists txt.
        replace (j - i)%nat with (S (j - S i)) by lia. now split.
      - intros (Hlt & txt & Hl & Hs). split; [lia|]. exists txt.
        replace (j - i)%nat with (S (j - S i)) in Hl by lia. now split. }
    destruct (selected pe t) eqn:Hsel.
    + cbn [In]. rewrite Htl. split.
      * intros [<-|(Hlt & Hex)]; [|split; [lia|exact Hex]].
        split; [lia|]. exists t. now rewrite Nat.sub_diag.
      * intros (Hle & txt & Hl & Hs).
        destruct (Nat.eq_dec i j) as [->|Hne]; [now left|].
        right. split; [lia|]. now exists txt.
    + rewrite Htl. split.
      * intros (Hlt & Hex). split; [lia|exact Hex].
      * intros (Hle & txt & Hl & Hs).
        destruct (Nat.eq_dec i j) as [->|Hne].
        -- rewrite Nat.sub_diag in Hl. cbn in Hl. injection Hl as ->.
           congruence.
        -- split; [lia|]. now exists txt.
Qed.

(** X12. The pages returned for a program element are exactly the pages of
    the document whose text carries one of the exhibit markers and matches
    the pattern of the number; they are returned as zero-based indices in
    strictly increasing order. *)
Theorem find_r2_pages_selects (doc : list string) (pe_number : string) :
  StronglySorted lt (find_r2_pages_for_pe doc pe_number) /\
  forall i,
    In i (find_r2_pages_for_pe doc pe_number) <->
    exists txt,
      doc !! i = Some txt /\ has_title_marker txt = true /\
      pe_pattern_search pe_number txt = true.
Proof.
  split; [apply find_pages_from_sorted|].
  intros i. unfold find_r2_pages_for_pe. rewrite find_pages_from_in.
  rewrite Nat.sub_0_r. unfold selected. split.
  - intros (_ & txt & Hl & Hs). apply andb_true_iff in Hs. now exists txt.
  - intros (txt & Hl & Hm & Hp). split; [lia|]. exists txt.
    now rewrite Hm, Hp.
Qed.

Lemma find_r2_pages_selects_witness :
  In 3%nat (find_r2_pages_for_pe Scenario2.jbook "0604123X") /\
  ~ In 2%nat (find_r2_pages_for_pe Scenario2.jbook "0604123X").
Proof.
  destruct (find_r2_pages_selects Scenario2.jbook "0604123X") as [_ H]. split.
  - apply H. exists "R-2A PE 0604123X New Start: No".
    repeat split; vm_compute; reflexivity.
  - intros Hin. apply H in Hin as (txt & Hl & _ & Hp).
    vm_compute in Hl. injection Hl as <-. vm_compute in Hp. discriminate.
Defined.

Lemma last_char_app prev (a b : string) :
  last_char prev (a +:+ b) = last_char (last_char prev a) b.
Proof.
  revert prev. induction a as [|c a IH]; intros prev; [reflexivity|].
  rewrite append_cons. cbn [last_char]. apply IH.
Qed.

Lemma strip_prefix_spec x s prev last rest :
  strip_prefix x s prev = Some (last, rest) ->
  s = x +:+ rest /\ last = last_char prev x.
Proof.
  revert s prev. induction x as [|c x IH]; intros s prev.
  - cbn. now intros [= <- <-].
  - cbn [strip_prefix last_char]. destruct s as [|d s]; [discriminate|].
    destruct (Ascii.eqb c d) eqn:E; [|discriminate].
    apply Ascii.eqb_eq in E as <-. intros H.
    destruct (IH _ _ H) as [-> ->]. now rewrite append_cons.
Qed.

Lemma number_here_spec pe prev s :
  number_here pe prev s = true ->
  exists rest, s = pe +:+ rest /\ word_boundary (last_char prev pe) rest = true.
Proof.
  unfold number_here.
  destruct (strip_prefix pe s prev) as [[last rest]|] eqn:E; [|discriminate].
  destruct (strip_prefix_spec _ _ _ _ _ E) as [-> ->]. intros H. now exists rest.
Qed.

Lemma blanks_then_number_spec pe prev s :
  blanks_then_number pe prev s = true ->
  exists blanks rest,
    s = blanks +:+ pe +:+ rest /\
    word_boundary (last_char prev (blanks +:+ pe)) rest = true.
Proof.
  revert prev. induction s as [|c s IH]; intros prev; cbn [blanks_then_number].
  - rewrite orb_false_r. intros H.
    destruct (number_here_spec _ _ _ H) as (rest & Hs & Hb).
    exists "", rest. now rewrite !append_nil.
  - intros H. apply orb_true_iff in H as [H|H].
    + destruct (number_here_spec _ _ _ H) as (rest & Hs & Hb).
      exists "", rest. now rewrite !append_nil.
    + apply andb_true_iff in H as [_ H].
      destruct (IH _ H) as (blanks & rest & -> & Hb).
      exists (String c blanks), rest. now rewrite !append_cons.
Qed.

Lemma pe_pattern_here_spec pe prev s :
  pe_pattern_here pe prev s = true ->
  exists before rest,
    s = before +:+ pe +:+ rest /\
    word_boundary (last_char prev (before +:+ pe)) rest = true.
Proof.
  unfold pe_pattern_here. intros H. apply andb_true_iff in H as [_ H].
  apply orb_true_iff in H as [H|H].
  - destruct (strip_prefix "PE" s prev) as [[last rest]|] eqn:E; [|discriminate].
    destruct (strip_prefix_spec _ _ _ _ _ E) as [-> ->].
    destruct (blanks_then_number_spec _ _ _ H) as (blanks & rest' & -> & Hb).
    exists ("PE" +:+ blanks), rest'.
    rewrite !string_append_assoc. split; [reflexivity|].
    rewrite last_char_app. exact Hb.
  - destruct (number_here_spec _ _ _ H) as (rest & Hs & Hb).
    exists "", rest. now rewrite !append_nil.
Qed.

Lemma pe_pattern_search_from_spec pe prev s :
  pe_pattern_search_from pe prev s = true ->
  exists before rest,
    s = before +:+ pe +:+ rest /\
    word_boundary (last_char prev (before +:+ pe)) rest = true.
Proof.
  revert prev. induction s as [|c s IH]; intros prev;
    cbn [pe_pattern_search_from].
  - rewrite orb_false_r. apply pe_pattern_here_spec.
  - intros H. apply orb_true_iff in H as [H|H];
      [now apply pe_pattern_here_spec|].
    destruct (IH _ H) as (before & rest & -> & Hb).
    exists (String c before), rest. now rewrite !append_cons.
Qed.

(** X13. A text matches the pattern of a program element number only when
    the number occurs in it literally, with its case, and the occurrence
    ends at a word boundary: what follows is not a word character when
    the occurrence ends in one, and conversely. *)
Theorem pe_pattern_search_sound (pe_number txt : string) :
  pe_pattern_search pe_number txt = true ->
  exists before rest,
    txt = before +:+ pe_number +:+ rest /\
    word_boundary (last_char None (before +:+ pe_number)) rest = true.
Proof. apply pe_pattern_search_from_spec. Qed.

Lemma pe_pattern_search_sound_witness :
  exists before rest,
    "Exhibit R-2 PE0604123X." = before +:+ "0604123X" +:+ rest /\
    word_boundary (last_char None (before +:+ "0604123X")) rest = true.
Proof.
  apply (pe_pattern_search_sound "0604123X" "Exhibit R-2 PE0604123X.").
  vm_compute. reflexivity.
Defined.

Lemma collected_pages pe pre pages :
  List.map (fun pid => nth pid (pre ++ pages)%list "")
    (find_pages_from (List.length pre) pages pe) =
  List.filter (selected pe) pages.
Proof.
  revert pre. induction pages as [|t pages IH]; intros pre; [reflexivity|].
  cbn [find_pages_from List.filter]. fold (selected pe t).
  specialize (IH (pre ++ [t])%list).
  rewrite List.length_app, Nat.add_1_r, <- List.app_assoc in IH.
  cbn [app] in IH.
  destruct (selected pe t); [|exact IH].
  cbn [List.map]. rewrite IH. f_equal. apply List.nth_middle.
Qed.

(** X14. The sections of a program element are carved from the texts of
    its selected pages only, joined in page order: the other pages of the
    document have no influence. When no page is selected, the four
    entries of the bundle are null. *)
Theorem sections_from_selected_pages (doc : list string) (pe_number : string) :
  extract_r2_sections_for_pdf doc pe_number =
    extract_r2_sections_for_pe (List.filter (selected pe_number) doc) /\
  (find_r2_pages_for_pe doc pe_number = [] ->
   extract_r2_sections_for_pdf doc pe_number =
   {| mission := None; accomplishments := None; acquisition := None;
      is_new_start := None |}).
Proof.
  split.
  - unfold extract_r2_sections_for_pdf, find_r2_pages_for_pe. cbv zeta.
    exact (f_equal extract_r2_sections_for_pe (collected_pages pe_number [] doc)).
  - unfold extract_r2_sections_for_pdf. cbv zeta. now intros ->.
Qed.

Lemma sections_from_selected_pages_witness :
  extract_r2_sections_for_pdf Scenario2.jbook "0999999Z" =
  {| mission := None; accomplishments := None; acquisition := None;
     is_new_start := None |}.
Proof.
  apply (sections_from_selected_pages Scenario2.jbook "0999999Z").
  vm_compute. reflexivity.
Defined.

End Pages.
(** *** The program elements of a run *)

Section UniquePes.
Import Pipeline R2Pages Shape.

Lemma ltb_lt a b : String.ltb a b = true <-> OrderedTypeEx.String_as_OT.lt a b.
Proof.
  rewrite <- OrderedTypeEx.String_as_OT.cmp_lt.
  unfold String.ltb, OrderedTypeEx.String_as_OT.cmp.
  destruct (String.compare a b); split; (reflexivity || discriminate).
Qed.

Lemma ltb_trans a b c :
  String.ltb a b = true -> String.ltb b c = true -> String.ltb a c = true.
Proof.
  rewrite !ltb_lt. apply OrderedTypeEx.String_as_OT.lt_trans.
Qed.

Lemma ltb_irrefl a : String.ltb a a = false.
Proof.
  destruct (String.ltb a a) eqn:E; [|reflexivity].
  apply ltb_lt in E. apply OrderedTypeEx.String_as_OT.lt_not_eq in E.
  now destruct E.
Qed.

Lemma ltb_connex a b :
  String.eqb a b = false -> String.ltb a b = false -> String.ltb b a = true.
Proof.
  unfold String.ltb. rewrite (String.compare_antisym b a).
  intros Hne. destruct (String.compare a b) eqn:E; try discriminate.
  - apply String.compare_eq_iff in E. apply String.eqb_neq in Hne. congruence.
  - reflexivity.
Qed.

Lemma insert_sorted_in x y l :
  In x (insert_sorted y l) <-> x = y \/ In x l.
Proof.
  induction l as [|z l IH]; cbn [insert_sorted In];
    [split; intros; intuition congruence|].
  destruct (String.eqb y z) eqn:E.
  - apply String.eqb_eq in E as ->. cbn [In].
    split; intros; intuition congruence.
  - destruct (String.ltb y z); cbn [In]; [split; intros; intuition congruence|].
    rewrite IH. split; intros; intuition congruence.
Qed.

Lemma insert_sorted_sorted x l :
  StronglySorted (fun a b => String.ltb a b = true) l ->
  StronglySorted (fun a b => String.ltb a b = true) (insert_sorted x l).
Proof.
  induction 1 as [|y l Hs IH Hy]; cbn [insert_sorted].
  - repeat constructor.
  - destruct (String.eqb x y) eqn:E; [now constructor|].
    destruct (String.ltb x y) eqn:Hlt.
    + constructor; [now constructor|]. constructor; [exact Hlt|].
      eapply List.Forall_impl; [|exact Hy]. intros z Hz.
      now apply (ltb_trans x y z).
    + constructor; [exact IH|]. rewrite List.Forall_forall. intros z Hz.
      apply insert_sorted_in in Hz as [->|Hz].
      * now apply ltb_connex.
      * rewrite List.Forall_forall in Hy. now apply Hy.
Qed.

Lemma sorted_nodup l :
  StronglySorted (fun a b => String.ltb a b = true) l -> NoDup l.
Proof.
  induction 1 as [|y l Hs IH Hy]; constructor; [|exact IH].
  intros Hin. apply list_elem_of_In in Hin. rewrite List.Forall_forall in Hy.
  specialize (Hy _ Hin). now rewrite ltb_irrefl in Hy.
Qed.

Lemma unique_pes_in rows pe :
  In pe (unique_pes rows) <->
  pe <> "" /\ exists r, In r rows /\ Py.strip (PENumber r) = pe.
Proof.
  unfold unique_pes.
  assert (H : forall l x, In x (fold_right insert_sorted [] l) <-> In x l).
  { induction l as [|y l IH]; intros x; [reflexivity|].
    cbn [fold_right]. rewrite insert_sorted_in, IH. cbn [In].
    split; intros; intuition congruence. }
  rewrite H, filter_In, in_map_iff. unfold pe_key. split.
  - intros [(r & <- & Hr) Ht]. split; [now apply truthy_true|]. now exists r.
  - intros [Hne (r & Hr & <-)]. split; [now exists r|].
    destruct (Py.strip (PENumber r)); [congruence|reflexivity].
Qed.

Lemma unique_pes_sorted rows :
  StronglySorted (fun a b => String.ltb a b = true) (unique_pes rows).
Proof.
  unfold unique_pes. induction (List.filter _ _) as [|y l IH]; [constructor|].
  cbn [fold_right]. now apply insert_sorted_sorted.
Qed.

(** X15. The program elements a run looks up are the trimmed, non-empty
    numbers of its rows, each once, in increasing order of the strings. *)
Theorem unique_pes_spec (r3_rows : list CostLineRecord) :
  StronglySorted (fun a b => String.ltb a b = true) (unique_pes r3_rows) /\
  NoDup (unique_pes r3_rows) /\
  forall pe,
    In pe (unique_pes r3_rows) <->
    pe <> "" /\ exists r, In r r3_rows /\ Py.strip (PENumber r) = pe.
Proof.
  split; [apply unique_pes_sorted|].
  split; [apply sorted_nodup, unique_pes_sorted|apply unique_pes_in].
Qed.

Lemma unique_pes_spec_witness :
  In "0602000D" (unique_pes Scenario2.rows_of_two) /\
  ~ In " 0602000D " (unique_pes Scenario2.rows_of_two).
Proof.
  destruct (unique_pes_spec Scenario2.rows_of_two) as (_ & _ & H). split.
  - apply H. split; [discriminate|]. exists Scenario.row_b.
    split; [left; reflexivity|vm_compute; reflexivity].
  - intros Hin. apply H in Hin as [_ (r & Hr & Hs)].
    assert (Ht : Py.strip (Py.strip (PENumber r)) = Py.strip " 0602000D ")
      by now rewrite Hs.
    rewrite strip_idem, Hs in Ht. vm_compute in Ht. discriminate.
Defined.

Lemma fold_insert_lookup (f : string -> bundle) l (m0 : gmap string bundle) k :
  fold_left (fun m pe => <[pe := f pe]> m) l m0 !! k =
  if existsb (String.eqb k) l then Some (f k) else m0 !! k.
Proof.
  revert m0. induction l as [|x l IH]; intros m0; [reflexivity|].
  cbn [fold_left existsb]. rewrite IH.
  destruct (existsb (String.eqb k) l); [now rewrite orb_true_r|].
  rewrite orb_false_r. destruct (String.eqb k x) eqn:E.
  - apply String.eqb_eq in E as ->. now rewrite lookup_insert_eq.
  - apply String.eqb_neq in E. now rewrite lookup_insert_ne.
Qed.

Lemma existsb_eqb_in k l : existsb (String.eqb k) l = true <-> In k l.
Proof.
  rewrite existsb_exists. split.
  - intros (x & Hx & E). now apply String.eqb_eq in E as ->.
  - intros H. exists k. split; [exact H|apply String.eqb_refl].
Qed.

Lemma build_r2_lookup_at doc rows pe :
  build_r2_lookup doc rows !! pe =
  if existsb (String.eqb pe) (unique_pes rows)
  then Some (extract_or_null doc pe) else None.
Proof.
  unfold build_r2_lookup. rewrite fold_insert_lookup.
  now rewrite lookup_empty.
Qed.

(** X16. The lookup of a single-PDF run has an entry for exactly the
    trimmed, non-empty program element numbers of the rows; the entry of a
    number is the bundle extracted for that number from the document, and
    the all-null bundle when the document cannot be opened. *)
Theorem build_r2_lookup_spec (doc : option (list string))
    (r3_rows : list CostLineRecord) :
  (forall r,
     In r r3_rows -> Py.strip (PENumber r) <> "" ->
     build_r2_lookup doc r3_rows !! Py.strip (PENumber r) =
     Some (match doc with
           | Some d => extract_r2_sections_for_pdf d (Py.strip (PENumber r))
           | None => {| mission := None; accomplishments := None;
                        acquisition := None; is_new_start := None |}
           end)) /\
  (forall pe,
     (forall r, In r r3_rows -> Py.strip (PENumber r) <> pe) ->
     build_r2_lookup doc r3_rows !! pe = None) /\
  build_r2_lookup doc r3_rows !! "" = None.
Proof.
  split; [|split].
  - intros r Hr Hne. rewrite build_r2_lookup_at.
    assert (Hin : In (Py.strip (PENumber r)) (unique_pes r3_rows))
      by (apply unique_pes_in; split; [exact Hne|now exists r]).
    apply existsb_eqb_in in Hin. rewrite Hin. now destruct doc.
  - intros pe Hpe. rewrite build_r2_lookup_at.
    destruct (existsb _ _) eqn:E; [|reflexivity].
    apply existsb_eqb_in, unique_pes_in in E as [_ (r & Hr & Hs)].
    now destruct (Hpe r Hr).
  - rewrite build_r2_lookup_at.
    destruct (existsb _ _) eqn:E; [|reflexivity].
    apply existsb_eqb_in, unique_pes_in in E as [Hne _]. congruence.
Qed.

Lemma build_r2_lookup_spec_witness :
  build_r2_lookup (Some Scenario2.jbook) Scenario2.rows_of_two !! "0604123X" =
    Some (extract_r2_sections_for_pdf Scenario2.jbook "0604123X") /\
  build_r2_lookup (Some Scenario2.jbook) Scenario2.rows_of_two !! "0999999Z" =
    None.
Proof.
  destruct (build_r2_lookup_spec (Some Scenario2.jbook) Scenario2.rows_of_two)
    as (H1 & H2 & _).
  split.
  - apply (H1 Scenario.row_a); [right; left; reflexivity|].
    vm_compute. discriminate.
  - apply H2. intros r Hr.
    repeat (destruct Hr as [<-|Hr]; [vm_compute; discriminate|]).
    destruct Hr.
Defined.

Lemma fuse_row_bundle_eq source l1 l2 flag row :
  default empty_bundle (l1 !! Py.strip (PENumber row)) =
  default empty_bundle (l2 !! Py.strip (PENumber row)) ->
  fuse_row source l1 flag row = fuse_row source l2 flag row.
Proof. intros H. unfold fuse_row. now rewrite H. Qed.

(** X17. In a single-PDF run every row is enriched with the bundle of its
    own program element, extracted from the document under the trimmed
    number of the row, and a row without number with no bundle; the
    source label is the base name of the PDF path. *)
Theorem pipeline_rows_get_own_bundle (pdf_path : string)
    (doc : option (list string)) (r3_rows : list CostLineRecord)
    (use_r1d_description : bool) :
  pdf_path <> "" ->
  run_pipeline_enriched (Some pdf_path) doc r3_rows false use_r1d_description =
  List.map
    (fun row =>
       fuse_row (basename pdf_path)
         (if Py.truthy (Py.strip (PENumber row))
          then {[ Py.strip (PENumber row) :=
                    extract_or_null doc (Py.strip (PENumber row)) ]}
          else ∅)
         use_r1d_description row)
    r3_rows.
Proof.
  intros Hp. unfold run_pipeline_enriched, path_given.
  assert (Ht : Py.truthy pdf_path = true)
    by (destruct pdf_path; [congruence|reflexivity]).
  rewrite Ht. cbn [negb andb]. rewrite fuse_r3_with_r2_map.
  apply List.map_ext_in. intros row Hrow. apply fuse_row_bundle_eq.
  rewrite build_r2_lookup_at.
  destruct (Py.truthy (Py.strip (PENumber row))) eqn:Hk.
  - assert (Hin : In (Py.strip (PENumber row)) (unique_pes r3_rows)).
    { apply unique_pes_in. split; [now apply truthy_true|now exists row]. }
    apply existsb_eqb_in in Hin. rewrite Hin. now rewrite lookup_singleton_eq.
  - destruct (existsb _ _) eqn:E; [|now rewrite lookup_empty].
    apply existsb_eqb_in, unique_pes_in in E as [Hne _].
    apply truthy_false in Hk. congruence.
Qed.

Lemma pipeline_rows_get_own_bundle_witness :
  run_pipeline_enriched (Some "in/jbook.pdf") (Some Scenario2.jbook)
    [Scenario.row_a] false false =
  [fuse_row "jbook.pdf"
     {[ "0604123X" := extract_r2_sections_for_pdf Scenario2.jbook "0604123X" ]}
     false Scenario.row_a].
Proof.
  apply (pipeline_rows_get_own_bundle "in/jbook.pdf" (Some Scenario2.jbook)
           [Scenario.row_a] false).
  discriminate.
Defined.

Lemma fuse_null_lookup source rows (l1 l2 : gmap string bundle) flag :
  (forall k b, l1 !! k = Some b -> b = empty_bundle) ->
  (forall k b, l2 !! k = Some b -> b = empty_bundle) ->
  fuse_r3_with_r2 source rows l1 flag = fuse_r3_with_r2 source rows l2 flag.
Proof.
  intros H1 H2. rewrite !fuse_r3_with_r2_map. apply List.map_ext.
  intros row. apply fuse_row_bundle_eq.
  destruct (l1 !! _) as [b1|] eqn:E1; destruct (l2 !! _) as [b2|] eqn:E2;
    cbn [default from_option id];
    try rewrite (H1 _ _ E1); try rewrite (H2 _ _ E2); reflexivity.
Qed.

(** X18. Without a usable PDF a run enriches nothing: a PDF that cannot be
    opened gives the same records as skipping the extraction, and a run
    without PDF path is labelled [excel_only] and uses the empty lookup
    whatever the skip flag. With the description fallback off, the four
    narrative fields of every record are then null. *)
Theorem pipeline_without_pdf (pdf_path : option string)
    (doc : option (list string)) (r3_rows : list CostLineRecord)
    (skip_r2 use_r1d_description : bool) :
  run_pipeline_enriched pdf_path None r3_rows skip_r2 use_r1d_description =
    run_pipeline_enriched pdf_path None r3_rows true use_r1d_description /\
  run_pipeline_enriched None doc r3_rows skip_r2 use_r1d_description =
    fuse_r3_with_r2 "excel_only" r3_rows ∅ use_r1d_description /\
  run_pipeline_enriched (Some "") doc r3_rows skip_r2 use_r1d_description =
    fuse_r3_with_r2 "excel_only" r3_rows ∅ use_r1d_description /\
  Forall
    (fun e =>
       AccomplishmentsText e = None /\ AcquisitionStrategyText e = None /\
       IsNewStart e = None /\ MissionDescriptionText e = None)
    (run_pipeline_enriched pdf_path doc r3_rows true false).
Proof.
  split; [|split; [|split]].
  - unfold run_pipeline_enriched. cbn [negb andb].
    destruct (negb skip_r2 && path_given pdf_path); [|reflexivity].
    apply fuse_null_lookup.
    + intros k b. rewrite build_r2_lookup_at.
      destruct (existsb _ _); [|discriminate]. now intros [= <-].
    + intros k b. now rewrite lookup_empty.
  - unfold run_pipeline_enriched. cbn [path_given]. now rewrite andb_false_r.
  - unfold run_pipeline_enriched. cbn [path_given Py.truthy].
    now rewrite andb_false_r.
  - unfold run_pipeline_enriched. cbn [negb andb].
    rewrite fuse_r3_with_r2_map, List.Forall_forall. intros e He.
    apply in_map_iff in He as (row & <- & _). unfold fuse_row.
    rewrite lookup_empty. cbn. repeat split; reflexivity.
Qed.

End UniquePes.
(** *** Batch runs *)

Section Batch.
Import Pipeline R2Pages.

Lemma uniq_from_in seen files f :
  In f (uniq_from seen files) <-> In f files /\ f ∉ seen.
Proof.
  revert seen. induction files as [|x files IH]; intros seen.
  - cbn. tauto.
  - cbn [uniq_from]. destruct (decide (x ∈ seen)) as [Hx|Hx].
    + rewrite IH. cbn [In]. split; [tauto|].
      intros [[->|H] Hf]; [contradiction|tauto].
    + cbn [In]. rewrite IH. split.
      * intros [->|[H Hf]]; [tauto|]. split; [tauto|set_solver].
      * intros [[->|H] Hf]; [now left|].
        destruct (decide (f = x)) as [->|Hne]; [now left|].
        right. split; [exact H|set_solver].
Qed.

Lemma uniq_from_nodup seen files : List.NoDup (uniq_from seen files).
Proof.
  revert seen. induction files as [|x files IH]; intros seen; [constructor|].
  cbn [uniq_from]. destruct (decide (x ∈ seen)); [apply IH|].
  constructor; [|apply IH]. rewrite uniq_from_in. set_solver.
Qed.

Lemma uniq_from_fixed seen files :
  List.NoDup files -> (forall f, In f files -> f ∉ seen) ->
  uniq_from seen files = files.
Proof.
  intros H. revert seen. induction H as [|x files Hx _ IH]; intros seen Hs;
    [reflexivity|].
  cbn [uniq_from]. destruct (decide (x ∈ seen)) as [Hin|_].
  - destruct (Hs x (or_introl eq_refl) Hin).
  - f_equal. apply IH. intros f Hf.
    assert (f <> x) by (intros ->; contradiction).
    specialize (Hs f (or_intror Hf)). set_solver.
Qed.

Lemma uniq_from_sublist seen files : sublist (uniq_from seen files) files.
Proof.
  revert seen. induction files as [|x files IH]; intros seen; [constructor|].
  cbn [uniq_from]. destruct (decide (x ∈ seen)).
  - apply sublist_cons, IH.
  - apply sublist_skip, IH.
Qed.

Lemma uniq_from_insert x (seen : gset string) files :
  uniq_from ({[x]} ∪ seen) files =
  List.filter (fun y => negb (String.eqb y x)) (uniq_from seen files).
Proof.
  revert seen. induction files as [|y files IH]; intros seen; [reflexivity|].
  cbn [uniq_from]. destruct (decide (y ∈ seen)) as [Hy|Hy].
  - rewrite decide_True by set_solver. apply IH.
  - cbn [List.filter]. destruct (String.eqb_spec y x) as [->|Hne]; cbn [negb].
    + rewrite decide_True by set_solver. rewrite <- IH. f_equal. set_solver.
    + rewrite decide_False by set_solver. f_equal. rewrite <- IH.
      f_equal. set_solver.
Qed.

(** X19. The deduplication of [_gather_files] keeps the first occurrence
    of every file and drops the later ones: the first file of the raw list
    stays first and the rest is the deduplicated rest without it, which
    fixes the result on every list. So the result has no duplicates and
    the same files as the raw list, it is a subsequence of the raw list, a
    list without duplicates is returned unchanged, and removing duplicates
    twice changes nothing more. *)
Theorem uniq_spec (files : list string) :
  uniq [] = [] /\
  (forall f,
     uniq (f :: files) =
     f :: List.filter (fun g => negb (String.eqb g f)) (uniq files)) /\
  List.NoDup (uniq files) /\
  (forall f, In f (uniq files) <-> In f files) /\
  sublist (uniq files) files /\
  (List.NoDup files -> uniq files = files) /\
  uniq (uniq files) = uniq files.
Proof.
  unfold uniq. split; [reflexivity|]. split.
  - intros f. cbn [uniq_from]. rewrite decide_False by set_solver.
    f_equal. now rewrite <- uniq_from_insert.
  - split; [apply uniq_from_nodup|]. split.
    + intros f. rewrite uniq_from_in. set_solver.
    + split; [apply uniq_from_sublist|]. split.
      * intros H. apply uniq_from_fixed; [exact H|set_solver].
      * apply uniq_from_fixed; [apply uniq_from_nodup|set_solver].
Qed.

Lemma uniq_spec_witness :
  uniq ["a.xlsx"; "b.xml"] = ["a.xlsx"; "b.xml"] /\
  (In "b.xml" (uniq ["b.xml"; "a.xlsx"; "b.xml"]) <->
   In "b.xml" ["b.xml"; "a.xlsx"; "b.xml"]).
Proof.
  split.
  - destruct (uniq_spec ["a.xlsx"; "b.xml"]) as (_ & _ & _ & _ & _ & H & _).
    apply H. repeat constructor; cbn; intuition discriminate.
  - destruct (uniq_spec ["b.xml"; "a.xlsx"; "b.xml"]) as (_ & _ & _ & H & _).
    apply H.
Defined.

Lemma has_pages_opened pdf pe :
  has_pages pdf pe = true -> exists d, pdf = Some d.
Proof. destruct pdf as [d|]; [now exists d|discriminate]. Qed.

(** The inner loop, over any list of identifiers. *)
Lemma scan_list_spec pdf l (lk : gmap string bundle) (un : gset string) :
  let st :=
    fold_left
      (fun '(r2_lookup, unresolved) pe =>
         match pages_in pdf pe with
         | [] => (r2_lookup, unresolved)
         | _ :: _ =>
             (<[pe := extract_or_null pdf pe]> r2_lookup, unresolved ∖ {[pe]})
         end)
      l (lk, un) in
  forall pe,
    st.1 !! pe =
      (if existsb (String.eqb pe) l && has_pages pdf pe
       then Some (extract_or_null pdf pe) else lk !! pe) /\
    (pe ∈ st.2 <->
     pe ∈ un /\ existsb (String.eqb pe) l && has_pages pdf pe = false).
Proof.
  revert lk un. induction l as [|x l IH]; intros lk un st pe.
  - subst st. cbn. split; [reflexivity|tauto].
  - subst st. cbn [fold_left existsb].
    destruct (pages_in pdf x) as [|p ps] eqn:Hx.
    + destruct (IH lk un pe) as [H1 H2]. rewrite H1, H2.
      destruct (String.eqb pe x) eqn:E; [|now rewrite !orb_false_l].
      apply String.eqb_eq in E as ->.
      assert (Hp : has_pages pdf x = false) by (unfold has_pages; now rewrite Hx).
      rewrite Hp, !andb_false_r. split; (reflexivity || tauto).
    + destruct (IH (<[x := extract_or_null pdf x]> lk) (un ∖ {[x]}) pe)
        as [H1 H2].
      rewrite H1, H2. destruct (String.eqb pe x) eqn:E.
      * apply String.eqb_eq in E as ->. cbn [orb].
        assert (Hp : has_pages pdf x = true) by (unfold has_pages; now rewrite Hx).
        rewrite Hp, !andb_true_r, lookup_insert_eq. split.
        -- now destruct (existsb (String.eqb x) l).
        -- split; [set_solver|]. intros [_ Hf]. discriminate.
      * apply String.eqb_neq in E. rewrite !orb_false_l.
        rewrite lookup_insert_ne by congruence. split; [reflexivity|].
        set_solver.
Qed.

Lemma existsb_elements pe (un : gset string) :
  existsb (String.eqb pe) (elements un) = bool_decide (pe ∈ un).
Proof.
  destruct (existsb _ _) eqn:E.
  - apply existsb_eqb_in, list_elem_of_In, elem_of_elements in E.
    now rewrite bool_decide_eq_true_2.
  - destruct (bool_decide (pe ∈ un)) eqn:B; [|reflexivity].
    apply bool_decide_eq_true_1, elem_of_elements, list_elem_of_In,
      existsb_eqb_in in B. congruence.
Qed.

Lemma scan_pdf_spec pdf (lk : gmap string bundle) (un : gset string) pe :
  (scan_pdf pdf (lk, un)).1 !! pe =
    (if bool_decide (pe ∈ un) && has_pages pdf pe
     then Some (extract_or_null pdf pe) else lk !! pe) /\
  (pe ∈ (scan_pdf pdf (lk, un)).2 <-> pe ∈ un /\ has_pages pdf pe = false).
Proof.
  unfold scan_pdf. cbn [snd].
  destruct (scan_list_spec pdf (elements un) lk un pe) as [H1 H2].
  rewrite existsb_elements in H1, H2. split; [exact H1|].
  rewrite H2. split.
  - intros [Hin Hf]. split; [exact Hin|].
    now rewrite bool_decide_eq_true_2 in Hf.
  - intros [Hin Hf]. split; [exact Hin|]. now rewrite Hf, andb_false_r.
Qed.

Lemma first_pdf_cons pdf pdfs pe :
  first_pdf_with_pages (pdf :: pdfs) pe =
  if has_pages pdf pe then Some pdf else first_pdf_with_pages pdfs pe.
Proof. reflexivity. Qed.

Lemma scan_pdfs_spec pdfs (lk : gmap string bundle) (un : gset string) pe :
  (scan_pdfs pdfs (lk, un)).1 !! pe =
    (if bool_decide (pe ∈ un)
     then match first_pdf_with_pages pdfs pe with
          | Some pdf => Some (extract_or_null pdf pe)
          | None => lk !! pe
          end
     else lk !! pe) /\
  (pe ∈ (scan_pdfs pdfs (lk, un)).2 <->
   pe ∈ un /\ first_pdf_with_pages pdfs pe = None).
Proof.
  revert lk un. induction pdfs as [|pdf pdfs IH]; intros lk un.
  - cbn. split; [now destruct (bool_decide _)|tauto].
  - cbn [scan_pdfs]. rewrite first_pdf_cons.
    destruct (scan_pdf_spec pdf lk un pe) as [H1 H2].
    destruct (scan_pdf pdf (lk, un)) as [lk1 un1] eqn:Hst.
    cbn [fst snd] in H1, H2. cbv zeta.
    assert (Hun1 : bool_decide (pe ∈ un1) =
                   bool_decide (pe ∈ un) && negb (has_pages pdf pe)).
    { destruct (bool_decide (pe ∈ un)) eqn:B.
      - apply bool_decide_eq_true_1 in B.
        destruct (has_pages pdf pe); cbn [andb negb].
        + apply bool_decide_eq_false_2. rewrite H2. intros [_ ?]. discriminate.
        + apply bool_decide_eq_true_2. now apply H2.
      - apply bool_decide_eq_false_1 in B. cbn [andb].
        apply bool_decide_eq_false_2. rewrite H2. tauto. }
    destruct (decide ((lk1, un1).2 = ∅)) as [He|Hne].
    + cbn [fst snd] in *. subst un1.
      rewrite bool_decide_eq_false_2 in Hun1 by set_solver.
      rewrite H1. destruct (bool_decide (pe ∈ un)) eqn:B.
      * destruct (has_pages pdf pe); [|discriminate]. cbn [andb].
        split; [reflexivity|]. split; [set_solver|]. intros [_ ?]. discriminate.
      * apply bool_decide_eq_false_1 in B. cbn [andb].
        split; [reflexivity|]. split; [set_solver|tauto].
    + destruct (IH lk1 un1) as [I1 I2]. rewrite I1, I2, Hun1, H1, H2.
      destruct (bool_decide (pe ∈ un)), (has_pages pdf pe); cbn [andb negb];
        (split; [reflexivity|]); try tauto;
        (split; [intros [[_ ?] _]; discriminate|intros [_ ?]; discriminate]).
Qed.

(** X20. In a batch run the first PDF of the list that has pages for a
    program element provides its bundle, whatever the later PDFs hold and
    in whatever order the identifiers are visited; an element no PDF has
    pages for gets no entry and stays unresolved, and so does no string
    that is not a program element of the rows. *)
Theorem batch_first_pdf_wins (pdf_files : list (option (list string)))
    (r3_rows : list CostLineRecord) (pe : string) :
  pdf_files <> [] ->
  let st := batch_r2_lookup pdf_files r3_rows false in
  (In pe (unique_pes r3_rows) ->
   match first_pdf_with_pages pdf_files pe with
   | Some pdf =>
       exists d, pdf = Some d /\
         st.1 !! pe = Some (extract_r2_sections_for_pdf d pe) /\ pe ∉ st.2
   | None => st.1 !! pe = None /\ pe ∈ st.2
   end) /\
  (~ In pe (unique_pes r3_rows) -> st.1 !! pe = None /\ pe ∉ st.2).
Proof.
  intros Hne st. subst st. unfold batch_r2_lookup.
  destruct pdf_files as [|pdf pdfs]; [congruence|].
  destruct (scan_pdfs_spec (pdf :: pdfs) ∅
              (list_to_set (unique_pes r3_rows)) pe) as [H1 H2].
  rewrite lookup_empty in H1.
  assert (Hin : pe ∈ (list_to_set (unique_pes r3_rows) : gset string) <->
                In pe (unique_pes r3_rows))
    by (rewrite elem_of_list_to_set; apply list_elem_of_In).
  split.
  - intros Hpe. rewrite bool_decide_eq_true_2 in H1 by now apply Hin.
    destruct (first_pdf_with_pages (pdf :: pdfs) pe) as [pdf0|] eqn:Hf.
    + apply List.find_some in Hf as [_ Hp].
      destruct (has_pages_opened _ _ Hp) as [d ->]. exists d.
      split; [reflexivity|]. split; [exact H1|].
      intros Hc. apply H2 in Hc as [_ Hc]. discriminate.
    + split; [exact H1|]. apply H2. split; [now apply Hin|reflexivity].
  - intros Hpe. rewrite bool_decide_eq_false_2 in H1 by now rewrite Hin.
    split; [exact H1|]. intros Hc. apply H2 in Hc as [Hc _].
    now apply Hin in Hc.
Qed.

Lemma batch_first_pdf_wins_witness :
  (batch_r2_lookup [None; Some Scenario2.jbook; Some []]
     Scenario2.rows_of_two false).1 !! "0604123X" =
    Some (extract_r2_sections_for_pdf Scenario2.jbook "0604123X") /\
  "0602000D" ∈ (batch_r2_lookup [None; Some Scenario2.jbook; Some []]
                  Scenario2.rows_of_two false).2.
Proof.
  split.
  - destruct (batch_first_pdf_wins [None; Some Scenario2.jbook; Some []]
                Scenario2.rows_of_two "0604123X") as [H _]; [discriminate|].
    assert (Hin : In "0604123X" (unique_pes Scenario2.rows_of_two))
      by (vm_compute; tauto).
    specialize (H Hin).
    change (first_pdf_with_pages [None; Some Scenario2.jbook; Some []] "0604123X")
      with (Some (Some Scenario2.jbook)) in H.
    destruct H as (d & [= <-] & H & _). exact H.
  - destruct (batch_first_pdf_wins [None; Some Scenario2.jbook; Some []]
                Scenario2.rows_of_two "0602000D") as [H _]; [discriminate|].
    assert (Hin : In "0602000D" (unique_pes Scenario2.rows_of_two))
      by (vm_compute; tauto).
    specialize (H Hin).
    change (first_pdf_with_pages [None; Some Scenario2.jbook; Some []] "0602000D")
      with (@None (option (list string))) in H.
    apply H.
Defined.

End Batch.
(** *** The corpus and the rule-based tags *)

Section Tags.
Import Tagging.

Lemma take_length n s :
  String.length (Py.take n s) = Nat.min n (String.length s).
Proof.
  revert s. induction n as [|n IH]; intros s; [reflexivity|].
  destruct s as [|c s]; [reflexivity|]. cbn. now rewrite IH.
Qed.

Lemma slice_to_length n s :
  (0 <= n)%Z ->
  String.length (slice_to n s) = Nat.min (Z.to_nat n) (String.length s).
Proof.
  intros H. unfold slice_to. destruct (Z.ltb_spec n 0); [lia|].
  apply take_length.
Qed.

Lemma join_nil_parts max_length l :
  Forall (fun pr => Py.strip (_to_text pr) = "") l ->
  flat_map (corpus_part max_length) l = [].
Proof.
  induction 1 as [|pr l Hpr _ IH]; [reflexivity|].
  cbn [flat_map]. unfold corpus_part at 1. rewrite Hpr. exact IH.
Qed.

Lemma blank_row_corpus row max_length :
  (0 <= max_length)%Z ->
  Py.strip (_to_text (AccomplishmentsText row)) = "" ->
  Py.strip (_to_text (AcquisitionStrategyText row)) = "" ->
  Py.strip (_to_text (MissionDescriptionText row)) = "" ->
  build_corpus row max_length = "".
Proof.
  intros Hmax H1 H2 H3. unfold build_corpus. cbv zeta.
  rewrite (join_nil_parts max_length) by (repeat constructor; assumption).
  cbn [Py.join String.length].
  destruct (Z.ltb_spec max_length (Z.of_nat 0)); [lia|reflexivity].
Qed.

(** X21. For a non-negative bound the corpus of a row is never longer than
    the bound plus the 15 characters of the truncation mark, whatever the
    lengths of the three narratives; and a row whose three narratives are
    missing or blank has the empty corpus. *)
Theorem build_corpus_bounded (row : tag_row) (max_length : Z) :
  (0 <= max_length)%Z ->
  (Z.of_nat (String.length (build_corpus row max_length)) <= max_length + 15)%Z
  /\ (Py.strip (_to_text (AccomplishmentsText row)) = "" ->
      Py.strip (_to_text (AcquisitionStrategyText row)) = "" ->
      Py.strip (_to_text (MissionDescriptionText row)) = "" ->
      build_corpus row max_length = "").
Proof.
  intros Hmax. split; [|now apply blank_row_corpus].
  unfold build_corpus. cbv zeta.
  destruct (Z.ltb_spec max_length
              (Z.of_nat (String.length
                 (Py.join paragraph_break
                    (flat_map (corpus_part max_length)
                       [AccomplishmentsText row; AcquisitionStrategyText row;
                        MissionDescriptionText row]))))) as [Hlt|Hle].
  - rewrite append_length, (slice_to_length _ _ Hmax).
    change (String.length truncated_mark) with 15%nat. lia.
  - lia.
Qed.

Lemma build_corpus_bounded_witness :
  (Z.of_nat (String.length (build_corpus Scenario2.radar_row 9)) <= 9 + 15)%Z.
Proof.
  apply (build_corpus_bounded Scenario2.radar_row 9). lia.
Defined.

Lemma keyword_step_eq c a b k :
  keyword_step c (a, b) k =
  (if keyword_hit c k then S a else a, if keyword_primary c k then S b else b).
Proof.
  unfold keyword_step, keyword_primary, keyword_hit. cbv zeta. cbn [fst snd].
  destruct (Py.truthy (keyword_norm k)); [|reflexivity].
  destruct (Py.contains (keyword_norm k) c); [|reflexivity].
  now destruct (existsb _ _).
Qed.

Lemma keyword_step_counts c kws a b :
  (1 <=? (fold_left (keyword_step c) kws (a, b)).1)%nat =
    (1 <=? a)%nat || existsb (keyword_hit c) kws /\
  (1 <=? (fold_left (keyword_step c) kws (a, b)).2)%nat =
    (1 <=? b)%nat || existsb (keyword_primary c) kws.
Proof.
  revert a b. induction kws as [|k kws IH]; intros a b.
  - cbn. now rewrite !orb_false_r.
  - cbn [fold_left existsb]. rewrite keyword_step_eq.
    destruct (IH (if keyword_hit c k then S a else a)
                 (if keyword_primary c k then S b else b)) as [H1 H2].
    rewrite H1, H2.
    destruct (keyword_hit c k), (keyword_primary c k); cbn [Nat.leb orb];
      rewrite ?orb_true_r; split; reflexivity.
Qed.

Lemma rule_based_relevance_occ corpus keywords :
  _rule_based_relevance corpus keywords =
  if existsb (keyword_primary (Py.lower corpus)) keywords
  then ("High", "Primary focus phrases matched")
  else if existsb (keyword_hit (Py.lower corpus)) keywords
  then ("Medium", "Keyword mentioned in context")
  else ("Low", "No direct keyword match").
Proof.
  unfold _rule_based_relevance. cbv zeta.
  destruct (keyword_step_counts (Py.lower corpus) keywords 0 0) as [H1 H2].
  destruct (fold_left _ _ _) as [k_hits primary_hits]. cbn [fst snd] in H1, H2.
  rewrite H1, H2. reflexivity.
Qed.

(** X22. The rule-based tag does not depend on the counts but on what
    occurs: it is High when some non-empty keyword occurs in the corpus,
    case ignored, together with one of its focus phrases, else Medium when
    some non-empty keyword occurs, else Low. *)
Theorem rule_based_relevance_by_occurrence (corpus : string)
    (keywords : list string) :
  _rule_based_relevance corpus keywords =
  if existsb (keyword_primary (Py.lower corpus)) keywords
  then ("High", "Primary focus phrases matched")
  else if existsb (keyword_hit (Py.lower corpus)) keywords
  then ("Medium", "Keyword mentioned in context")
  else ("Low", "No direct keyword match").
Proof. apply rule_based_relevance_occ. Qed.

Lemma lower_char_upper_char c :
  Py.lower_char (Py.upper_char c) = Py.lower_char c.
Proof. destruct c as [[] [] [] [] [] [] [] []]; reflexivity. Qed.

Lemma lower_upper s : Py.lower (Py.upper s) = Py.lower s.
Proof.
  induction s as [|c s IH]; [reflexivity|].
  cbn [Py.upper Py.lower]. now rewrite lower_char_upper_char, IH.
Qed.

Lemma existsb_perm {A} (f : A -> bool) l l' :
  Permutation l l' -> existsb f l = existsb f l'.
Proof.
  induction 1 as [|x l l' _ IH|x y l|l l' l'' _ IH1 _ IH2]; cbn [existsb].
  - reflexivity.
  - now rewrite IH.
  - now rewrite !orb_assoc, (orb_comm (f y)).
  - congruence.
Qed.

Lemma contains_empty k : k <> "" -> Py.contains k "" = false.
Proof. destruct k; [congruence|reflexivity]. Qed.

Lemma empty_corpus_low keywords :
  _rule_based_relevance "" keywords = ("Low", "No direct keyword match").
Proof.
  rewrite rule_based_relevance_occ.
  assert (Hh : existsb (keyword_hit (Py.lower "")) keywords = false).
  { induction keywords as [|k l IH]; [reflexivity|].
    cbn [existsb]. rewrite IH, orb_false_r. unfold keyword_hit.
    destruct (keyword_norm k) eqn:E; [reflexivity|].
    cbn [Py.truthy andb]. now apply contains_empty. }
  assert (Hp : existsb (keyword_primary (Py.lower "")) keywords = false).
  { clear -Hh. induction keywords as [|k l IH]; [reflexivity|].
    cbn [existsb] in *. apply orb_false_iff in Hh as [Hk Hl].
    rewrite (IH Hl), orb_false_r. unfold keyword_primary. now rewrite Hk. }
  now rewrite Hp, Hh.
Qed.

(** X23. The rule-based tag ignores the order of the keywords and the case
    of the corpus and of the keywords; an empty corpus is tagged Low
    whatever the keywords; and with more keywords the tag is Low only if
    it was Low for each part of the list. *)
Theorem rule_based_relevance_invariant (corpus : string)
    (keywords keywords' : list string) :
  (Permutation keywords keywords' ->
   _rule_based_relevance corpus keywords =
   _rule_based_relevance corpus keywords') /\
  _rule_based_relevance (Py.upper corpus) keywords =
    _rule_based_relevance corpus keywords /\
  _rule_based_relevance corpus (List.map Py.upper keywords) =
    _rule_based_relevance corpus keywords /\
  _rule_based_relevance "" keywords = ("Low", "No direct keyword match") /\
  ((_rule_based_relevance corpus (keywords ++ keywords')).1 = "Low" <->
   (_rule_based_relevance corpus keywords).1 = "Low" /\
   (_rule_based_relevance corpus keywords').1 = "Low").
Proof.
  split; [|split; [|split; [|split; [apply empty_corpus_low|]]]];
    rewrite !rule_based_relevance_occ.
  - intros Hp.
    now rewrite (existsb_perm _ _ _ Hp),
      (existsb_perm (keyword_hit (Py.lower corpus)) _ _ Hp).
  - now rewrite lower_upper.
  - assert (Hm : forall (f : string -> bool) l,
              existsb f (List.map Py.upper l) =
              existsb (fun k => f (Py.upper k)) l).
    { intros f l. induction l as [|k l IH]; [reflexivity|].
      cbn [List.map existsb]. now rewrite IH. }
    rewrite !Hm.
    assert (Hn : forall k, keyword_norm (Py.upper k) = keyword_norm k)
      by (intros k; unfold keyword_norm; now rewrite lower_upper).
    assert (Hh : forall k, keyword_hit (Py.lower corpus) (Py.upper k) =
                           keyword_hit (Py.lower corpus) k)
      by (intros k; unfold keyword_hit; now rewrite Hn).
    assert (Hp : forall k, keyword_primary (Py.lower corpus) (Py.upper k) =
                           keyword_primary (Py.lower corpus) k)
      by (intros k; unfold keyword_primary; now rewrite Hh, Hn).
    assert (He : forall (f g : string -> bool) l,
              (forall k, f k = g k) -> existsb f l = existsb g l).
    { intros f g l Hfg. induction l as [|k l IH]; [reflexivity|].
      cbn [existsb]. now rewrite Hfg, IH. }
    rewrite (He _ _ keywords Hh), (He _ _ keywords Hp). reflexivity.
  - rewrite !List.existsb_app.
    assert (Hi : forall l, existsb (keyword_primary (Py.lower corpus)) l = true ->
                           existsb (keyword_hit (Py.lower corpus)) l = true).
    { intros l. rewrite !existsb_exists. intros (k & Hk & H). exists k.
      split; [exact Hk|]. unfold keyword_primary in H.
      now apply andb_true_iff in H as [H _]. }
    pose proof (Hi keywords) as Ha. pose proof (Hi keywords') as Hb.
    destruct (existsb (keyword_primary _) keywords),
      (existsb (keyword_primary _) keywords'),
      (existsb (keyword_hit _) keywords), (existsb (keyword_hit _) keywords');
      cbn [orb fst]; split; intros; intuition discriminate.
Qed.

Lemma rule_based_relevance_invariant_witness :
  _rule_based_relevance "Developing radar arrays" ["lidar"; "Radar "] =
  _rule_based_relevance "Developing radar arrays" ["Radar "; "lidar"].
Proof.
  destruct (rule_based_relevance_invariant "Developing radar arrays"
              ["lidar"; "Radar "] ["Radar "; "lidar"]) as [H _].
  apply H. apply perm_swap.
Defined.

(** X24. Without a provider the batch tagger returns one tag per row, in
    the order of the rows: the rule-based tag of the corpus of the row
    under the default bound. Every label is High, Medium or Low, and a row
    without narrative text is tagged Low. *)
Theorem tag_relevance_batch_rule_based (rows : list tag_row)
    (keywords : list string) :
  tag_relevance_batch rows keywords =
    List.map (fun row => _rule_based_relevance (build_corpus row 8000) keywords)
      rows /\
  List.length (tag_relevance_batch rows keywords) = List.length rows /\
  Forall (fun t => In t.1 ["High"; "Medium"; "Low"])
    (tag_relevance_batch rows keywords) /\
  tag_relevance_batch
    [{| AccomplishmentsText := TNone; AcquisitionStrategyText := TNaN;
        MissionDescriptionText := TText "  " |}] keywords =
    [("Low", "No direct keyword match")].
Proof.
  assert (Hmap : forall l,
            tag_relevance_batch l keywords =
            List.map (fun row => _rule_based_relevance (build_corpus row 8000)
                                   keywords) l).
  { intros l. unfold tag_relevance_batch.
    exact (fold_left_snoc_map _ l []). }
  split; [apply Hmap|]. split; [now rewrite Hmap, List.length_map|]. split.
  - rewrite Hmap, List.Forall_forall. intros t Ht.
    apply in_map_iff in Ht as (row & <- & _).
    rewrite rule_based_relevance_occ.
    destruct (existsb _ _); [cbn; tauto|].
    destruct (existsb _ _); cbn; tauto.
  - rewrite Hmap. cbn [List.map]. f_equal.
    rewrite blank_row_corpus by (reflexivity || lia).
    apply empty_corpus_low.
Qed.

End Tags.
(** *** When a batch raises *)

Section BatchRaises.
Import Outcome XmlR3Parser Shape.

Lemma find_header_row_raises sh bound :
  bound <> 0%nat ->
  (_find_header_row sh bound = Raises <-> empty_first_cell_before_header sh bound).
Proof.
  intros Hb. unfold _find_header_row, empty_first_cell_before_header.
  assert (Hl : forall j x,
            searched_rows sh bound !! j = Some x <->
            (j < bound)%nat /\ sh !! j = Some x).
  { intros j x. rewrite searched_rows_lookup.
    destruct (Nat.eqb_spec bound 0) as [E|_]; [contradiction|]. cbn [orb].
    destruct (Nat.ltb_spec j bound); split;
      [intros H'; now split|now intros [_ H']|discriminate|intros [? _]; lia]. }
  pose proof (find_header_from_spec 1 (searched_rows sh bound)) as H.
  destruct (find_header_from 1 (searched_rows sh bound)) as [[r|]|].
  - split; [discriminate|]. intros (i & row & Hi & Hrow & Hraise & Hmin).
    destruct H as (Hr & (hrow & Hh & Hhh) & Hfirst).
    apply Hl in Hh as [Hrb Hh].
    destruct (Nat.lt_ge_cases (r - 1) i) as [Hlt|Hge].
    + destruct (Hmin _ _ Hlt Hh) as [_ Hno]. congruence.
    + destruct (Hfirst i row Hge (proj2 (Hl i row) (conj Hi Hrow))) as [Hno _].
      congruence.
  - split; [discriminate|]. intros (i & row & Hi & Hrow & Hraise & _).
    destruct (H i row (proj2 (Hl i row) (conj Hi Hrow))) as [Hno _]. congruence.
  - split; [|reflexivity]. intros _.
    destruct H as (i & row & Hrow & Hraise & Hmin).
    apply Hl in Hrow as [Hi Hrow]. exists i, row.
    split; [exact Hi|]. split; [exact Hrow|]. split; [exact Hraise|].
    intros j r Hj Hr. apply (Hmin j r Hj). apply Hl. split; [lia|exact Hr].
Qed.

Lemma parse_sheet_raises sh :
  parse_sheet sh = Raises <-> _find_header_row sh 50 = Raises.
Proof.
  unfold parse_sheet. destruct (_find_header_row sh 50); cbn; split;
    (discriminate || reflexivity).
Qed.

Lemma parse_path_raises fs path :
  parse_path fs path = Raises <->
  exists f ws sh,
    fs !! path = Some f /\ reads_workbook path f = true /\
    workbook f = Some ws /\ In sh ws /\ _find_header_row sh 50 = Raises.
Proof.
  assert (Hx : forall f,
            _parse_xlsx_file (workbook f) = Raises <->
            exists ws sh, workbook f = Some ws /\ In sh ws /\
                          _find_header_row sh 50 = Raises).
  { intros f. unfold _parse_xlsx_file. destruct (workbook f) as [ws|].
    - rewrite extend_all_raises. split.
      + intros (sh & Hin & Hr). exists ws, sh.
        split; [reflexivity|]. split; [exact Hin|]. now apply parse_sheet_raises.
      + intros (ws' & sh & [= <-] & Hin & Hr). exists sh.
        split; [exact Hin|]. now apply parse_sheet_raises.
    - split; [discriminate|]. now intros (ws & sh & [=] & _). }
  unfold parse_path, reads_workbook. destruct (fs !! path) as [f|].
  - cbv zeta.
    destruct (Fusion.in_list (extension path) xml_extensions); cbn [negb andb].
    + split; [discriminate|]. now intros (f' & ws & sh & _ & [=] & _).
    + destruct (Fusion.in_list (extension path) xlsx_extensions); cbn [orb].
      * rewrite Hx. split.
        -- intros (ws & sh & H). exists f, ws, sh. now split.
        -- intros (f' & ws & sh & [= <-] & _ & H). now exists ws, sh.
      * destruct (_parse_xml_file (xml_tree f)) as [|rec parsed] eqn:Ex.
        -- rewrite Hx. split.
           ++ intros (ws & sh & H). exists f, ws, sh. rewrite Ex. now split.
           ++ intros (f' & ws & sh & [= <-] & _ & H). now exists ws, sh.
        -- split; [discriminate|].
           intros (f' & ws & sh & [= <-] & Hw & _). rewrite Ex in Hw.
           discriminate.
  - split; [discriminate|]. now intros (f & ws & sh & [=] & _).
Qed.

(** X25. On files whose workbooks, once open, yield the rows of their
    worksheets, [parse_r3_projects] raises exactly when one of its paths is
    a file that reaches the workbook reader, opens as a workbook, and has a
    worksheet in which, within the 50 rows searched for a header, a row
    whose first cell is empty comes before any header row. In every other
    case it returns the records of its paths, concatenated in path
    order. *)
Theorem batch_raises_exactly (fs : gmap string file) (paths : list string) :
  (parse_r3_projects fs paths = Raises <->
   exists path f ws sh,
     In path paths /\ fs !! path = Some f /\ reads_workbook path f = true /\
     workbook f = Some ws /\ In sh ws /\
     empty_first_cell_before_header sh 50) /\
  (parse_r3_projects fs paths <> Raises ->
   parse_r3_projects fs paths = Returns (flat_map (rows_of_path fs) paths)).
Proof.
  split.
  - unfold parse_r3_projects. rewrite extend_all_raises. split.
    + intros (path & Hin & Hr).
      apply parse_path_raises in Hr as (f & ws & sh & Hf & Hw & Hws & Hsh & Hr).
      exists path, f, ws, sh. repeat (split; [assumption|]).
      now apply find_header_row_raises.
    + intros (path & f & ws & sh & Hin & Hf & Hw & Hws & Hsh & Hr).
      exists path. split; [exact Hin|]. apply parse_path_raises.
      exists f, ws, sh. repeat (split; [assumption|]).
      now apply find_header_row_raises.
  - intros Hno. unfold parse_r3_projects in *. apply extend_all_returns.
    intros path Hin. unfold rows_of_path.
    destruct (parse_path fs path) as [rows|] eqn:E; [reflexivity|].
    exfalso. apply Hno. apply extend_all_raises. now exists path.
Qed.

Lemma batch_raises_exactly_witness :
  parse_r3_projects Scenario.abort_fs ["a.xml"; "b.xlsx"; "c.xlsx"] = Raises /\
  parse_r3_projects Scenario.abort_fs ["a.xml"; "broken.xlsx"; "c.xlsx"] =
    Returns [Scenario.record_a; Scenario.record_c].
Proof.
  destruct (batch_raises_exactly Scenario.abort_fs ["a.xml"; "b.xlsx"; "c.xlsx"])
    as [Hraise _].
  destruct (batch_raises_exactly Scenario.abort_fs
              ["a.xml"; "broken.xlsx"; "c.xlsx"]) as [_ Hret].
  split.
  - apply Hraise.
    exists "b.xlsx", {| xml_tree := None;
                        workbook := Some [Scenario.offset_title_sheet] |},
      [Scenario.offset_title_sheet], Scenario.offset_title_sheet.
    split; [cbn; tauto|]. split; [reflexivity|]. split; [reflexivity|].
    split; [reflexivity|]. split; [now left|].
    exists 0%nat, [CEmpty; CStr "Exhibit R-1D"].
    split; [lia|]. split; [reflexivity|]. split; [reflexivity|]. intros j r Hj. lia.
  - apply Hret. vm_compute. discriminate.
Defined.

End BatchRaises.
